(** * hybrid-betting-ml: feature builder, scoring engine, ledger and scan loop

    A shallow embedding of [feature_engineering.py], [hybrid_predictor.py],
    [database.py] and [real_time_monitor.py].

    Conventions of the embedding:
    - Python [float] values are real numbers ([R]); Python [int] values are
      [Z], injected with [IZR] where the source mixes them with floats.
    - A raised exception is the [Raise] branch of [result]; [x <- c ;; k]
      sequences statements that may raise.
    - A [for] loop over a list is a left fold over that list; a loop that
      an exception can leave is [for_each_until], which returns the state
      reached and the exception. *)

From Stdlib Require Import List String ZArith QArith Reals Lra Lia Bool.
Import ListNotations.

Local Open Scope string_scope.
Local Open Scope list_scope.
Local Open Scope Z_scope.

(** ** Exceptions *)

Inductive exn : Type :=
| KeyError (key : string)
| TypeError
| ValueError (msg : string)
| FileNotFoundError (path : string)
| AttributeError.

Inductive result (A : Type) : Type :=
| Ok (a : A)
| Raise (e : exn).
Arguments Ok {A} a.
Arguments Raise {A} e.

Definition bind {A B : Type} (c : result A) (k : A -> result B) : result B :=
  match c with
  | Ok a => k a
  | Raise e => Raise e
  end.

Notation "x <- c ;; k" := (bind c (fun x => k))
  (at level 61, c at next level, right associativity).

(** [d[key]] on a dictionary whose entry may be absent. *)
Definition subscript {A : Type} (key : string) (entry : option A) : result A :=
  match entry with
  | Some a => Ok a
  | None => Raise (KeyError key)
  end.

(** A [for] loop whose body may raise: the first exception leaves the loop. *)
Fixpoint for_each {A S : Type} (body : S -> A -> result S) (xs : list A) (s : S)
  : result S :=
  match xs with
  | [] => Ok s
  | x :: rest =>
      match body s x with
      | Ok s' => for_each body rest s'
      | Raise e => Raise e
      end
  end.

(** A [for] loop whose body changes the state and may raise after that: the
    exception leaves the loop with the state reached so far. *)
Fixpoint for_each_until {A S : Type} (body : S -> A -> S * option exn)
    (xs : list A) (s : S) : S * option exn :=
  match xs with
  | [] => (s, None)
  | x :: rest =>
      match body s x with
      | (s', None) => for_each_until body rest s'
      | (s', Some e) => (s', Some e)
      end
  end.

(** [range(n)]: empty when [n <= 0]. *)
Definition range (n : Z) : list Z := map Z.of_nat (seq 0 (Z.to_nat n)).

(** [int(x)] on a float: truncation toward zero. *)
Definition py_int (x : Q) : Z := Z.quot (Qnum x) (Zpos (Qden x)).

(** [len(xs)] as a Python int. *)
Definition len {A : Type} (xs : list A) : Z := Z.of_nat (List.length xs).

Definition sum (xs : list Z) : Z := fold_left Z.add xs 0.

(** [np.mean] of a non-empty list of ints. *)
Definition np_mean (xs : list Z) : R := (IZR (sum xs) / IZR (len xs))%R.

Definition is_empty {A : Type} (xs : list A) : bool :=
  match xs with
  | [] => true
  | _ :: _ => false
  end.

(** [scipy.stats.poisson.pmf(k, mu)] for [mu >= 0]: the Poisson point mass. *)
Definition poisson_pmf (k : Z) (mu : R) : R :=
  (exp (- mu) * mu ^ Z.to_nat k / INR (fact (Z.to_nat k)))%R.

(** ** feature_engineering.py *)

Module FeatureEngineer.

(** One score entry of a match record as the feed delivers it: the key may be
    missing, may hold [null], or may hold a goal count. *)
Inductive score_entry : Type :=
| Absent
| Null
| Goals (g : Z).

(** A historical match: [m['homeTeam']['name']], [m['awayTeam']['name']],
    [m['score']['fullTime']['home']] and [...['away']].  A team name of [None]
    stands for a missing [homeTeam] / [name] key. *)
Record MatchRecord : Type := {
  homeTeam_name : option string;
  awayTeam_name : option string;
  fullTime_home : score_entry;
  fullTime_away : score_entry
}.

(** [.get(key)]: [None] when the key is missing or holds [null]. *)
Definition get (e : score_entry) : option Z :=
  match e with
  | Goals g => Some g
  | Absent | Null => None
  end.

(** [.get(key, 0)]: the default replaces a missing key only; [null] stays
    [None]. *)
Definition get_default0 (e : score_entry) : option Z :=
  match e with
  | Goals g => Some g
  | Absent => Some 0
  | Null => None
  end.

(** [name == team_name] where [name] may be [None]. *)
Definition name_eq (name : option string) (team_name : string) : bool :=
  match name with
  | Some n => String.eqb n team_name
  | None => false
  end.

(** [hg > 0 and ag > 0]: comparing [None] with an int raises [TypeError];
    [and] does not evaluate its right operand when the left one is false. *)
Definition both_positive (hg ag : option Z) : result bool :=
  match hg with
  | None => Raise TypeError
  | Some h =>
      if h >? 0 then
        match ag with
        | None => Raise TypeError
        | Some a => Ok (a >? 0)
        end
      else Ok false
  end.

(** [hg + ag]: adding [None] raises [TypeError]. *)
Definition py_add (hg ag : option Z) : result Z :=
  match hg, ag with
  | Some h, Some a => Ok (h + a)
  | _, _ => Raise TypeError
  end.

(** [x == 0] where [x] may be [None]. *)
Definition is_zero (x : option Z) : bool :=
  match x with
  | Some g => g =? 0
  | None => false
  end.

(** [n > threshold] for an int [n] and a float [threshold]. *)
Definition gt_threshold (n : Z) (threshold : Q) : bool :=
  negb (Qle_bool (inject_Z n) threshold).

Definition league_avg_goals : list (string * R) :=
  [ ("Premier League", 2.82%R);
    ("La Liga", 2.63%R);
    ("Serie A", 2.89%R);
    ("Bundesliga", 3.11%R);
    ("Ligue 1", 2.71%R) ].

(** [self.league_avg_goals.get(league, default)] *)
Fixpoint dict_get (d : list (string * R)) (key : string) (default : R) : R :=
  match d with
  | [] => default
  | (k, v) :: rest => if String.eqb k key then v else dict_get rest key default
  end.

Definition _goals_avg (matches : list MatchRecord) (team_name : string) : R :=
  let goals :=
    fold_left (fun goals m =>
      if name_eq (homeTeam_name m) team_name then
        match get (fullTime_home m) with
        | Some g => goals ++ [g]
        | None => goals
        end
      else if name_eq (awayTeam_name m) team_name then
        match get (fullTime_away m) with
        | Some g => goals ++ [g]
        | None => goals
        end
      else goals) matches [] in
  if is_empty goals then 0%R else np_mean goals.

Definition _goals_conceded_avg (matches : list MatchRecord) (team_name : string) : R :=
  let conceded :=
    fold_left (fun conceded m =>
      if name_eq (homeTeam_name m) team_name then
        match get (fullTime_away m) with
        | Some g => conceded ++ [g]
        | None => conceded
        end
      else if name_eq (awayTeam_name m) team_name then
        match get (fullTime_home m) with
        | Some g => conceded ++ [g]
        | None => conceded
        end
      else conceded) matches [] in
  if is_empty conceded then 0%R else np_mean conceded.

Definition _points_form (matches : list MatchRecord) (team_name : string) : Z :=
  fold_left (fun points m =>
    match get (fullTime_home m), get (fullTime_away m) with
    | Some hg, Some ag =>
        if name_eq (homeTeam_name m) team_name then
          if hg >? ag then points + 3
          else if hg =? ag then points + 1
          else points
        else if name_eq (awayTeam_name m) team_name then
          if ag >? hg then points + 3
          else if ag =? hg then points + 1
          else points
        else points
    | _, _ => points
    end) matches 0.

Definition _goal_difference (matches : list MatchRecord) (team_name : string) : Z :=
  let '(scored, conceded) :=
    fold_left (fun '(scored, conceded) m =>
      if name_eq (homeTeam_name m) team_name then
        match get (fullTime_home m), get (fullTime_away m) with
        | Some hg, Some ag => (scored ++ [hg], conceded ++ [ag])
        | _, _ => (scored, conceded)
        end
      else if name_eq (awayTeam_name m) team_name then
        match get (fullTime_home m), get (fullTime_away m) with
        | Some hg, Some ag => (scored ++ [ag], conceded ++ [hg])
        | _, _ => (scored, conceded)
        end
      else (scored, conceded)) matches ([], []) in
  if is_empty scored then 0 else sum scored - sum conceded.

(** The list comprehension shared by the two head-to-head functions. *)
Definition h2h_matches (home_team away_team : string) (all_matches : list MatchRecord)
  : list MatchRecord :=
  filter (fun m =>
    (name_eq (homeTeam_name m) home_team && name_eq (awayTeam_name m) away_team)
    || (name_eq (homeTeam_name m) away_team && name_eq (awayTeam_name m) home_team))
    all_matches.

Definition _h2h_goals_avg (home_team away_team : string) (all_matches : list MatchRecord)
  : R :=
  let h2h := h2h_matches home_team away_team all_matches in
  let goals :=
    fold_left (fun goals m =>
      match get (fullTime_home m), get (fullTime_away m) with
      | Some hg, Some ag => goals ++ [hg + ag]
      | _, _ => goals
      end) h2h [] in
  if is_empty goals then 2.75%R else np_mean goals.

Definition _h2h_btts_rate (home_team away_team : string) (all_matches : list MatchRecord)
  : result R :=
  let h2h := h2h_matches home_team away_team all_matches in
  btts_count <- for_each (fun btts_count m =>
      let hg := get_default0 (fullTime_home m) in
      let ag := get_default0 (fullTime_away m) in
      b <- both_positive hg ag ;;
      Ok (if b then btts_count + 1 else btts_count)) h2h 0 ;;
  Ok (if is_empty h2h then 0.5%R else (IZR btts_count / IZR (len h2h))%R).

Definition _over_rate (matches : list MatchRecord) (threshold : Q) : result R :=
  count <- for_each (fun count m =>
      let hg := get_default0 (fullTime_home m) in
      let ag := get_default0 (fullTime_away m) in
      total <- py_add hg ag ;;
      Ok (if gt_threshold total threshold then count + 1 else count)) matches 0 ;;
  Ok (if is_empty matches then 0%R else (IZR count / IZR (len matches))%R).

Definition _btts_rate (matches : list MatchRecord) (team_name : string) : result R :=
  count <- for_each (fun count m =>
      let hg := get_default0 (fullTime_home m) in
      let ag := get_default0 (fullTime_away m) in
      b <- both_positive hg ag ;;
      Ok (if b then count + 1 else count)) matches 0 ;;
  Ok (if is_empty matches then 0%R else (IZR count / IZR (len matches))%R).

Definition _win_rate (matches : list MatchRecord) (team_name : string) : R :=
  let wins :=
    fold_left (fun wins m =>
      match get (fullTime_home m), get (fullTime_away m) with
      | Some hg, Some ag =>
          if name_eq (homeTeam_name m) team_name && (hg >? ag) then wins + 1
          else if negb (name_eq (homeTeam_name m) team_name) && (ag >? hg) then wins + 1
          else wins
      | _, _ => wins
      end) matches 0 in
  if is_empty matches then 0%R else (IZR wins / IZR (len matches))%R.

Definition _clean_sheet_rate (matches : list MatchRecord) (team_name : string) : R :=
  let cs :=
    fold_left (fun cs m =>
      let hg := get_default0 (fullTime_home m) in
      let ag := get_default0 (fullTime_away m) in
      if name_eq (homeTeam_name m) team_name && is_zero ag then cs + 1
      else if negb (name_eq (homeTeam_name m) team_name) && is_zero hg then cs + 1
      else cs) matches 0 in
  if is_empty matches then 0%R else (IZR cs / IZR (len matches))%R.

Definition _poisson_over_x (lambda_home lambda_away : R) (threshold : Q) : R :=
  let prob_under :=
    fold_left (fun prob_under h =>
      fold_left (fun prob_under a =>
        if Qle_bool (inject_Z (h + a)) threshold then
          (prob_under + poisson_pmf h lambda_home * poisson_pmf a lambda_away)%R
        else prob_under)
        (range (py_int threshold + 2 - h)) prob_under)
      (range (py_int threshold + 2)) 0%R in
  (1 - prob_under)%R.

(** The feature dictionary, in insertion order (Python dictionaries keep it;
    [list(features.values())] reads the vector off in this order). *)
Definition features : Type := list (string * R).

Definition extract_features (home_team away_team : string)
    (home_history away_history : list MatchRecord)
    (league : string) (kickoff_date : Z) : result features :=
  (* BLOCK 1: Form & Momentum *)
  let home_goals_avg_5 := _goals_avg (firstn 5 home_history) home_team in
  let away_goals_avg_5 := _goals_avg (firstn 5 away_history) away_team in
  let home_goals_avg_10 := _goals_avg (firstn 10 home_history) home_team in
  let away_goals_avg_10 := _goals_avg (firstn 10 away_history) away_team in
  let home_points_form_3 := IZR (_points_form (firstn 3 home_history) home_team) in
  let away_points_form_3 := IZR (_points_form (firstn 3 away_history) away_team) in
  let home_points_form_5 := IZR (_points_form (firstn 5 home_history) home_team) in
  (* BLOCK 2: Attack/Defense Strength *)
  let league_avg := dict_get league_avg_goals league 2.75%R in
  let home_attack_strength := (home_goals_avg_10 / (league_avg / 2))%R in
  let away_attack_strength := (away_goals_avg_10 / (league_avg / 2))%R in
  let home_defense_strength :=
    (_goals_conceded_avg (firstn 10 home_history) home_team / (league_avg / 2))%R in
  let away_defense_strength :=
    (_goals_conceded_avg (firstn 10 away_history) away_team / (league_avg / 2))%R in
  let recent_5 := _goals_avg (firstn 5 home_history) home_team in
  let previous_5 := _goals_avg (firstn 5 (skipn 5 home_history)) home_team in
  let home_goals_trend := (recent_5 - previous_5)%R in
  let recent_5_a := _goals_avg (firstn 5 away_history) away_team in
  let previous_5_a := _goals_avg (firstn 5 (skipn 5 away_history)) away_team in
  let away_goals_trend := (recent_5_a - previous_5_a)%R in
  let home_conceded_trend :=
    (_goals_conceded_avg (firstn 5 home_history) home_team
     - _goals_conceded_avg (firstn 5 (skipn 5 home_history)) home_team)%R in
  let away_conceded_trend :=
    (_goals_conceded_avg (firstn 5 away_history) away_team
     - _goals_conceded_avg (firstn 5 (skipn 5 away_history)) away_team)%R in
  (* BLOCK 3: Match Context *)
  let h2h_goals := _h2h_goals_avg home_team away_team (home_history ++ away_history) in
  h2h_btts_rate <- _h2h_btts_rate home_team away_team (home_history ++ away_history) ;;
  let home_goal_diff := IZR (_goal_difference (firstn 10 home_history) home_team) in
  let away_goal_diff := IZR (_goal_difference (firstn 10 away_history) away_team) in
  (* BLOCK 4: Poisson Parameters *)
  let lambda_home :=
    (home_attack_strength * away_defense_strength * (league_avg / 2))%R in
  let lambda_away :=
    (away_attack_strength * home_defense_strength * (league_avg / 2))%R in
  let expected_total_goals := (lambda_home + lambda_away)%R in
  let poisson_over25 := _poisson_over_x lambda_home lambda_away 2.5%Q in
  (* BLOCK 5: Advanced Stats *)
  let home_wins_pct := _win_rate (firstn 10 home_history) home_team in
  let away_wins_pct := _win_rate (firstn 10 away_history) away_team in
  home_over25_rate <- _over_rate (firstn 10 home_history) 2.5%Q ;;
  away_over25_rate <- _over_rate (firstn 10 away_history) 2.5%Q ;;
  home_btts_rate <- _btts_rate (firstn 10 home_history) home_team ;;
  away_btts_rate <- _btts_rate (firstn 10 away_history) away_team ;;
  let home_clean_sheet_rate := _clean_sheet_rate (firstn 10 home_history) home_team in
  let away_clean_sheet_rate := _clean_sheet_rate (firstn 10 away_history) away_team in
  let combined_form := ((home_points_form_5 + away_points_form_3) / 2)%R in
  Ok [ ("home_goals_avg_5", home_goals_avg_5);
       ("away_goals_avg_5", away_goals_avg_5);
       ("home_goals_avg_10", home_goals_avg_10);
       ("away_goals_avg_10", away_goals_avg_10);
       ("home_points_form_3", home_points_form_3);
       ("away_points_form_3", away_points_form_3);
       ("home_points_form_5", home_points_form_5);
       ("home_attack_strength", home_attack_strength);
       ("away_attack_strength", away_attack_strength);
       ("home_defense_strength", home_defense_strength);
       ("away_defense_strength", away_defense_strength);
       ("home_goals_trend", home_goals_trend);
       ("away_goals_trend", away_goals_trend);
       ("home_conceded_trend", home_conceded_trend);
       ("away_conceded_trend", away_conceded_trend);
       ("home_advantage", 1.0%R);
       ("league_avg_goals", league_avg);
       ("home_rest_days", 7%R);
       ("away_rest_days", 7%R);
       ("h2h_goals_avg", h2h_goals);
       ("h2h_btts_rate", h2h_btts_rate);
       ("home_goal_diff", home_goal_diff);
       ("away_goal_diff", away_goal_diff);
       ("lambda_home", lambda_home);
       ("lambda_away", lambda_away);
       ("expected_total_goals", expected_total_goals);
       ("poisson_over25", poisson_over25);
       ("home_wins_pct", home_wins_pct);
       ("away_wins_pct", away_wins_pct);
       ("home_over25_rate", home_over25_rate);
       ("away_over25_rate", away_over25_rate);
       ("home_btts_rate", home_btts_rate);
       ("away_btts_rate", away_btts_rate);
       ("home_clean_sheet_rate", home_clean_sheet_rate);
       ("away_clean_sheet_rate", away_clean_sheet_rate);
       ("combined_form", combined_form) ].

(** [features_dict[key]] *)
Fixpoint item (d : features) (key : string) : result R :=
  match d with
  | [] => Raise (KeyError key)
  | (k, v) :: rest => if String.eqb k key then Ok v else item rest key
  end.

(** [list(features_dict.values())] *)
Definition values (d : features) : list R := map snd d.

End FeatureEngineer.

(** Comparisons of floats, as the booleans Python computes. *)
Definition Rltb (x y : R) : bool := if Rlt_dec x y then true else false.
Definition Rleb (x y : R) : bool := if Rle_dec x y then true else false.

(** ** hybrid_predictor.py *)

Module HybridPredictor.

(** The fitted, calibrated voting ensemble is a black box:
    [model.predict_proba(features)[0, 1]]. *)
Definition Model : Type := list R -> R.
Definition Scaler : Type := list R -> list R.

Record t : Type := {
  over25_model : option Model;
  scaler : option Scaler
}.

Definition __init__ : t := {| over25_model := None; scaler := None |}.

Record ScoringResult : Type := {
  probability : R;
  confidence : string;
  lower_bound : R;
  upper_bound : R
}.

Definition predict_over25 (self : t) (features : list R) : result ScoringResult :=
  match over25_model self with
  | None => Raise (ValueError "Model not trained!")
  | Some model =>
      let proba := model features in
      let lower := Rmax 0.0 (proba - 0.08) in
      let upper := Rmin 1.0 (proba + 0.08) in
      let confidence :=
        if Rleb 0.75 proba then "High"
        else if Rleb 0.65 proba then "Medium"
        else "Low" in
      Ok {| probability := proba;
            confidence := confidence;
            lower_bound := lower;
            upper_bound := upper |}
  end.

Definition predict_btts (lambda_home lambda_away context_multiplier : R) : R :=
  let p_home_scores := (1 - poisson_pmf 0 (lambda_home * context_multiplier))%R in
  let p_away_scores := (1 - poisson_pmf 0 (lambda_away * context_multiplier))%R in
  let p_btts := (p_home_scores * p_away_scores)%R in
  if Rltb lambda_home 1.0 || Rltb lambda_away 1.0 then (p_btts * 0.92)%R
  else p_btts.

(** The directory [pretrained/]: each pickle is there or not. *)
Record Pretrained : Type := {
  over25_voting_pkl : option Model;
  feature_scaler_pkl : option Scaler
}.

(** [load]: returns the predictor after the call and what was printed.  The
    [FileNotFoundError] of either [joblib.load] is caught inside. *)
Definition load (self : t) (path : Pretrained) : t * list string :=
  match over25_voting_pkl path with
  | None => (self, ["[WARN] Pre-trained models not found. Train first!"])
  | Some model =>
      let self1 := {| over25_model := Some model; scaler := scaler self |} in
      match feature_scaler_pkl path with
      | None => (self1, ["[WARN] Pre-trained models not found. Train first!"])
      | Some sc => ({| over25_model := Some model; scaler := Some sc |}, [])
      end
  end.

End HybridPredictor.

(** ** database.py *)

(** The prediction dictionary built by the monitor and stored by the ledger. *)
Record Prediction : Type := {
  fixture_id : Z;
  home_team : string;
  away_team : string;
  league : string;
  kickoff_utc : string;
  over25_prob : R;
  over25_confidence : string;
  btts_prob : R;
  expected_goals : R;
  home_form : R;
  away_form : R
}.

Module Database.

(** A row of table [predictions]: the autoincrement [id], [predicted_at], the
    eleven columns bound from the prediction dictionary, and [status]. *)
Record PredictionRow : Type := {
  id : Z;
  predicted_at : Z;
  columns : Prediction;
  status : string
}.

Record ResultRow : Type := {
  result_id : Z;
  result_fixture_id : Z;
  home_goals : Z;
  away_goals : Z;
  over25_actual : Z;
  btts_actual : Z;
  recorded_at : Z
}.

(** The database file: both tables and, for each, the largest [id] handed out
    so far (SQLite keeps it for [AUTOINCREMENT] columns). *)
Record t : Type := {
  predictions : list PredictionRow;
  predictions_seq : Z;
  results : list ResultRow;
  results_seq : Z
}.

(** [CREATE TABLE IF NOT EXISTS]: a new file gets two empty tables, an
    existing one is left as it is. *)
Definition _init_db (file : option t) : t :=
  match file with
  | Some db => db
  | None => {| predictions := []; predictions_seq := 0;
               results := []; results_seq := 0 |}
  end.

Definition has_fixture (fixture : Z) (row : PredictionRow) : bool :=
  fixture_id (columns row) =? fixture.

(** [INSERT OR REPLACE]: rows that would violate [fixture_id UNIQUE] are
    deleted, then the new row is inserted; [id] is freshly generated and
    [status], which the statement does not list, takes its default.
    [now] is [datetime.now()]. *)
Definition save_prediction (now : Z) (prediction : Prediction) (db : t) : t :=
  let kept :=
    filter (fun row => negb (has_fixture (fixture_id prediction) row))
           (predictions db) in
  let new_id := predictions_seq db + 1 in
  {| predictions :=
       kept ++ [ {| id := new_id; predicted_at := now;
                    columns := prediction; status := "PENDING" |} ];
     predictions_seq := new_id;
     results := results db;
     results_seq := results_seq db |}.

Definition prediction_exists (fixture : Z) (db : t) : bool :=
  len (filter (has_fixture fixture) (predictions db)) >? 0.

Definition save_result (now : Z) (fixture : Z) (home_goals away_goals : Z) (db : t) : t :=
  let over25 := if home_goals + away_goals >? 2 then 1 else 0 in
  let btts := if (home_goals >? 0) && (away_goals >? 0) then 1 else 0 in
  let new_id := results_seq db + 1 in
  {| predictions :=
       map (fun row =>
              if has_fixture fixture row then
                {| id := id row; predicted_at := predicted_at row;
                   columns := columns row; status := "FINISHED" |}
              else row) (predictions db);
     predictions_seq := predictions_seq db;
     results :=
       results db ++ [ {| result_id := new_id; result_fixture_id := fixture;
                          home_goals := home_goals; away_goals := away_goals;
                          over25_actual := over25; btts_actual := btts;
                          recorded_at := now |} ];
     results_seq := new_id |}.

(** The [predictions] rows of one fixture identifier
    ([SELECT * FROM predictions WHERE fixture_id = ?]). *)
Definition rows_of (fixture : Z) (db : t) : list PredictionRow :=
  filter (has_fixture fixture) (predictions db).

End Database.

(** ** real_time_monitor.py *)

Module RealTimeMonitor.

Import FeatureEngineer.

(** *** config.yaml *)

Record LeagueInfo : Type := {
  league_id : Z;
  league_name : string
}.

Record Monitoring : Type := {
  scan_interval_seconds : Z;
  look_ahead_days : Z;
  rate_limit_delay : Z
}.

Record Thresholds : Type := {
  over25_min_probability : R;
  btts_min_probability : R
}.

Record Config : Type := {
  football_data_org : option string;
  leagues : list (string * LeagueInfo);
  monitoring : Monitoring;
  thresholds : Thresholds
}.

(** *** The upstream feed *)

(** What one [session.get] leads to: a response with its status and the
    [matches] entry of its JSON body (which may be missing), or an exception
    (timeout, connection error). *)
Inductive http (A : Type) : Type :=
| Response (status : Z) (matches : option (list A))
| Exception.
Arguments Response {A} status matches.
Arguments Exception {A}.

(** [data.get('matches', [])] behind the status test; both fetch functions
    share it, and both turn an exception into the empty list. *)
Definition matches_of {A : Type} (r : http A) : list A :=
  match r with
  | Response status matches =>
      if status =? 200 then
        match matches with
        | Some ms => ms
        | None => []
        end
      else []
  | Exception => []
  end.

(** A date string of the feed and what [datetime.fromisoformat] makes of it:
    an instant in seconds, or [None] when it raises [ValueError]. *)
Record IsoDate : Type := {
  iso_text : string;
  iso_instant : option Z
}.

Definition fromisoformat (d : IsoDate) : result Z :=
  match iso_instant d with
  | Some t => Ok t
  | None => Raise (ValueError "Invalid isoformat string")
  end.

Record TeamRef : Type := {
  team_name : option string;
  team_id : option Z
}.

(** A fixture of the feed; [None] is a missing key. *)
Record Fixture : Type := {
  match_status : option string;
  match_utcDate : option IsoDate;
  match_id : option Z;
  match_homeTeam : option TeamRef;
  match_awayTeam : option TeamRef
}.

(** An element of the [matches] array of the feed (the entry, where the
    body has it, is taken to be an array): a fixture object, or a JSON value
    of another kind ([null], a number, a string), which has no [get]. *)
Inductive feed_entry : Type :=
| Object (mtch : Fixture)
| NotAnObject.

(** The world while one fixture is processed: how the feed answers
    [/teams/{team_id}/matches?limit=...] and what [datetime.now()] reads. *)
Record Session : Type := {
  team_matches : Z -> Z -> http MatchRecord;
  wall_clock : Z
}.

(** One pass of the loop: the instant it starts at and how the feed answers
    [/competitions/{comp_id}/matches?dateFrom=...&dateTo=...]; every entry
    comes with the world it will be processed in. *)
Record Cycle : Type := {
  now_utc : Z;
  competition_matches : Z -> Z -> Z -> http (feed_entry * Session)
}.

Record t : Type := {
  config : Config;
  api_key : string;
  predictor : HybridPredictor.t;
  running : bool
}.

(** [__init__]: [config_file] is the parsed [config.yaml] if the file exists,
    [pretrained] the model directory, [db_file] the ledger file if it exists.
    Returns the monitor, its ledger and what was printed. *)
Definition __init__ (config_file : option Config)
    (pretrained : HybridPredictor.Pretrained) (db_file : option Database.t)
  : result (t * Database.t * list string) :=
  match config_file with
  | None => Raise (FileNotFoundError "config.yaml")
  | Some cfg =>
      key <- subscript "football_data_org" (football_data_org cfg) ;;
      let '(predictor, printed) :=
        HybridPredictor.load HybridPredictor.__init__ pretrained in
      let db := Database._init_db db_file in
      Ok ({| config := cfg; api_key := key;
             predictor := predictor; running := true |}, db, printed)
  end.

Definition _fetch_matches (c : Cycle) (comp_id date_from date_to : Z)
  : list (feed_entry * Session) :=
  matches_of (competition_matches c comp_id date_from date_to).

Definition _fetch_team_history (session : Session) (team_id limit : Z)
  : list MatchRecord :=
  matches_of (team_matches session team_id limit).

(** The three ways [_predict_match] returns: [None] before scoring (line 176),
    [None] after scoring (line 205), or the prediction dictionary. *)
Inductive predict_return : Type :=
| NoHistory
| BelowThreshold (over25_result : HybridPredictor.ScoringResult) (btts_prob : R)
| Accepted (prediction : Prediction).

Definition _predict_match (self : t) (session : Session) (mtch : Fixture)
    (league : string) : result predict_return :=
  home <- subscript "homeTeam" (match_homeTeam mtch) ;;
  home_team <- subscript "name" (team_name home) ;;
  away <- subscript "awayTeam" (match_awayTeam mtch) ;;
  away_team <- subscript "name" (team_name away) ;;
  home_id <- subscript "id" (team_id home) ;;
  away_id <- subscript "id" (team_id away) ;;
  kickoff <- subscript "utcDate" (match_utcDate mtch) ;;
  (* Fetch history *)
  let home_history := _fetch_team_history session home_id 15 in
  let away_history := _fetch_team_history session away_id 15 in
  if is_empty home_history || is_empty away_history then Ok NoHistory
  else
    (* Extract features *)
    kickoff_date <- fromisoformat kickoff ;;
    features_dict <- extract_features home_team away_team
                       home_history away_history league kickoff_date ;;
    let feature_vector := values features_dict in
    (* Predict Over 2.5 *)
    over25_result <- HybridPredictor.predict_over25 (predictor self) feature_vector ;;
    (* Predict BTTS *)
    lambda_home <- item features_dict "lambda_home" ;;
    lambda_away <- item features_dict "lambda_away" ;;
    let btts_prob := HybridPredictor.predict_btts lambda_home lambda_away 1.0 in
    (* Apply thresholds *)
    let min_over25 := over25_min_probability (thresholds (config self)) in
    let min_btts := btts_min_probability (thresholds (config self)) in
    if Rltb (HybridPredictor.probability over25_result) min_over25 then
      Ok (BelowThreshold over25_result btts_prob)
    else
      fixture <- subscript "id" (match_id mtch) ;;
      expected_total_goals <- item features_dict "expected_total_goals" ;;
      home_points_form_5 <- item features_dict "home_points_form_5" ;;
      away_points_form_3 <- item features_dict "away_points_form_3" ;;
      Ok (Accepted
            {| fixture_id := fixture;
               home_team := home_team;
               away_team := away_team;
               league := league;
               kickoff_utc := iso_text kickoff;
               over25_prob := HybridPredictor.probability over25_result;
               over25_confidence := HybridPredictor.confidence over25_result;
               btts_prob := btts_prob;
               expected_goals := expected_total_goals;
               home_form := home_points_form_5;
               away_form := away_points_form_3 |}).

(** How the body of the fixture loop (lines 98-126) was left. *)
Inductive outcome : Type :=
| NotScheduled
| PastKickoff
| AlreadyPredicted
| Returned (r : predict_return)
| Caught (e : exn).

Definition is_scheduled (status : option string) : bool :=
  match status with
  | Some s => String.eqb s "SCHEDULED" || String.eqb s "TIMED"
  | None => false
  end.

(** The [try] block of the loop body: the ledger after it and how it ended,
    or the exception that left it. *)
Definition try_match (self : t) (now : Z) (comp_name : string)
    (db : Database.t) (mtch : Fixture) (session : Session)
  : result (Database.t * outcome) :=
  date <- subscript "utcDate" (match_utcDate mtch) ;;
  kickoff <- fromisoformat date ;;
  if kickoff <=? now then Ok (db, PastKickoff)
  else
    fixture <- subscript "id" (match_id mtch) ;;
    if Database.prediction_exists fixture db then Ok (db, AlreadyPredicted)
    else
      prediction <- _predict_match self session mtch comp_name ;;
      match prediction with
      | Accepted p =>
          Ok (Database.save_prediction (wall_clock session) p db, Returned prediction)
      | _ => Ok (db, Returned prediction)
      end.

(** One iteration of [for match in matches] on an entry that is an object
    (on it the status test of line 98 cannot raise).  [except Exception] logs
    and continues; the ledger is then as the [try] block found it, because
    [save_prediction] is the only write of the block and what follows it (the
    log line, the rate-limit sleep) does not raise.  The sleep itself, which
    follows every [Returned] outcome, changes nothing that is modelled. *)
Definition process_match (self : t) (now : Z) (comp_name : string)
    (db : Database.t) (item : Fixture * Session) : Database.t * outcome :=
  let '(mtch, session) := item in
  if negb (is_scheduled (match_status mtch)) then (db, NotScheduled)
  else
    match try_match self now comp_name db mtch session with
    | Ok r => r
    | Raise e => (db, Caught e)
    end.

(** The journal of a scan: every fixture met, with the way its iteration
    ended. *)
Definition journal : Type := list (Fixture * outcome).

(** The body of [for match in matches] on any entry.  The status test of
    line 98, [match.get('status')], stands before the [try] of line 101: on
    an entry that is not an object it raises [AttributeError], which nothing
    inside the scan catches. *)
Definition iteration (self : t) (now : Z) (comp_name : string)
    (state : Database.t * journal) (item : feed_entry * Session)
  : (Database.t * journal) * option exn :=
  match fst item with
  | NotAnObject => (state, Some AttributeError)
  | Object mtch =>
      let '(db', o) :=
        process_match self now comp_name (fst state) (mtch, snd item) in
      ((db', snd state ++ [(mtch, o)]), None)
  end.

(** The fixture loop of one competition: the state it reaches and the
    exception that left it, if any. *)
Definition scan_matches (self : t) (now : Z) (comp_name : string)
    (matches : list (feed_entry * Session)) (state : Database.t * journal)
  : (Database.t * journal) * option exn :=
  for_each_until (iteration self now comp_name) matches state.

Definition seconds_per_day : Z := 86400.

(** An exception that leaves a fixture loop leaves the loop over the leagues
    and the scan as well. *)
Definition scan_upcoming_matches (self : t) (c : Cycle)
    (state : Database.t * journal) : (Database.t * journal) * option exn :=
  let date_from := now_utc c / seconds_per_day in
  let look_ahead := look_ahead_days (monitoring (config self)) in
  let date_to := date_from + look_ahead in
  for_each_until (fun state '(code, info) =>
               let comp_id := league_id info in
               let comp_name := league_name info in
               let matches := _fetch_matches c comp_id date_from date_to in
               scan_matches self (now_utc c) comp_name matches state)
            (leagues (config self)) state.

(** [while self.running]: the loop has no exit of its own; [cycles] are the
    passes made until the process is stopped.  An exception that leaves a
    scan is caught here ([except Exception]: an error line, a minute of
    sleep) and the next pass starts from the ledger as the scan left it. *)
Definition monitor_loop (self : t) (cycles : list Cycle) (db : Database.t)
  : Database.t * journal :=
  if running self then
    fold_left (fun state c => fst (scan_upcoming_matches self c state))
              cycles (db, [])
  else (db, []).

Definition main (config_file : option Config)
    (pretrained : HybridPredictor.Pretrained) (db_file : option Database.t)
    (cycles : list Cycle) : result (Database.t * journal) :=
  started <- __init__ config_file pretrained db_file ;;
  let '(monitor, db, _) := started in
  Ok (monitor_loop monitor cycles db).


(** Reading the journal: the fixtures that reached the model and were given
    a probability, and those whose prediction went to the ledger. *)
Definition was_scored (o : outcome) : bool :=
  match o with
  | Returned (BelowThreshold _ _) | Returned (Accepted _) => true
  | _ => false
  end.

Definition was_saved (o : outcome) : bool :=
  match o with
  | Returned (Accepted _) => true
  | _ => false
  end.

Definition is_fixture (fixture : Z) (mtch : Fixture) : bool :=
  match match_id mtch with
  | Some i => i =? fixture
  | None => false
  end.

Definition times_scored (fixture : Z) (log : journal) : nat :=
  List.length (filter (fun e => is_fixture fixture (fst e) && was_scored (snd e)) log).

Definition times_saved (fixture : Z) (log : journal) : nat :=
  List.length (filter (fun e => is_fixture fixture (fst e) && was_saved (snd e)) log).

(** A history request of this fixture ends in an exception. *)
Definition history_fetch_fails (mtch : Fixture) (session : Session) : Prop :=
  exists team tid,
    (match_homeTeam mtch = Some team \/ match_awayTeam mtch = Some team)
    /\ team_id team = Some tid
    /\ team_matches session tid 15 = Exception.


End RealTimeMonitor.

(** ** The closed form the over-threshold probability is compared with *)

Module ClosedForm.

(** The Poisson point mass [lam^k e^(-lam) / k!]. *)
Definition Pois (k : nat) (lam : R) : R :=
  (lam ^ k * exp (- lam) / INR (fact k))%R.

(** The pairs of non-negative integers whose sum does not exceed [n]. *)
Definition pairs_within (n : nat) : list (nat * nat) :=
  filter (fun '(h, a) => (h + a <=? n)%nat)
         (list_prod (seq 0 (S n)) (seq 0 (S n))).

Definition Rsum (xs : list R) : R := fold_right Rplus 0%R xs.

(** [1 - sum over h + a <= n of Pois(h; lam_home) * Pois(a; lam_away)] *)
Definition over_closed_form (n : nat) (lam_home lam_away : R) : R :=
  (1 - Rsum (map (fun '(h, a) => Pois h lam_home * Pois a lam_away)
                 (pairs_within n)))%R.

End ClosedForm.

(** ** Sample data *)

Module Scenario.

Import FeatureEngineer RealTimeMonitor.

(** A finished match of the feed. *)
Definition finished (home away : string) (hg ag : Z) : MatchRecord :=
  {| homeTeam_name := Some home; awayTeam_name := Some away;
     fullTime_home := Goals hg; fullTime_away := Goals ag |}.

(** A match without a final score: the score keys are not there, or they
    hold [null]. *)
Definition unscored (home away : string) : MatchRecord :=
  {| homeTeam_name := Some home; awayTeam_name := Some away;
     fullTime_home := Absent; fullTime_away := Absent |}.

Definition null_scored (home away : string) : MatchRecord :=
  {| homeTeam_name := Some home; awayTeam_name := Some away;
     fullTime_home := Null; fullTime_away := Null |}.

(** What the specification asks of a window: matches without a final score
    are left out before anything is computed. *)
Definition has_score (m : MatchRecord) : bool :=
  match get (fullTime_home m), get (fullTime_away m) with
  | None, None => false
  | _, _ => true
  end.

Definition config : Config :=
  {| football_data_org := Some "token";
     leagues := [("PL", {| league_id := 2021; league_name := "Premier League" |})];
     monitoring := {| scan_interval_seconds := 300;
                      look_ahead_days := 7;
                      rate_limit_delay := 6 |};
     thresholds := {| over25_min_probability := 0.65%R;
                      btts_min_probability := 0.60%R |} |}.

(** Two fitted models: one always answers 0.5, one always 0.8. *)
Definition cautious : HybridPredictor.Model := fun _ => 0.5%R.
Definition keen : HybridPredictor.Model := fun _ => 0.8%R.
Definition identity_scaler : HybridPredictor.Scaler := fun v => v.

Definition no_artifacts : HybridPredictor.Pretrained :=
  {| HybridPredictor.over25_voting_pkl := None;
     HybridPredictor.feature_scaler_pkl := None |}.

Definition artifacts (model : HybridPredictor.Model) : HybridPredictor.Pretrained :=
  {| HybridPredictor.over25_voting_pkl := Some model;
     HybridPredictor.feature_scaler_pkl := Some identity_scaler |}.

Definition monitor (model : option HybridPredictor.Model) : RealTimeMonitor.t :=
  {| RealTimeMonitor.config := config;
     api_key := "token";
     predictor := {| HybridPredictor.over25_model := model;
                     HybridPredictor.scaler := None |};
     running := true |}.

Definition fixture (i : Z) : Fixture :=
  {| match_status := Some "SCHEDULED";
     match_utcDate := Some {| iso_text := "2025-01-04T15:00:00Z";
                              iso_instant := Some 1736002800 |};
     match_id := Some i;
     match_homeTeam := Some {| team_name := Some "Arsenal"; team_id := Some 57 |};
     match_awayTeam := Some {| team_name := Some "Chelsea"; team_id := Some 61 |} |}.


(** The feed answers every history request with one finished match. *)
Definition session (clock : Z) : Session :=
  {| team_matches := fun _ _ =>
       Response 200 (Some [finished "Arsenal" "Chelsea" 2 1]);
     wall_clock := clock |}.

(** The feed fails on every history request. *)
Definition offline (clock : Z) : Session :=
  {| team_matches := fun _ _ => Exception; wall_clock := clock |}.

Definition cycle (now : Z) (fixtures : list (Fixture * Session)) : Cycle :=
  {| now_utc := now;
     competition_matches := fun _ _ _ =>
       Response 200 (Some (map (fun item => (Object (fst item), snd item))
                               fixtures)) |}.


Definition empty_db : Database.t := Database._init_db None.

(** A prediction as an earlier pass may have left it in the ledger. *)
Definition prediction (i : Z) : Prediction :=
  {| fixture_id := i;
     home_team := "Arsenal";
     away_team := "Chelsea";
     league := "Premier League";
     kickoff_utc := "2025-01-04T15:00:00Z";
     over25_prob := 0.8%R;
     over25_confidence := "High";
     btts_prob := 0.5%R;
     expected_goals := 3%R;
     home_form := 3%R;
     away_form := 0%R |}.

(** The same fixture predicted anew, with other values. *)
Definition revised_prediction (i : Z) : Prediction :=
  {| fixture_id := i;
     home_team := "Arsenal";
     away_team := "Chelsea";
     league := "Premier League";
     kickoff_utc := "2025-01-04T15:00:00Z";
     over25_prob := 0.7%R;
     over25_confidence := "Medium";
     btts_prob := 0.4%R;
     expected_goals := 2.5%R;
     home_form := 1%R;
     away_form := 3%R |}.

End Scenario.

(** ** database.py, the accuracy report *)

Module Accuracy.

Import Database.

Record Stats : Type := {
  accuracy_over25 : R;
  accuracy_btts : R;
  total : Z
}.

(** [FROM predictions p JOIN results r ON p.fixture_id = r.fixture_id
    WHERE p.predicted_at >= datetime('now', '-N days')]: one joined row per
    pair of a prediction inside the window and a result of its fixture.
    [in_window t] is the truth of the [WHERE] clause for [predicted_at = t]. *)
Definition joined (in_window : Z -> bool) (db : t)
  : list (PredictionRow * ResultRow) :=
  flat_map (fun p =>
              map (fun r => (p, r))
                  (filter (fun r => result_fixture_id r =? fixture_id (columns p))
                          (results db)))
           (filter (fun p => in_window (predicted_at p)) (predictions db)).

(** The two [CASE WHEN ... THEN 1 ELSE 0 END] conditions. *)
Definition over25_hit (row : PredictionRow * ResultRow) : bool :=
  let '(p, r) := row in
  ((over25_actual r =? 1) && Rleb 0.65 (over25_prob (columns p)))
  || ((over25_actual r =? 0) && Rltb (over25_prob (columns p)) 0.65).

Definition btts_hit (row : PredictionRow * ResultRow) : bool :=
  let '(p, r) := row in
  ((btts_actual r =? 1) && Rleb 0.60 (btts_prob (columns p)))
  || ((btts_actual r =? 0) && Rltb (btts_prob (columns p)) 0.60).

Definition get_accuracy_stats (in_window : Z -> bool) (db : t) : Stats :=
  let rows := joined in_window db in
  let total := len rows in
  let correct_over25 := len (filter over25_hit rows) in
  let correct_btts := len (filter btts_hit rows) in
  if total =? 0 then
    {| accuracy_over25 := 0.0; accuracy_btts := 0.0; total := 0 |}
  else
    {| accuracy_over25 := (IZR correct_over25 / IZR total)%R;
       accuracy_btts := (IZR correct_btts / IZR total)%R;
       total := total |}.

End Accuracy.

(** ** Histories of ledger calls *)

Module LedgerHistory.

Import Database.

(** One call of a writing method of [Database]. *)
Inductive call : Type :=
| SavePrediction (now : Z) (prediction : Prediction)
| SaveResult (now fixture home_goals away_goals : Z).

Definition perform (db : t) (c : call) : t :=
  match c with
  | SavePrediction now p => save_prediction now p db
  | SaveResult now fixture hg ag => save_result now fixture hg ag db
  end.

Definition replay (calls : list call) (db : t) : t := fold_left perform calls db.

(** What the schema promises of table [predictions]: [fixture_id UNIQUE],
    [id PRIMARY KEY], and no [id] above the autoincrement counter. *)
Definition consistent (db : t) : Prop :=
  NoDup (map (fun row => fixture_id (columns row)) (predictions db))
  /\ NoDup (map id (predictions db))
  /\ Forall (fun row => id row <= predictions_seq db) (predictions db).

End LedgerHistory.

(** ** The feature schema *)

Module FeatureSchema.

Import FeatureEngineer.

(** The keys of the feature dictionary, in the order they are assigned. *)
Definition feature_names : list string :=
  [ "home_goals_avg_5"; "away_goals_avg_5"; "home_goals_avg_10";
    "away_goals_avg_10"; "home_points_form_3"; "away_points_form_3";
    "home_points_form_5"; "home_attack_strength"; "away_attack_strength";
    "home_defense_strength"; "away_defense_strength"; "home_goals_trend";
    "away_goals_trend"; "home_conceded_trend"; "away_conceded_trend";
    "home_advantage"; "league_avg_goals"; "home_rest_days"; "away_rest_days";
    "h2h_goals_avg"; "h2h_btts_rate"; "home_goal_diff"; "away_goal_diff";
    "lambda_home"; "lambda_away"; "expected_total_goals"; "poisson_over25";
    "home_wins_pct"; "away_wins_pct"; "home_over25_rate"; "away_over25_rate";
    "home_btts_rate"; "away_btts_rate"; "home_clean_sheet_rate";
    "away_clean_sheet_rate"; "combined_form" ].

Definition is_null (e : score_entry) : bool :=
  match e with
  | Null => true
  | _ => false
  end.

(** A record one of whose score entries is [null]. *)
Definition has_null (m : MatchRecord) : bool :=
  is_null (fullTime_home m) || is_null (fullTime_away m).

Definition entry_nonneg (e : score_entry) : bool :=
  match e with
  | Goals g => 0 <=? g
  | _ => true
  end.

(** A record whose goal counts, where present, are not negative. *)
Definition goals_nonneg (m : MatchRecord) : bool :=
  entry_nonneg (fullTime_home m) && entry_nonneg (fullTime_away m).

(** The same match seen from the other ground: sides and scores swapped. *)
Definition mirror (m : MatchRecord) : MatchRecord :=
  {| homeTeam_name := awayTeam_name m;
     awayTeam_name := homeTeam_name m;
     fullTime_home := fullTime_away m;
     fullTime_away := fullTime_home m |}.

End FeatureSchema.

(** ** The feed of one pass *)

Module CycleFeed.

Import RealTimeMonitor.

(** The feed has nothing for any competition: every request ends in an
    exception, in a status other than 200, or in a body without matches. *)
Definition feed_silent (c : Cycle) : Prop :=
  forall comp_id date_from date_to,
    matches_of (competition_matches c comp_id date_from date_to) = [].

End CycleFeed.

(** * Properties *)

(** ** The ledger *)

Section Ledger.

Import Database.

Lemma filter_conflicting (fixture : Z) (rows : list PredictionRow) :
  filter (has_fixture fixture)
         (filter (fun row => negb (has_fixture fixture row)) rows) = [].
Proof.
  induction rows as [|row rows IH]; simpl; [reflexivity|].
  destruct (has_fixture fixture row) eqn:E; simpl; [exact IH|].
  now rewrite E.
Qed.

Lemma filter_other (fixture other : Z) (rows : list PredictionRow) :
  other <> fixture ->
  filter (has_fixture other)
         (filter (fun row => negb (has_fixture fixture row)) rows)
  = filter (has_fixture other) rows.
Proof.
  intros Hne. induction rows as [|row rows IH]; simpl; [reflexivity|].
  unfold has_fixture at 2 4.
  destruct (fixture_id (columns row) =? fixture) eqn:E; simpl.
  - apply Z.eqb_eq in E.
    destruct (has_fixture other row) eqn:E'; [|exact IH].
    unfold has_fixture in E'. apply Z.eqb_eq in E'. congruence.
  - destruct (has_fixture other row); [f_equal|]; exact IH.
Qed.

Lemma rows_of_save_same (now : Z) (p : Prediction) (db : Database.t) :
  rows_of (fixture_id p) (save_prediction now p db)
  = [ {| id := predictions_seq db + 1; predicted_at := now;
         columns := p; status := "PENDING" |} ].
Proof.
  unfold rows_of, save_prediction; simpl.
  rewrite filter_app, filter_conflicting; simpl.
  unfold has_fixture; simpl. now rewrite Z.eqb_refl.
Qed.

Lemma rows_of_save_other (now : Z) (p : Prediction) (db : Database.t) (other : Z) :
  other <> fixture_id p ->
  rows_of other (save_prediction now p db) = rows_of other db.
Proof.
  intros Hne. unfold rows_of, save_prediction; simpl.
  rewrite filter_app, filter_other by exact Hne; simpl.
  unfold has_fixture at 2; simpl.
  destruct (fixture_id p =? other) eqn:E.
  - apply Z.eqb_eq in E. congruence.
  - apply app_nil_r.
Qed.

Lemma prediction_exists_rows (fixture : Z) (db : Database.t) :
  prediction_exists fixture db = negb (is_empty (rows_of fixture db)).
Proof.
  unfold prediction_exists, rows_of, len.
  destruct (filter _ _); reflexivity.
Qed.

Lemma prediction_exists_save (now : Z) (p : Prediction) (db : Database.t) (fixture : Z) :
  prediction_exists fixture (save_prediction now p db)
  = (fixture =? fixture_id p) || prediction_exists fixture db.
Proof.
  rewrite !prediction_exists_rows.
  destruct (fixture =? fixture_id p) eqn:E.
  - apply Z.eqb_eq in E; subst. now rewrite rows_of_save_same.
  - apply Z.eqb_neq in E. now rewrite rows_of_save_other.
Qed.

Lemma rows_of_save_result (now fixture hg ag : Z) (db : Database.t) :
  rows_of fixture (save_result now fixture hg ag db)
  = map (fun row => {| id := id row; predicted_at := predicted_at row;
                       columns := columns row; status := "FINISHED" |})
        (rows_of fixture db).
Proof.
  unfold rows_of, save_result; simpl.
  induction (predictions db) as [|row rows IH]; simpl; [reflexivity|].
  destruct (has_fixture fixture row) eqn:E; simpl.
  - unfold has_fixture at 1; simpl. unfold has_fixture in E. rewrite E.
    simpl. f_equal. exact IH.
  - rewrite E. exact IH.
Qed.

End Ledger.

(** C3. Two inserts for one fixture identifier leave exactly one
    [predictions] row for it, and that row holds the second prediction: the
    rows selected by the identifier are the single row made from [q]. *)
Theorem C3_second_insert_overwrites
    (now1 now2 : Z) (p q : Prediction) (db : Database.t) :
  fixture_id p = fixture_id q ->
  let first := Database.save_prediction now1 p db in
  let second := Database.save_prediction now2 q first in
  Database.rows_of (fixture_id q) first
  = [ {| Database.id := Database.predictions_seq db + 1;
         Database.predicted_at := now1;
         Database.columns := p;
         Database.status := "PENDING" |} ]
  /\ Database.rows_of (fixture_id q) second
     = [ {| Database.id := Database.predictions_seq db + 2;
            Database.predicted_at := now2;
            Database.columns := q;
            Database.status := "PENDING" |} ].
Proof.
  intros Hid first second. subst first second. split.
  - rewrite <- Hid. apply rows_of_save_same.
  - rewrite rows_of_save_same. simpl.
    now replace (Database.predictions_seq db + 1 + 1)
      with (Database.predictions_seq db + 2) by lia.
Qed.

Lemma C3_second_insert_overwrites_witness :
  fixture_id (Scenario.prediction 7) = fixture_id (Scenario.revised_prediction 7)
  /\ Database.rows_of 7
       (Database.save_prediction 10 (Scenario.prediction 7) Scenario.empty_db)
     = [ {| Database.id := 1; Database.predicted_at := 10;
            Database.columns := Scenario.prediction 7;
            Database.status := "PENDING" |} ]
  /\ Database.rows_of 7
       (Database.save_prediction 20 (Scenario.revised_prediction 7)
          (Database.save_prediction 10 (Scenario.prediction 7) Scenario.empty_db))
     = [ {| Database.id := 2; Database.predicted_at := 20;
            Database.columns := Scenario.revised_prediction 7;
            Database.status := "PENDING" |} ].
Proof.
  split; [reflexivity|].
  exact (C3_second_insert_overwrites 10 20 (Scenario.prediction 7)
           (Scenario.revised_prediction 7) Scenario.empty_db eq_refl).
Defined.

(** C10. Once [save_result] has set the row of a fixture to FINISHED, a
    further [save_prediction] for that fixture leaves one row whose status
    is PENDING again. *)
Theorem C10_reinsert_resets_status
    (now2 now3 hg ag : Z) (q : Prediction) (db : Database.t) :
  Database.prediction_exists (fixture_id q) db = true ->
  let finished := Database.save_result now2 (fixture_id q) hg ag db in
  let reinserted := Database.save_prediction now3 q finished in
  Database.rows_of (fixture_id q) finished <> []
  /\ Forall (fun row => Database.status row = "FINISHED")
            (Database.rows_of (fixture_id q) finished)
  /\ map Database.status (Database.rows_of (fixture_id q) reinserted) = ["PENDING"].
Proof.
  intros Hex finished reinserted. subst finished reinserted.
  rewrite rows_of_save_result, rows_of_save_same.
  rewrite prediction_exists_rows in Hex.
  split; [|split].
  - destruct (Database.rows_of (fixture_id q) db); [discriminate|]. simpl. discriminate.
  - apply Forall_forall. intros row Hin. apply in_map_iff in Hin.
    destruct Hin as [r [<- _]]. reflexivity.
  - reflexivity.
Qed.

Lemma C10_reinsert_resets_status_witness :
  let db := Database.save_prediction 10 (Scenario.prediction 7) Scenario.empty_db in
  let finished := Database.save_result 20 7 2 1 db in
  let reinserted :=
    Database.save_prediction 30 (Scenario.revised_prediction 7) finished in
  Database.prediction_exists 7 db = true
  /\ Database.rows_of 7 finished <> []
  /\ Forall (fun row => Database.status row = "FINISHED") (Database.rows_of 7 finished)
  /\ map Database.status (Database.rows_of 7 reinserted) = ["PENDING"].
Proof.
  intros db finished reinserted. split; [reflexivity|].
  exact (C10_reinsert_resets_status 20 30 2 1 (Scenario.revised_prediction 7) db
           eq_refl).
Defined.

(** ** The feature builder *)

Lemma pairs_within_spec (n h a : nat) :
  In (h, a) (ClosedForm.pairs_within n) <-> (h + a <= n)%nat.
Proof.
  unfold ClosedForm.pairs_within. rewrite filter_In, in_prod_iff, !in_seq.
  rewrite Nat.leb_le. lia.
Qed.

Lemma pairs_within_2_NoDup : NoDup (ClosedForm.pairs_within 2).
Proof.
  cbv. repeat constructor; cbv; intuition congruence.
Qed.

(** C4. With threshold 2.5 the loop of [_poisson_over_x] adds up exactly the
    joint point masses of the pairs [(h, a)] with [h + a <= 2], so the result
    is one minus that sum. *)
Theorem C4_poisson_over25_closed_form (lambda_home lambda_away : R) :
  (0 <= lambda_home)%R -> (0 <= lambda_away)%R ->
  FeatureEngineer._poisson_over_x lambda_home lambda_away 2.5%Q
  = ClosedForm.over_closed_form 2 lambda_home lambda_away.
Proof.
  intros _ _.
  unfold FeatureEngineer._poisson_over_x, ClosedForm.over_closed_form.
  simpl. unfold poisson_pmf, ClosedForm.Pois. simpl.
  field.
Qed.

Lemma C4_poisson_over25_closed_form_witness :
  (0 <= 1.2)%R /\ (0 <= 1.0)%R
  /\ FeatureEngineer._poisson_over_x 1.2 1.0 2.5%Q
     = ClosedForm.over_closed_form 2 1.2 1.0.
Proof.
  split; [lra|]. split; [lra|].
  apply (C4_poisson_over25_closed_form 1.2 1.0); lra.
Defined.

(** ** The scoring engine *)

Lemma poisson_pmf_0 (mu : R) : poisson_pmf 0 mu = exp (- mu).
Proof. unfold poisson_pmf. simpl. field. Qed.

(** The chance that a side scores at least once, [1 - e^(-rate)]. *)
Lemma scores_bounds (rate : R) :
  (0 <= rate -> 0 <= 1 - exp (- rate) <= 1)%R.
Proof.
  intros Hr. pose proof (exp_pos (- rate)) as Hpos.
  assert (exp (- rate) <= 1)%R.
  { rewrite <- exp_0. destruct Hr as [Hr| <-].
    - left. apply exp_increasing. lra.
    - rewrite Ropp_0. lra. }
  lra.
Qed.

Lemma scores_monotone (r1 r2 : R) :
  (r1 <= r2 -> 1 - exp (- r1) <= 1 - exp (- r2))%R.
Proof.
  intros [Hlt| <-]; [|lra].
  assert (exp (- r2) < exp (- r1))%R by (apply exp_increasing; lra). lra.
Qed.

Lemma predict_btts_unfold (lambda_home lambda_away : R) :
  HybridPredictor.predict_btts lambda_home lambda_away 1.0
  = ((1 - exp (- lambda_home)) * (1 - exp (- lambda_away))
     * (if Rltb lambda_home 1.0 || Rltb lambda_away 1.0 then 0.92 else 1))%R.
Proof.
  unfold HybridPredictor.predict_btts. rewrite !poisson_pmf_0.
  replace (lambda_home * 1.0)%R with lambda_home by lra.
  replace (lambda_away * 1.0)%R with lambda_away by lra.
  destruct (Rltb lambda_home 1.0 || Rltb lambda_away 1.0); lra.
Qed.

(** The dampening factor can only grow when a rate grows. *)
Lemma dampening_monotone (h1 h2 a1 a2 : R) :
  (h1 <= h2)%R -> (a1 <= a2)%R ->
  let damp h a := if Rltb h 1.0 || Rltb a 1.0 then 0.92%R else 1%R in
  (0.92 <= damp h1 a1 <= damp h2 a2 /\ damp h2 a2 <= 1)%R.
Proof.
  intros Hh Ha damp. subst damp. cbv beta. unfold Rltb.
  destruct (Rlt_dec h1 1.0), (Rlt_dec a1 1.0), (Rlt_dec h2 1.0), (Rlt_dec a2 1.0);
    simpl; lra.
Qed.

(** C5. With context multiplier 1.0 and non-negative rates, [predict_btts]
    lies in [0, 1] and does not decrease when either rate grows, whichever
    side of 1.0 the rates are on. *)
Theorem C5_predict_btts_range_and_monotone (lambda_home lambda_away : R) :
  (0 <= lambda_home)%R -> (0 <= lambda_away)%R ->
  (0 <= HybridPredictor.predict_btts lambda_home lambda_away 1.0 <= 1)%R
  /\ (forall lambda_home', (lambda_home <= lambda_home')%R ->
        (HybridPredictor.predict_btts lambda_home lambda_away 1.0
         <= HybridPredictor.predict_btts lambda_home' lambda_away 1.0)%R)
  /\ (forall lambda_away', (lambda_away <= lambda_away')%R ->
        (HybridPredictor.predict_btts lambda_home lambda_away 1.0
         <= HybridPredictor.predict_btts lambda_home lambda_away' 1.0)%R).
Proof.
  intros Hh Ha.
  pose proof (scores_bounds lambda_home Hh) as Bh.
  pose proof (scores_bounds lambda_away Ha) as Ba.
  split; [|split].
  - rewrite predict_btts_unfold.
    pose proof (dampening_monotone lambda_home lambda_home lambda_away lambda_away
                  (Rle_refl _) (Rle_refl _)) as D. cbv zeta beta in D.
    destruct (Rltb lambda_home 1.0 || Rltb lambda_away 1.0); nra.
  - intros h' Hle. rewrite !predict_btts_unfold.
    pose proof (scores_bounds h' ltac:(lra)) as Bh'.
    pose proof (scores_monotone _ _ Hle) as M.
    pose proof (dampening_monotone lambda_home h' lambda_away lambda_away
                  Hle (Rle_refl _)) as D. cbv zeta beta in D.
    set (d1 := if Rltb lambda_home 1.0 || Rltb lambda_away 1.0 then _ else _) in *.
    set (d2 := if Rltb h' 1.0 || Rltb lambda_away 1.0 then _ else _) in *.
    set (x := (1 - exp (- lambda_home))%R) in *.
    set (x' := (1 - exp (- h'))%R) in *.
    set (y := (1 - exp (- lambda_away))%R) in *.
    assert (x * y <= x' * y)%R by nra.
    assert (0 <= x * y)%R by nra.
    nra.
  - intros a' Hle. rewrite !predict_btts_unfold.
    pose proof (scores_bounds a' ltac:(lra)) as Ba'.
    pose proof (scores_monotone _ _ Hle) as M.
    pose proof (dampening_monotone lambda_home lambda_home lambda_away a'
                  (Rle_refl _) Hle) as D. cbv zeta beta in D.
    set (d1 := if Rltb lambda_home 1.0 || Rltb lambda_away 1.0 then _ else _) in *.
    set (d2 := if Rltb lambda_home 1.0 || Rltb a' 1.0 then _ else _) in *.
    set (x := (1 - exp (- lambda_home))%R) in *.
    set (y := (1 - exp (- lambda_away))%R) in *.
    set (y' := (1 - exp (- a'))%R) in *.
    assert (x * y <= x * y')%R by nra.
    assert (0 <= x * y)%R by nra.
    nra.
Qed.

Lemma C5_predict_btts_range_and_monotone_witness :
  (0 <= 0.5)%R /\ (0 <= 1.5)%R
  /\ (0 <= HybridPredictor.predict_btts 0.5 1.5 1.0 <= 1)%R
  /\ (HybridPredictor.predict_btts 0.5 1.5 1.0
      <= HybridPredictor.predict_btts 1.0 1.5 1.0)%R
  /\ (HybridPredictor.predict_btts 0.5 1.5 1.0
      <= HybridPredictor.predict_btts 0.5 2.5 1.0)%R.
Proof.
  assert (H5 : (0 <= 0.5)%R) by lra.
  assert (H15 : (0 <= 1.5)%R) by lra.
  destruct (C5_predict_btts_range_and_monotone 0.5 1.5 H5 H15) as [B [Mh Ma]].
  split; [exact H5|]. split; [exact H15|]. split; [exact B|].
  split; [apply Mh; lra | apply Ma; lra].
Defined.

(** Every league, known or not, has a non-zero half average: the divisions
    of the strength features cannot raise [ZeroDivisionError]. *)
Lemma league_avg_positive (league : string) :
  (2 < FeatureEngineer.dict_get FeatureEngineer.league_avg_goals league 2.75)%R.
Proof.
  unfold FeatureEngineer.league_avg_goals. simpl.
  repeat match goal with
         | |- context [if ?b then _ else _] => destruct b
         end; lra.
Qed.

Lemma poisson_over_x_zero :
  FeatureEngineer._poisson_over_x 0 0 2.5%Q = 0%R.
Proof.
  unfold FeatureEngineer._poisson_over_x. simpl.
  unfold poisson_pmf. simpl. rewrite Ropp_0, exp_0. field.
Qed.

(** The window functions on an empty window. *)
Lemma empty_window (team other : string) :
  FeatureEngineer._goals_avg [] team = 0%R
  /\ FeatureEngineer._goals_conceded_avg [] team = 0%R
  /\ FeatureEngineer._points_form [] team = 0
  /\ FeatureEngineer._goal_difference [] team = 0
  /\ FeatureEngineer._h2h_goals_avg team other [] = 2.75%R
  /\ FeatureEngineer._h2h_btts_rate team other [] = Ok 0.5%R
  /\ FeatureEngineer._win_rate [] team = 0%R
  /\ FeatureEngineer._over_rate [] 2.5%Q = Ok 0%R
  /\ FeatureEngineer._btts_rate [] team = Ok 0%R
  /\ FeatureEngineer._clean_sheet_rate [] team = 0%R.
Proof. repeat split. Qed.

(** C6. On two empty histories [extract_features] returns (does not raise)
    the 36 fields below, in this order: 0 for every average, form, strength,
    trend, differential, rate and Poisson field, 2.75 and 0.5 for the two
    head-to-head fields, the league's average for [league_avg_goals], and the
    constants 1.0 and 7 for home advantage and rest days.  The divisor of the
    strength features is not zero. *)
Theorem C6_empty_history_defaults
    (home_team away_team league : string) (kickoff_date : Z) :
  let league_avg :=
    FeatureEngineer.dict_get FeatureEngineer.league_avg_goals league 2.75 in
  let defaults :=
    [ ("home_goals_avg_5", 0%R);
      ("away_goals_avg_5", 0%R);
      ("home_goals_avg_10", 0%R);
      ("away_goals_avg_10", 0%R);
      ("home_points_form_3", 0%R);
      ("away_points_form_3", 0%R);
      ("home_points_form_5", 0%R);
      ("home_attack_strength", 0%R);
      ("away_attack_strength", 0%R);
      ("home_defense_strength", 0%R);
      ("away_defense_strength", 0%R);
      ("home_goals_trend", 0%R);
      ("away_goals_trend", 0%R);
      ("home_conceded_trend", 0%R);
      ("away_conceded_trend", 0%R);
      ("home_advantage", 1.0%R);
      ("league_avg_goals", league_avg);
      ("home_rest_days", 7%R);
      ("away_rest_days", 7%R);
      ("h2h_goals_avg", 2.75%R);
      ("h2h_btts_rate", 0.5%R);
      ("home_goal_diff", 0%R);
      ("away_goal_diff", 0%R);
      ("lambda_home", 0%R);
      ("lambda_away", 0%R);
      ("expected_total_goals", 0%R);
      ("poisson_over25", 0%R);
      ("home_wins_pct", 0%R);
      ("away_wins_pct", 0%R);
      ("home_over25_rate", 0%R);
      ("away_over25_rate", 0%R);
      ("home_btts_rate", 0%R);
      ("away_btts_rate", 0%R);
      ("home_clean_sheet_rate", 0%R);
      ("away_clean_sheet_rate", 0%R);
      ("combined_form", 0%R) ] in
  FeatureEngineer.extract_features home_team away_team [] [] league kickoff_date
  = Ok defaults
  /\ List.length defaults = 36%nat
  /\ (league_avg / 2 <> 0)%R.
Proof.
  intros league_avg defaults. subst defaults.
  pose proof (league_avg_positive league) as Hpos. fold league_avg in Hpos.
  split; [|split; [reflexivity | lra]].
  unfold FeatureEngineer.extract_features. cbv zeta. fold league_avg.
  clearbody league_avg. simpl.
  destruct (empty_window home_team away_team)
    as (-> & -> & -> & -> & -> & _ & -> & _ & _ & ->).
  destruct (empty_window away_team home_team)
    as (-> & -> & -> & -> & _ & _ & -> & _ & _ & ->).
  assert (Z0 : (0 / (league_avg / 2) = 0)%R) by (field; lra).
  rewrite !Z0.
  replace (0 * 0 * (league_avg / 2))%R with 0%R by ring.
  rewrite poisson_over_x_zero.
  replace (0 - 0)%R with 0%R by ring.
  replace (0 + 0)%R with 0%R by ring.
  replace (0 / 2)%R with 0%R by field.
  reflexivity.
Qed.

(** The goal and points aggregates do leave out a match without score. *)
Lemma goal_aggregates_skip_unscored
    (before after : list FeatureEngineer.MatchRecord) (home away team : string) :
  let m := Scenario.unscored home away in
  FeatureEngineer._goals_avg (before ++ m :: after) team
  = FeatureEngineer._goals_avg (before ++ after) team
  /\ FeatureEngineer._goals_conceded_avg (before ++ m :: after) team
     = FeatureEngineer._goals_conceded_avg (before ++ after) team
  /\ FeatureEngineer._points_form (before ++ m :: after) team
     = FeatureEngineer._points_form (before ++ after) team
  /\ FeatureEngineer._goal_difference (before ++ m :: after) team
     = FeatureEngineer._goal_difference (before ++ after) team.
Proof.
  intros m.
  unfold FeatureEngineer._goals_avg, FeatureEngineer._goals_conceded_avg,
    FeatureEngineer._points_form, FeatureEngineer._goal_difference.
  rewrite !fold_left_app.
  repeat split;
    match goal with
    | |- context [fold_left ?f (m :: after) ?acc] =>
        replace (fold_left f (m :: after) acc) with (fold_left f after acc);
        [reflexivity|]
    end;
    cbn [fold_left]; f_equal; subst m;
    try match goal with
        | |- (_, _) = _ => idtac
        | |- ?acc = _ => match type of acc with (_ * _)%type => destruct acc end
        end;
    simpl; destruct (String.eqb home team), (String.eqb away team); reflexivity.
Qed.

(** C2 (the code at the failing inputs). A match without score stays in the
    denominator of the win rate and of the clean-sheet rate, is counted as a
    clean sheet and as a 0-0 in the over rate when its score keys are missing,
    and makes the over and both-teams-score rates raise when they hold
    [null]; none of these equals the rate of the window without that match. *)
Theorem C2_rates_count_unscored_match :
  let won := Scenario.finished "A" "B" 1 0 in
  let high := Scenario.finished "A" "B" 2 1 in
  let unscored := Scenario.unscored "A" "B" in
  let null := Scenario.null_scored "A" "B" in
  filter Scenario.has_score [won; unscored] = [won]
  /\ filter Scenario.has_score [won; null] = [won]
  /\ FeatureEngineer._win_rate [won; unscored] "A" = (1 / 2)%R
  /\ FeatureEngineer._win_rate [won] "A" = (1 / 1)%R
  /\ FeatureEngineer._clean_sheet_rate [unscored] "A" = (1 / 1)%R
  /\ FeatureEngineer._clean_sheet_rate [] "A" = 0%R
  /\ FeatureEngineer._clean_sheet_rate [won; null] "A" = (1 / 2)%R
  /\ FeatureEngineer._clean_sheet_rate [won] "A" = (1 / 1)%R
  /\ FeatureEngineer._over_rate [high; unscored] 2.5%Q = Ok (1 / 2)%R
  /\ FeatureEngineer._over_rate [high] 2.5%Q = Ok (1 / 1)%R
  /\ FeatureEngineer._over_rate [high; null] 2.5%Q = Raise TypeError
  /\ FeatureEngineer._btts_rate [high; unscored] "A" = Ok (1 / 2)%R
  /\ FeatureEngineer._btts_rate [high] "A" = Ok (1 / 1)%R
  /\ FeatureEngineer._btts_rate [high; null] "A" = Raise TypeError.
Proof.
  repeat split.
Qed.

(** ** The scan loop *)

(** Splits a hypothesis about a sequence of statements into the cases of
    each statement in turn. *)
Ltac by_statement H :=
  cbv beta iota zeta delta [bind] in H;
  repeat match type of H with
         | match ?c with _ => _ end = _ =>
             let E := fresh "E" in destruct c eqn:E; try discriminate H
         | (if ?c then _ else _) = _ =>
             let E := fresh "E" in destruct c eqn:E; try discriminate H
         | (let '(_, _) := ?c in _) = _ =>
             let E := fresh "E" in destruct c eqn:E; try discriminate H
         end.

Section Scan.

Import RealTimeMonitor.

Lemma subscript_Some {A : Type} (key : string) (entry : option A) (a : A) :
  subscript key entry = Ok a -> entry = Some a.
Proof. destruct entry; simpl; congruence. Qed.

(** An accepted prediction carries the identifier of the fixture. *)
Lemma accepted_fixture_id (self : t) (session : Session) (mtch : Fixture)
    (league : string) (p : Prediction) :
  _predict_match self session mtch league = Ok (Accepted p) ->
  match_id mtch = Some (fixture_id p).
Proof.
  intros H. unfold _predict_match in H. by_statement H.
  injection H as <-. simpl. eapply subscript_Some; eassumption.
Qed.

(** What the [try] block does to the ledger: nothing, unless the prediction
    was accepted, and then the fixture was not in the ledger before.  A
    fixture is scored only after the ledger was found not to hold it. *)
Lemma try_match_ledger (self : t) (now : Z) (comp_name : string)
    (db db' : Database.t) (mtch : Fixture) (session : Session) (o : outcome) :
  try_match self now comp_name db mtch session = Ok (db', o) ->
  ((was_saved o = false /\ db' = db)
   \/ (exists p, o = Returned (Accepted p)
                /\ db' = Database.save_prediction (wall_clock session) p db
                /\ match_id mtch = Some (fixture_id p)
                /\ Database.prediction_exists (fixture_id p) db = false))
  /\ (was_scored o = true ->
      exists i, match_id mtch = Some i /\ Database.prediction_exists i db = false).
Proof.
  unfold try_match. intros H. by_statement H;
    injection H as <- <-;
    (split; [try (left; split; reflexivity) | try discriminate]).
  all: match goal with
       | Hid : subscript "id" (match_id _) = Ok _ |- _ =>
           apply subscript_Some in Hid
       end.
  - intros _. eauto.
  - right. eexists. split; [reflexivity|]. split; [reflexivity|].
    match goal with
    | Hp : _predict_match _ _ _ _ = Ok (Accepted _) |- _ =>
        pose proof (accepted_fixture_id _ _ _ _ _ Hp) as Hsame
    end.
    split; [exact Hsame|]. congruence.
  - intros _. eauto.
Qed.

Lemma process_match_ledger (self : t) (now : Z) (comp_name : string)
    (db db' : Database.t) (mtch : Fixture) (session : Session) (o : outcome) :
  process_match self now comp_name db (mtch, session) = (db', o) ->
  (was_saved o = false /\ db' = db)
  \/ (exists p, o = Returned (Accepted p)
               /\ db' = Database.save_prediction (wall_clock session) p db
               /\ match_id mtch = Some (fixture_id p)
               /\ Database.prediction_exists (fixture_id p) db = false).
Proof.
  unfold process_match. intros H.
  destruct (negb (is_scheduled (match_status mtch))).
  - injection H as <- <-. left. split; reflexivity.
  - destruct (try_match self now comp_name db mtch session) as [[d o']|e] eqn:E.
    + injection H as <- <-. apply (try_match_ledger _ _ _ _ _ _ _ _ E).
    + injection H as <- <-. left. split; reflexivity.
Qed.

Lemma process_match_scored (self : t) (now : Z) (comp_name : string)
    (db db' : Database.t) (mtch : Fixture) (session : Session) (o : outcome) :
  process_match self now comp_name db (mtch, session) = (db', o) ->
  was_scored o = true ->
  exists i, match_id mtch = Some i /\ Database.prediction_exists i db = false.
Proof.
  unfold process_match. intros H.
  destruct (negb (is_scheduled (match_status mtch))).
  - injection H as <- <-. discriminate.
  - destruct (try_match self now comp_name db mtch session) as [[d o']|e] eqn:E.
    + injection H as <- <-. apply (try_match_ledger _ _ _ _ _ _ _ _ E).
    + injection H as <- <-. discriminate.
Qed.

(** A fixture already in the ledger never reaches [_predict_match]. *)
Lemma process_match_known (self : t) (now : Z) (comp_name : string)
    (db : Database.t) (mtch : Fixture) (session : Session) (i : Z) :
  match_id mtch = Some i ->
  Database.prediction_exists i db = true ->
  fst (process_match self now comp_name db (mtch, session)) = db
  /\ forall r, snd (process_match self now comp_name db (mtch, session)) <> Returned r.
Proof.
  intros Hid Hex. unfold process_match, try_match.
  destruct (negb (is_scheduled (match_status mtch))); [split; [reflexivity | discriminate]|].
  destruct (subscript "utcDate" (match_utcDate mtch)) as [date|e]; simpl;
    [|split; [reflexivity | discriminate]].
  destruct (fromisoformat date) as [kickoff|e]; simpl;
    [|split; [reflexivity | discriminate]].
  destruct (kickoff <=? now); [split; [reflexivity | discriminate]|].
  rewrite Hid. simpl. rewrite Hex. split; [reflexivity | discriminate].
Qed.

(** How the iteration of a fixture the ledger holds ends: on the status, on
    the date or on the ledger test, whatever the feed and the model. *)
Lemma process_match_known_outcome (self : t) (now : Z) (comp_name : string)
    (db : Database.t) (mtch : Fixture) (session : Session) (i : Z) :
  match_id mtch = Some i ->
  Database.prediction_exists i db = true ->
  process_match self now comp_name db (mtch, session)
  = (db,
     if negb (is_scheduled (match_status mtch)) then NotScheduled
     else match match_utcDate mtch with
          | None => Caught (KeyError "utcDate")
          | Some date =>
              match iso_instant date with
              | None => Caught (ValueError "Invalid isoformat string")
              | Some kickoff =>
                  if kickoff <=? now then PastKickoff else AlreadyPredicted
              end
          end).
Proof.
  intros Hid Hex. unfold process_match, try_match, fromisoformat.
  destruct (negb (is_scheduled (match_status mtch))); [reflexivity|].
  destruct (match_utcDate mtch) as [date|]; simpl; [|reflexivity].
  destruct (iso_instant date) as [kickoff|]; simpl; [|reflexivity].
  destruct (kickoff <=? now); [reflexivity|].
  rewrite Hid. simpl. rewrite Hex. reflexivity.
Qed.

(** A scheduled fixture that is still to be played, is not in the ledger and
    has its prediction accepted is saved. *)
Lemma process_match_accepts (self : t) (now : Z) (comp_name : string)
    (db : Database.t) (mtch : Fixture) (session : Session)
    (date : IsoDate) (kickoff : Z) (p : Prediction) :
  is_scheduled (match_status mtch) = true ->
  match_utcDate mtch = Some date ->
  iso_instant date = Some kickoff ->
  now < kickoff ->
  Database.prediction_exists (fixture_id p) db = false ->
  _predict_match self session mtch comp_name = Ok (Accepted p) ->
  process_match self now comp_name db (mtch, session)
  = (Database.save_prediction (wall_clock session) p db, Returned (Accepted p)).
Proof.
  intros Hst Hdate Hiso Hnow Hex Hp.
  unfold process_match, try_match, fromisoformat.
  rewrite Hst, Hdate. simpl. rewrite Hiso. simpl.
  replace (kickoff <=? now) with false by (symmetry; apply Z.leb_gt; exact Hnow).
  rewrite (accepted_fixture_id _ _ _ _ _ Hp). simpl. rewrite Hex, Hp. reflexivity.
Qed.

End Scan.

(** *** The sample fixture *)

Section Sample.

Import RealTimeMonitor.

Lemma Rltb_true (x y : R) : (x < y)%R -> Rltb x y = true.
Proof.
  intros H. unfold Rltb. destruct (Rlt_dec x y); [reflexivity | contradiction].
Qed.

Lemma Rltb_false (x y : R) : (y <= x)%R -> Rltb x y = false.
Proof.
  intros H. unfold Rltb. destruct (Rlt_dec x y); [lra | reflexivity].
Qed.

Ltac run_predict_match :=
  unfold _predict_match;
  cbn -[Rltb FeatureEngineer.extract_features HybridPredictor.predict_btts];
  cbv [FeatureEngineer.extract_features];
  cbn -[Rltb HybridPredictor.predict_btts FeatureEngineer._poisson_over_x np_mean].

(** The cautious model scores the sample fixture below the minimum. *)
Lemma cautious_below (clock i : Z) :
  exists r b,
    _predict_match (Scenario.monitor (Some Scenario.cautious))
                   (Scenario.session clock) (Scenario.fixture i) "Premier League"
    = Ok (BelowThreshold r b).
Proof.
  run_predict_match. unfold Scenario.cautious.
  rewrite Rltb_true by lra. eauto.
Qed.

(** The keen model has it accepted. *)
Lemma keen_accepted (clock i : Z) :
  exists p,
    _predict_match (Scenario.monitor (Some Scenario.keen))
                   (Scenario.session clock) (Scenario.fixture i) "Premier League"
    = Ok (Accepted p)
    /\ fixture_id p = i /\ over25_prob p = 0.8%R.
Proof.
  run_predict_match. unfold Scenario.keen.
  rewrite Rltb_false by lra. eexists. split; [reflexivity|]. split; reflexivity.
Qed.

(** With both pickles in place the start loads them and prints nothing. *)
Lemma startup_with_model (model : HybridPredictor.Model) :
  __init__ (Some Scenario.config) (Scenario.artifacts model) None
  = Ok ({| config := Scenario.config;
           api_key := "token";
           predictor :=
             {| HybridPredictor.over25_model := Some model;
                HybridPredictor.scaler := Some Scenario.identity_scaler |};
           running := true |},
        Scenario.empty_db, []).
Proof. reflexivity. Qed.

(** Without a model every attempt to score raises. *)
Lemma untrained_raises (clock i : Z) :
  _predict_match (Scenario.monitor None)
                 (Scenario.session clock) (Scenario.fixture i) "Premier League"
  = Raise (ValueError "Model not trained!").
Proof. run_predict_match. reflexivity. Qed.

Lemma sample_process_match (model : option HybridPredictor.Model)
    (now clock i : Z) (db : Database.t) :
  now < 1736002800 ->
  Database.prediction_exists i db = false ->
  process_match (Scenario.monitor model) now "Premier League" db
                (Scenario.fixture i, Scenario.session clock)
  = match _predict_match (Scenario.monitor model) (Scenario.session clock)
                         (Scenario.fixture i) "Premier League" with
    | Ok (Accepted p) =>
        (Database.save_prediction clock p db, Returned (Accepted p))
    | Ok r => (db, Returned r)
    | Raise e => (db, Caught e)
    end.
Proof.
  intros Hnow Hex. unfold process_match, try_match.
  cbn -[_predict_match Z.leb].
  replace (1736002800 <=? now) with false by (symmetry; apply Z.leb_gt; exact Hnow).
  rewrite Hex.
  destruct (_predict_match _ _ _ _) as [[| |]|]; reflexivity.
Qed.

(** With the sample configuration a scan is the fixture loop of its one
    league. *)
Lemma sample_scan (model : option HybridPredictor.Model) (c : Cycle)
    (state : Database.t * journal) :
  scan_upcoming_matches (Scenario.monitor model) c state
  = scan_matches (Scenario.monitor model) (now_utc c) "Premier League"
      (_fetch_matches c 2021 (now_utc c / seconds_per_day)
         (now_utc c / seconds_per_day + 7))
      state.
Proof.
  unfold scan_upcoming_matches.
  cbn [Scenario.monitor config Scenario.config leagues for_each_until
       league_id league_name monitoring look_ahead_days].
  destruct (scan_matches _ _ _ _ _) as [s [e|]]; reflexivity.
Qed.

End Sample.

(** *** The loops *)

Section Loops.

Import RealTimeMonitor.

Variable self : t.

(** What every iteration keeps is kept by a loop that an exception may
    leave. *)
Lemma for_each_until_keeps {A S : Type} (Inv : S -> Prop)
    (body : S -> A -> S * option exn) :
  (forall s x, Inv s -> Inv (fst (body s x))) ->
  forall xs s, Inv s -> Inv (fst (for_each_until body xs s)).
Proof.
  intros Hbody xs. induction xs as [|x rest IH]; intros s H; simpl.
  - exact H.
  - pose proof (Hbody s x H) as Hx.
    destruct (body s x) as [s' [e|]]; simpl in *; [exact Hx | apply IH, Hx].
Qed.

Lemma for_each_until_app {A S : Type} (body : S -> A -> S * option exn)
    (pre post : list A) (s s1 : S) :
  for_each_until body pre s = (s1, None) ->
  for_each_until body (pre ++ post) s = for_each_until body post s1.
Proof.
  revert s. induction pre as [|x rest IH]; intros s H; simpl in *.
  - now injection H as ->.
  - destruct (body s x) as [s' [e|]]; [discriminate | apply IH, H].
Qed.

Lemma scan_matches_object (now : Z) (comp_name : string) (mtch : Fixture)
    (session : Session) (rest : list (feed_entry * Session))
    (db : Database.t) (log : journal) :
  scan_matches self now comp_name ((Object mtch, session) :: rest) (db, log)
  = scan_matches self now comp_name rest
      (fst (process_match self now comp_name db (mtch, session)),
       log ++ [(mtch, snd (process_match self now comp_name db (mtch, session)))]).
Proof.
  unfold scan_matches. cbn [for_each_until]. unfold iteration at 1. cbn [fst snd].
  destruct (process_match self now comp_name db (mtch, session)); reflexivity.
Qed.

(** An entry that is not an object ends the loop where it stands. *)
Lemma scan_matches_not_object (now : Z) (comp_name : string)
    (session : Session) (rest : list (feed_entry * Session))
    (state : Database.t * journal) :
  scan_matches self now comp_name ((NotAnObject, session) :: rest) state
  = (state, Some AttributeError).
Proof. reflexivity. Qed.

Lemma scan_matches_app (now : Z) (comp_name : string)
    (pre post : list (feed_entry * Session)) (state state1 : Database.t * journal) :
  scan_matches self now comp_name pre state = (state1, None) ->
  scan_matches self now comp_name (pre ++ post) state
  = scan_matches self now comp_name post state1.
Proof. unfold scan_matches. apply for_each_until_app. Qed.

(** A property of the ledger and journal that every iteration keeps is kept
    by the fixture loop, by a scan and by the whole run, wherever a loop is
    left. *)
Section Invariant.

Variable Inv : Database.t * journal -> Prop.

Hypothesis step : forall now comp_name db log item,
  Inv (db, log) ->
  Inv (fst (process_match self now comp_name db item),
       log ++ [(fst item, snd (process_match self now comp_name db item))]).

Lemma iteration_keeps (now : Z) (comp_name : string)
    (state : Database.t * journal) (item : feed_entry * Session) :
  Inv state -> Inv (fst (iteration self now comp_name state item)).
Proof.
  destruct state as [db log], item as [[mtch|] session]; intros H;
    unfold iteration; cbn [fst snd]; [|exact H].
  pose proof (step now comp_name db log (mtch, session) H) as Hs.
  destruct (process_match self now comp_name db (mtch, session)). exact Hs.
Qed.

Lemma scan_matches_keeps (now : Z) (comp_name : string)
    (matches : list (feed_entry * Session)) (state : Database.t * journal) :
  Inv state -> Inv (fst (scan_matches self now comp_name matches state)).
Proof.
  unfold scan_matches. apply for_each_until_keeps.
  intros s x. apply iteration_keeps.
Qed.

Lemma scan_upcoming_matches_keeps (c : Cycle) (state : Database.t * journal) :
  Inv state -> Inv (fst (scan_upcoming_matches self c state)).
Proof.
  unfold scan_upcoming_matches. apply for_each_until_keeps.
  intros s [code info]. apply scan_matches_keeps.
Qed.

Lemma monitor_loop_keeps (cycles : list Cycle) (db : Database.t) :
  Inv (db, []) -> Inv (monitor_loop self cycles db).
Proof.
  unfold monitor_loop. intros H. destruct (running self); [|exact H].
  generalize dependent (db, @nil (Fixture * outcome)).
  induction cycles as [|c rest IH]; intros state H; simpl.
  - exact H.
  - apply IH, scan_upcoming_matches_keeps, H.
Qed.

End Invariant.

Lemma times_saved_snoc (i : Z) (log : journal) (mtch : Fixture) (o : outcome) :
  times_saved i (log ++ [(mtch, o)])
  = (times_saved i log + if is_fixture i mtch && was_saved o then 1 else 0)%nat.
Proof.
  unfold times_saved. rewrite filter_app, length_app. simpl.
  destruct (is_fixture i mtch && was_saved o); reflexivity.
Qed.

Lemma times_scored_snoc (i : Z) (log : journal) (mtch : Fixture) (o : outcome) :
  times_scored i (log ++ [(mtch, o)])
  = (times_scored i log + if is_fixture i mtch && was_scored o then 1 else 0)%nat.
Proof.
  unfold times_scored. rewrite filter_app, length_app. simpl.
  destruct (is_fixture i mtch && was_scored o); reflexivity.
Qed.

Lemma is_fixture_id (i j : Z) (mtch : Fixture) :
  match_id mtch = Some j -> is_fixture i mtch = (j =? i).
Proof. intros H. unfold is_fixture. now rewrite H. Qed.

(** The ledger invariant of a run started on [db0]: a fixture is saved at
    most once, only while the ledger does not hold it, and a fixture the
    ledger held from the start is neither scored nor saved. *)
Lemma saved_once_invariant (db0 : Database.t) (cycles : list Cycle) (i : Z) :
  let '(db, log) := monitor_loop self cycles db0 in
  (times_saved i log <= 1)%nat
  /\ (Database.prediction_exists i db = false -> times_saved i log = 0%nat)
  /\ (Database.prediction_exists i db0 = true ->
      Database.prediction_exists i db = true
      /\ times_saved i log = 0%nat /\ times_scored i log = 0%nat).
Proof.
  apply (monitor_loop_keeps
           (fun '(db, log) =>
              (times_saved i log <= 1)%nat
              /\ (Database.prediction_exists i db = false -> times_saved i log = 0%nat)
              /\ (Database.prediction_exists i db0 = true ->
                  Database.prediction_exists i db = true
                  /\ times_saved i log = 0%nat /\ times_scored i log = 0%nat))).
  - intros now comp_name db log [mtch session] (Hle & Hnot & Hold).
    destruct (process_match self now comp_name db (mtch, session)) as [db' o] eqn:E.
    simpl fst; simpl snd. rewrite times_saved_snoc, times_scored_snoc.
    assert (Hsc : is_fixture i mtch && was_scored o = true ->
                  Database.prediction_exists i db = false).
    { intros Hb. apply andb_prop in Hb. destruct Hb as [Hf Hs].
      destruct (process_match_scored _ _ _ _ _ _ _ _ E Hs) as (j & Hj & Hex).
      rewrite (is_fixture_id _ _ _ Hj) in Hf. apply Z.eqb_eq in Hf. now subst. }
    destruct (process_match_ledger _ _ _ _ _ _ _ _ E)
      as [[Hns ->] | (p & -> & -> & Hid & Hex)].
    + rewrite Hns, andb_false_r, Nat.add_0_r.
      split; [exact Hle|]. split; [exact Hnot|].
      intros H0. destruct (Hold H0) as (He & Hs0 & Hc0).
      split; [exact He|]. split; [exact Hs0|].
      destruct (is_fixture i mtch && was_scored o) eqn:Eb; [|lia].
      specialize (Hsc eq_refl). congruence.
    + rewrite (is_fixture_id _ _ _ Hid). simpl was_saved. simpl was_scored.
      rewrite andb_true_r, prediction_exists_save.
      destruct (fixture_id p =? i) eqn:Ei.
      * apply Z.eqb_eq in Ei. subst i. rewrite Z.eqb_refl. simpl.
        rewrite (Hnot Hex). split; [lia|]. split; [discriminate|].
        intros H0. destruct (Hold H0) as (He & _). congruence.
      * rewrite Z.eqb_sym, Ei. simpl. rewrite !Nat.add_0_r.
        split; [exact Hle|]. split; [exact Hnot|]. exact Hold.
  - unfold times_saved, times_scored. simpl.
    split; [lia|]. split; [reflexivity|]. intros H0. now rewrite H0.
Qed.

(** Through a run started on a ledger that holds a fixture, every iteration
    on that fixture ends on the status, on the date or on the ledger test. *)
Lemma known_fixture_journal (db0 : Database.t) (cycles : list Cycle) (i : Z)
    (mtch : Fixture) (o : outcome) :
  Database.prediction_exists i db0 = true ->
  match_id mtch = Some i ->
  In (mtch, o) (snd (monitor_loop self cycles db0)) ->
  o = NotScheduled \/ o = PastKickoff \/ o = AlreadyPredicted
  \/ o = Caught (KeyError "utcDate")
  \/ o = Caught (ValueError "Invalid isoformat string").
Proof.
  intros H0 Hid.
  pose proof (monitor_loop_keeps
    (fun st =>
       Database.prediction_exists i (fst st) = true
       /\ (In (mtch, o) (snd st) ->
           o = NotScheduled \/ o = PastKickoff \/ o = AlreadyPredicted
           \/ o = Caught (KeyError "utcDate")
           \/ o = Caught (ValueError "Invalid isoformat string")))) as Keep.
  apply Keep; clear Keep.
  - intros now comp_name db log [m session] [Hex Hlog]. simpl in Hex, Hlog.
    cbn [fst snd]. split.
    + destruct (process_match self now comp_name db (m, session)) as [db' o'] eqn:E.
      destruct (process_match_ledger _ _ _ _ _ _ _ _ E)
        as [[_ ->] | (p & _ & -> & _ & _)]; cbn [fst]; [exact Hex|].
      rewrite prediction_exists_save, Hex. apply orb_true_r.
    + intros Hin. apply in_app_or in Hin. destruct Hin as [Hin | [Heq | []]];
        [exact (Hlog Hin)|].
      assert (Hm : m = mtch) by (injection Heq; auto). subst m.
      assert (Ho : snd (process_match self now comp_name db (mtch, session)) = o)
        by (injection Heq; auto).
      rewrite (process_match_known_outcome self now comp_name db mtch session i
                 Hid Hex) in Ho.
      cbn [snd] in Ho. subst o.
      destruct (negb (is_scheduled (match_status mtch))); [tauto|].
      destruct (match_utcDate mtch) as [date|]; [|tauto].
      destruct (iso_instant date) as [kickoff|]; [|tauto].
      destruct (kickoff <=? now); tauto.
  - simpl. split; [exact H0 | intros []].
Qed.

End Loops.

(** *** Failures inside a scan *)

Section Failures.

Import RealTimeMonitor.

(** When a history request fails the fixture gets no prediction. *)
Lemma fetch_failure_not_accepted (self : t) (session : Session) (mtch : Fixture)
    (league : string) (p : Prediction) :
  history_fetch_fails mtch session ->
  _predict_match self session mtch league <> Ok (Accepted p).
Proof.
  intros (team & tid & Hteam & Htid & Hfail) H.
  unfold _predict_match in H. by_statement H.
  repeat match goal with
         | Hs : subscript _ _ = Ok _ |- _ => apply subscript_Some in Hs
         end.
  match goal with
  | Hor : _ || _ = false |- _ =>
      apply orb_false_elim in Hor; destruct Hor as [Hh Ha]
  end.
  unfold _fetch_team_history in Hh, Ha.
  destruct Hteam as [Ht | Ht].
  - match goal with
    | Hhome : match_homeTeam mtch = Some ?h |- _ =>
        assert (team = h) by congruence; subst team
    end.
    match goal with
    | Hi : team_id _ = Some ?j, Hm : is_empty (matches_of (team_matches _ ?j _)) = false
      |- _ => assert (tid = j) by congruence; subst tid;
              rewrite Hfail in Hm; discriminate
    end.
  - match goal with
    | Haway : match_awayTeam mtch = Some ?h |- _ =>
        assert (team = h) by congruence; subst team
    end.
    match goal with
    | Hi : team_id _ = Some ?j, Hm : is_empty (matches_of (team_matches _ ?j _)) = false
      |- _ => assert (tid = j) by congruence; subst tid;
              rewrite Hfail in Hm; discriminate
    end.
Qed.

(** Without a model [_predict_match] can only return before scoring. *)
Lemma untrained_not_scored (self : t) (session : Session) (mtch : Fixture)
    (league : string) (r : predict_return) :
  HybridPredictor.over25_model (predictor self) = None ->
  _predict_match self session mtch league = Ok r ->
  r = NoHistory.
Proof.
  intros Hnone H. unfold _predict_match in H. by_statement H.
  all: try congruence.
  all: match goal with
       | Hp : HybridPredictor.predict_over25 _ _ = Ok _ |- _ =>
           unfold HybridPredictor.predict_over25 in Hp;
           rewrite Hnone in Hp; discriminate
       end.
Qed.

Lemma untrained_process_match (self : t) (now : Z) (comp_name : string)
    (db : Database.t) (item : Fixture * Session) :
  HybridPredictor.over25_model (predictor self) = None ->
  fst (process_match self now comp_name db item) = db
  /\ was_scored (snd (process_match self now comp_name db item)) = false.
Proof.
  intros Hnone. destruct item as [mtch session].
  destruct (process_match self now comp_name db (mtch, session)) as [db' o] eqn:E.
  simpl. split.
  - destruct (process_match_ledger _ _ _ _ _ _ _ _ E)
      as [[_ ->] | (p & -> & _ & _ & _)]; [reflexivity|].
    exfalso. unfold process_match in E.
    destruct (negb (is_scheduled (match_status mtch))); [discriminate|].
    destruct (try_match self now comp_name db mtch session) as [[d o]|e] eqn:Et;
      [|discriminate].
    injection E as -> ->. unfold try_match in Et. by_statement Et;
      injection Et as <- <-.
    match goal with
    | Hp : _predict_match _ _ _ _ = Ok _ |- _ =>
        apply (untrained_not_scored _ _ _ _ _ Hnone) in Hp; discriminate
    end.
  - unfold process_match in E.
    destruct (negb (is_scheduled (match_status mtch))); [now injection E as <- <-|].
    destruct (try_match self now comp_name db mtch session) as [[d o']|e] eqn:Et;
      [|now injection E as <- <-].
    injection E as <- <-. unfold try_match in Et. by_statement Et;
      injection Et as <- <-; try reflexivity;
      match goal with
      | Hp : _predict_match _ _ _ _ = Ok _ |- _ =>
          apply (untrained_not_scored _ _ _ _ _ Hnone) in Hp; discriminate
      end.
Qed.

End Failures.

(** ** Start-up, failures and deduplication *)

(** C1 (as the code has it). A missing model artifact does not stop the
    start: [load] prints a warning, the monitor is built without a model and
    the loop runs.  Every call of [predict_over25] then raises
    "Model not trained!", so in any run no fixture is scored, nothing is
    saved and the ledger stays as it was. *)
Theorem C1_missing_model_is_only_warned
    (cfg : RealTimeMonitor.Config) (key : string)
    (pretrained : HybridPredictor.Pretrained) (db_file : option Database.t) :
  RealTimeMonitor.football_data_org cfg = Some key ->
  HybridPredictor.over25_voting_pkl pretrained = None ->
  exists monitor,
    RealTimeMonitor.__init__ (Some cfg) pretrained db_file
    = Ok (monitor, Database._init_db db_file,
          ["[WARN] Pre-trained models not found. Train first!"])
    /\ RealTimeMonitor.running monitor = true
    /\ (forall features,
          HybridPredictor.predict_over25 (RealTimeMonitor.predictor monitor) features
          = Raise (ValueError "Model not trained!"))
    /\ (forall cycles,
          RealTimeMonitor.main (Some cfg) pretrained db_file cycles
          = Ok (RealTimeMonitor.monitor_loop monitor cycles (Database._init_db db_file)))
    /\ (forall cycles db,
          fst (RealTimeMonitor.monitor_loop monitor cycles db) = db
          /\ forall i,
               RealTimeMonitor.times_scored i
                 (snd (RealTimeMonitor.monitor_loop monitor cycles db)) = 0%nat
               /\ RealTimeMonitor.times_saved i
                    (snd (RealTimeMonitor.monitor_loop monitor cycles db)) = 0%nat).
Proof.
  intros Hkey Hnone.
  assert (Hinit : exists monitor,
            RealTimeMonitor.__init__ (Some cfg) pretrained db_file
            = Ok (monitor, Database._init_db db_file,
                  ["[WARN] Pre-trained models not found. Train first!"])
            /\ RealTimeMonitor.running monitor = true
            /\ HybridPredictor.over25_model (RealTimeMonitor.predictor monitor) = None).
  { unfold RealTimeMonitor.__init__, HybridPredictor.load.
    rewrite Hkey, Hnone. simpl. eexists. split; [reflexivity|]. split; reflexivity. }
  destruct Hinit as (monitor & Hinit & Hrun & Hmodel).
  exists monitor. split; [exact Hinit|]. split; [exact Hrun|]. split; [|split].
  - intros features. unfold HybridPredictor.predict_over25. now rewrite Hmodel.
  - intros cycles. unfold RealTimeMonitor.main. now rewrite Hinit.
  - intros cycles db.
    pose proof (monitor_loop_keeps monitor
      (fun st => fst st = db
                 /\ forall i, RealTimeMonitor.times_scored i (snd st) = 0%nat
                              /\ RealTimeMonitor.times_saved i (snd st) = 0%nat))
      as Keep.
    apply Keep; clear Keep.
    + intros now comp_name d log item [Hd Hlog]. simpl in Hd, Hlog. subst d. simpl.
      destruct (untrained_process_match monitor now comp_name db item Hmodel)
        as [Hdb Hsc].
      split; [exact Hdb|]. intros i.
      rewrite times_scored_snoc, times_saved_snoc.
      destruct (Hlog i) as [-> ->]. rewrite Hsc, andb_false_r.
      assert (RealTimeMonitor.was_saved
                (snd (RealTimeMonitor.process_match monitor now comp_name db item))
              = false) as ->.
      { destruct (snd (RealTimeMonitor.process_match monitor now comp_name db item))
          as [| | |[| |]|]; try reflexivity; discriminate. }
      rewrite andb_false_r. split; reflexivity.
    + simpl. split; [reflexivity|]. intros i. split; reflexivity.
Qed.

Lemma C1_missing_model_is_only_warned_witness :
  exists monitor,
    RealTimeMonitor.__init__ (Some Scenario.config) Scenario.no_artifacts None
    = Ok (monitor, Database._init_db None,
          ["[WARN] Pre-trained models not found. Train first!"])
    /\ RealTimeMonitor.running monitor = true
    /\ (forall features,
          HybridPredictor.predict_over25 (RealTimeMonitor.predictor monitor) features
          = Raise (ValueError "Model not trained!"))
    /\ (forall cycles,
          RealTimeMonitor.main (Some Scenario.config) Scenario.no_artifacts None cycles
          = Ok (RealTimeMonitor.monitor_loop monitor cycles (Database._init_db None)))
    /\ (forall cycles db,
          fst (RealTimeMonitor.monitor_loop monitor cycles db) = db
          /\ forall i,
               RealTimeMonitor.times_scored i
                 (snd (RealTimeMonitor.monitor_loop monitor cycles db)) = 0%nat
               /\ RealTimeMonitor.times_saved i
                    (snd (RealTimeMonitor.monitor_loop monitor cycles db)) = 0%nat).
Proof.
  apply (C1_missing_model_is_only_warned
           Scenario.config "token" Scenario.no_artifacts None); reflexivity.
Defined.

(** C1 (counterexample to the wording of the specification). With no
    artifact in [pretrained/] the start succeeds and the loop is entered: the
    sample fixture is taken up and dropped with an error caught inside the
    scan. *)
Lemma C1_startup_does_not_fail :
  HybridPredictor.over25_voting_pkl Scenario.no_artifacts = None
  /\ RealTimeMonitor.main (Some Scenario.config) Scenario.no_artifacts None
       [Scenario.cycle 0 [(Scenario.fixture 7, Scenario.session 0)]]
     = Ok (Scenario.empty_db,
           [(Scenario.fixture 7, RealTimeMonitor.Caught (ValueError "Model not trained!"))]).
Proof.
  split; reflexivity.
Qed.


(** C8 (as the code has it). In any run a fixture identifier is saved at most
    once, and one the ledger already held at the start is neither scored nor
    saved; an iteration that finds the identifier in the ledger leaves the
    ledger alone and never reaches [_predict_match]: whatever the feed, the
    model and the configuration, it ends on the status test, on the date or
    on the ledger test, and so does every iteration of a run on a fixture the
    ledger held at the start. *)
Theorem C8_saved_once_and_known_fixture_skipped (self : RealTimeMonitor.t) :
  (forall cycles db0 i,
     let log := snd (RealTimeMonitor.monitor_loop self cycles db0) in
     (RealTimeMonitor.times_saved i log <= 1)%nat
     /\ (Database.prediction_exists i db0 = true ->
         RealTimeMonitor.times_saved i log = 0%nat
         /\ RealTimeMonitor.times_scored i log = 0%nat))
  /\ (forall now comp_name db mtch session i,
        RealTimeMonitor.match_id mtch = Some i ->
        Database.prediction_exists i db = true ->
        fst (RealTimeMonitor.process_match self now comp_name db (mtch, session)) = db
        /\ forall r,
             snd (RealTimeMonitor.process_match self now comp_name db (mtch, session))
             <> RealTimeMonitor.Returned r)
  /\ (forall now comp_name db mtch session i,
        RealTimeMonitor.match_id mtch = Some i ->
        Database.prediction_exists i db = true ->
        RealTimeMonitor.process_match self now comp_name db (mtch, session)
        = (db,
           if negb (RealTimeMonitor.is_scheduled (RealTimeMonitor.match_status mtch))
           then RealTimeMonitor.NotScheduled
           else match RealTimeMonitor.match_utcDate mtch with
                | None => RealTimeMonitor.Caught (KeyError "utcDate")
                | Some date =>
                    match RealTimeMonitor.iso_instant date with
                    | None =>
                        RealTimeMonitor.Caught (ValueError "Invalid isoformat string")
                    | Some kickoff =>
                        if kickoff <=? now then RealTimeMonitor.PastKickoff
                        else RealTimeMonitor.AlreadyPredicted
                    end
                end))
  /\ (forall cycles db0 i mtch o,
        Database.prediction_exists i db0 = true ->
        RealTimeMonitor.match_id mtch = Some i ->
        In (mtch, o) (snd (RealTimeMonitor.monitor_loop self cycles db0)) ->
        o = RealTimeMonitor.NotScheduled \/ o = RealTimeMonitor.PastKickoff
        \/ o = RealTimeMonitor.AlreadyPredicted
        \/ o = RealTimeMonitor.Caught (KeyError "utcDate")
        \/ o = RealTimeMonitor.Caught (ValueError "Invalid isoformat string")).
Proof.
  split; [|split; [|split]].
  - intros cycles db0 i log. subst log.
    pose proof (saved_once_invariant self db0 cycles i) as H.
    destruct (RealTimeMonitor.monitor_loop self cycles db0) as [db log].
    destruct H as (Hle & _ & Hold). simpl. split; [exact Hle|].
    intros H0. apply Hold in H0. tauto.
  - intros now comp_name db mtch session i Hid Hex.
    exact (process_match_known self now comp_name db mtch session i Hid Hex).
  - intros now comp_name db mtch session i Hid Hex.
    exact (process_match_known_outcome self now comp_name db mtch session i Hid Hex).
  - intros cycles db0 i mtch o H0 Hid Hin.
    exact (known_fixture_journal self db0 cycles i mtch o H0 Hid Hin).
Qed.

(** C8 (counterexample to the wording of the specification). The cautious
    model scores the sample fixture below the minimum, nothing is saved, and
    the next pass scores it again. *)
Lemma C8_fixture_scored_twice :
  RealTimeMonitor.times_scored 7
    (snd (RealTimeMonitor.monitor_loop (Scenario.monitor (Some Scenario.cautious))
            [ Scenario.cycle 0 [(Scenario.fixture 7, Scenario.session 0)];
              Scenario.cycle 300 [(Scenario.fixture 7, Scenario.session 300)] ]
            Scenario.empty_db))
  = 2%nat.
Proof.
  unfold RealTimeMonitor.monitor_loop.
  cbn [Scenario.monitor RealTimeMonitor.running fold_left].
  rewrite !sample_scan.
  unfold RealTimeMonitor._fetch_matches.
  cbn [Scenario.cycle RealTimeMonitor.competition_matches
       RealTimeMonitor.matches_of map fst snd RealTimeMonitor.now_utc
       Z.eqb Pos.eqb].
  rewrite scan_matches_object.
  rewrite sample_process_match by (try reflexivity; lia).
  destruct (cautious_below 0 7) as (r & b & ->).
  change (RealTimeMonitor.scan_matches ?m ?n ?c [] ?st) with (st, @None exn).
  cbn [fst snd app].
  rewrite scan_matches_object.
  rewrite sample_process_match by (try reflexivity; lia).
  destruct (cautious_below 300 7) as (r' & b' & ->).
  reflexivity.
Qed.

Lemma C8_saved_once_and_known_fixture_skipped_witness :
  let self := Scenario.monitor None in
  let db0 := Database.save_prediction 0 (Scenario.prediction 7) Scenario.empty_db in
  let cycles := [Scenario.cycle 0 [(Scenario.fixture 7, Scenario.session 0)]] in
  let log := snd (RealTimeMonitor.monitor_loop self cycles db0) in
  Database.prediction_exists 7 db0 = true
  /\ (RealTimeMonitor.times_saved 7 log <= 1)%nat
  /\ RealTimeMonitor.times_saved 7 log = 0%nat
  /\ RealTimeMonitor.times_scored 7 log = 0%nat
  /\ fst (RealTimeMonitor.process_match self 0 "Premier League" db0
            (Scenario.fixture 7, Scenario.session 0)) = db0
  /\ RealTimeMonitor.process_match self 0 "Premier League" db0
       (Scenario.fixture 7, Scenario.session 0)
     = (db0, RealTimeMonitor.AlreadyPredicted)
  /\ log = [(Scenario.fixture 7, RealTimeMonitor.AlreadyPredicted)]
  /\ (RealTimeMonitor.AlreadyPredicted = RealTimeMonitor.NotScheduled
      \/ RealTimeMonitor.AlreadyPredicted = RealTimeMonitor.PastKickoff
      \/ RealTimeMonitor.AlreadyPredicted = RealTimeMonitor.AlreadyPredicted
      \/ RealTimeMonitor.AlreadyPredicted = RealTimeMonitor.Caught (KeyError "utcDate")
      \/ RealTimeMonitor.AlreadyPredicted
         = RealTimeMonitor.Caught (ValueError "Invalid isoformat string")).
Proof.
  intros self db0 cycles log.
  assert (Hex : Database.prediction_exists 7 db0 = true) by reflexivity.
  assert (Hlog : log = [(Scenario.fixture 7, RealTimeMonitor.AlreadyPredicted)])
    by reflexivity.
  destruct (C8_saved_once_and_known_fixture_skipped self)
    as (Hrun & Hskip & Hout & Hjournal).
  destruct (Hrun cycles db0 7) as [Hle Hold].
  destruct (Hold Hex) as [Hsaved Hscored].
  destruct (Hskip 0 "Premier League" db0 (Scenario.fixture 7) (Scenario.session 0) 7
              eq_refl Hex) as [Hdb _].
  pose proof (Hout 0 "Premier League" db0 (Scenario.fixture 7) (Scenario.session 0) 7
                eq_refl Hex) as Ho.
  pose proof (Hjournal cycles db0 7 (Scenario.fixture 7)
                RealTimeMonitor.AlreadyPredicted Hex eq_refl) as Hj.
  fold log in Hj. rewrite Hlog in Hj. specialize (Hj (or_introl eq_refl)).
  split; [exact Hex|]. split; [exact Hle|]. split; [exact Hsaved|].
  split; [exact Hscored|]. split; [exact Hdb|]. split; [exact Ho|].
  split; [exact Hlog | exact Hj].
Defined.

(** * Further properties *)

(** ** The ledger *)

Section LedgerInvariants.

Import Database LedgerHistory.

Lemma in_filter_not_fixture (fixture : Z) (rows : list PredictionRow) :
  ~ In fixture
      (map (fun row => fixture_id (columns row))
           (filter (fun row => negb (has_fixture fixture row)) rows)).
Proof.
  intros H. apply in_map_iff in H. destruct H as (row & Hid & Hin).
  apply filter_In in Hin. destruct Hin as [_ Hn].
  unfold has_fixture in Hn. rewrite Hid, Z.eqb_refl in Hn. discriminate.
Qed.

Lemma NoDup_map_filter {A B : Type} (f : A -> B) (keep : A -> bool) (l : list A) :
  NoDup (map f l) -> NoDup (map f (filter keep l)).
Proof.
  induction l as [|a l IH]; simpl; intros H; [constructor|].
  inversion H as [|x xs Hnotin Hnd]; subst.
  destruct (keep a); simpl; [|now apply IH].
  constructor; [|now apply IH].
  intros Hin. apply Hnotin. apply in_map_iff in Hin.
  destruct Hin as (b & Hb & Hinb). apply filter_In in Hinb.
  apply in_map_iff. exists b. tauto.
Qed.

Lemma save_prediction_consistent (now : Z) (p : Prediction) (db : Database.t) :
  consistent db -> consistent (save_prediction now p db).
Proof.
  intros (Hfix & Hid & Hseq). unfold consistent, save_prediction; simpl.
  rewrite !map_app; simpl. repeat split.
  - apply NoDup_app.
    + now apply NoDup_map_filter.
    + repeat constructor. intros [].
    + intros a Ha [<-|[]]. exact (in_filter_not_fixture _ _ Ha).
  - apply NoDup_app.
    + now apply NoDup_map_filter.
    + repeat constructor. intros [].
    + intros a Ha [<-|[]]. apply in_map_iff in Ha.
      destruct Ha as (row & Hrow & Hin). apply filter_In in Hin.
      rewrite Forall_forall in Hseq. specialize (Hseq row (proj1 Hin)). lia.
  - apply Forall_app. split.
    + apply Forall_forall. intros row Hin. apply filter_In in Hin.
      rewrite Forall_forall in Hseq. specialize (Hseq row (proj1 Hin)). lia.
    + repeat constructor. simpl. lia.
Qed.

Lemma save_result_columns (now fixture hg ag : Z) (db : Database.t) :
  map columns (predictions (save_result now fixture hg ag db))
  = map columns (predictions db)
  /\ map id (predictions (save_result now fixture hg ag db))
     = map id (predictions db)
  /\ map predicted_at (predictions (save_result now fixture hg ag db))
     = map predicted_at (predictions db).
Proof.
  unfold save_result; simpl. rewrite !map_map.
  repeat split; apply map_ext; intros row;
    destruct (has_fixture fixture row); reflexivity.
Qed.

Lemma save_result_consistent (now fixture hg ag : Z) (db : Database.t) :
  consistent db -> consistent (save_result now fixture hg ag db).
Proof.
  intros (Hfix & Hid & Hseq).
  destruct (save_result_columns now fixture hg ag db) as (Hc & Hi & _).
  unfold consistent. repeat split.
  - rewrite <- (map_map columns fixture_id), Hc, map_map. exact Hfix.
  - rewrite Hi. exact Hid.
  - change (predictions_seq (save_result now fixture hg ag db))
      with (predictions_seq db).
    rewrite Forall_forall in *. intros row Hin.
    assert (Hin' : In (id row) (map id (predictions db))).
    { rewrite <- Hi. now apply in_map. }
    apply in_map_iff in Hin'. destruct Hin' as (row' & <- & Hin'). auto.
Qed.

Lemma replay_consistent (calls : list call) (db : Database.t) :
  consistent db -> consistent (replay calls db).
Proof.
  revert db. induction calls as [|c calls IH]; intros db H; [exact H|].
  simpl. apply IH. destruct c; simpl.
  - now apply save_prediction_consistent.
  - now apply save_result_consistent.
Qed.

End LedgerInvariants.

Lemma consistent_rows_of (db : Database.t) (i : Z) :
  LedgerHistory.consistent db -> (List.length (Database.rows_of i db) <= 1)%nat.
Proof.
  intros (Hfix & _). unfold Database.rows_of.
  induction (Database.predictions db) as [|row rows IH]; simpl; [lia|].
  inversion Hfix as [|x xs Hnotin Hnd]; subst.
  destruct (Database.has_fixture i row) eqn:E; [|now apply IH].
  assert (Hnone : filter (Database.has_fixture i) rows = []).
  { destruct (filter (Database.has_fixture i) rows) as [|r rs] eqn:Ef;
      [reflexivity|].
    exfalso. apply Hnotin.
    assert (Hin : In r (filter (Database.has_fixture i) rows))
      by (rewrite Ef; now left).
    apply filter_In in Hin. destruct Hin as [Hin Hr].
    unfold Database.has_fixture in E, Hr. apply Z.eqb_eq in E, Hr.
    apply in_map_iff. exists r. split; [congruence | exact Hin]. }
  rewrite Hnone. simpl. lia.
Qed.

(** X1. Whatever sequence of [save_prediction] and [save_result] calls is
    made on a new database, table [predictions] never holds two rows with the
    same [fixture_id] or the same [id], no [id] exceeds the autoincrement
    counter, and every fixture identifier selects at most one row. *)
Theorem X1_ledger_stays_consistent (calls : list LedgerHistory.call) (i : Z) :
  let db := LedgerHistory.replay calls (Database._init_db None) in
  LedgerHistory.consistent db
  /\ (List.length (Database.rows_of i db) <= 1)%nat.
Proof.
  intros db.
  assert (H : LedgerHistory.consistent db).
  { apply replay_consistent. unfold LedgerHistory.consistent. simpl.
    repeat split; constructor. }
  split; [exact H | now apply consistent_rows_of].
Qed.

Section LedgerFrames.

Import Database Accuracy.

Lemma rows_of_save_result_other (now fixture hg ag other : Z) (db : Database.t) :
  other <> fixture ->
  rows_of other (save_result now fixture hg ag db) = rows_of other db.
Proof.
  intros Hne. unfold rows_of, save_result; simpl.
  induction (predictions db) as [|row rows IH]; simpl; [reflexivity|].
  destruct (has_fixture fixture row) eqn:E; simpl.
  - unfold has_fixture in *; simpl. apply Z.eqb_eq in E.
    replace (fixture_id (columns row) =? other) with false
      by (symmetry; apply Z.eqb_neq; congruence).
    exact IH.
  - destruct (has_fixture other row); [f_equal|]; exact IH.
Qed.

Lemma len_filter_le {A : Type} (f : A -> bool) (l : list A) :
  0 <= len (filter f l) <= len l.
Proof.
  unfold len. pose proof (filter_length_le f l). lia.
Qed.

Lemma ratio_bounds (k n : Z) : 0 <= k <= n -> n <> 0 -> (0 <= IZR k / IZR n <= 1)%R.
Proof.
  intros [Hk Hkn] Hn.
  assert (Hpos : (0 < IZR n)%R) by (apply IZR_lt; lia).
  apply IZR_le in Hk. apply IZR_le in Hkn. split.
  - apply Rmult_le_pos; [exact Hk|]. left. now apply Rinv_0_lt_compat.
  - apply (Rmult_le_reg_r (IZR n)); [exact Hpos|].
    unfold Rdiv. rewrite Rmult_assoc, Rinv_l by lra. lra.
Qed.

Lemma joined_length (in_window : Z -> bool) (db : Database.t) :
  len (joined in_window db)
  = fold_right Z.add 0
      (map (fun p =>
              len (filter (fun r => result_fixture_id r =? fixture_id (columns p))
                          (results db)))
           (filter (fun p => in_window (predicted_at p)) (predictions db))).
Proof.
  unfold joined.
  induction (filter (fun p => in_window (predicted_at p)) (predictions db))
    as [|p ps IH]; simpl; [reflexivity|].
  unfold len in *. rewrite length_app, length_map, Nat2Z.inj_add, IH. reflexivity.
Qed.

End LedgerFrames.

(** X2. [save_prediction] touches one fixture only: afterwards the rows of
    its own identifier are the single new row (so [prediction_exists] is
    true for it), the rows and the [prediction_exists] answer of every other
    identifier are as before, and table [results] is untouched. *)
Theorem X2_save_prediction_touches_one_fixture
    (now : Z) (p : Prediction) (db : Database.t) (i : Z) :
  let db' := Database.save_prediction now p db in
  Database.rows_of i db'
  = (if i =? fixture_id p then
       [ {| Database.id := Database.predictions_seq db + 1;
            Database.predicted_at := now;
            Database.columns := p;
            Database.status := "PENDING" |} ]
     else Database.rows_of i db)
  /\ Database.prediction_exists i db'
     = (i =? fixture_id p) || Database.prediction_exists i db
  /\ Database.results db' = Database.results db.
Proof.
  intros db'. subst db'. split; [|split].
  - destruct (i =? fixture_id p) eqn:E.
    + apply Z.eqb_eq in E. subst i. apply rows_of_save_same.
    + apply Z.eqb_neq in E. now apply rows_of_save_other.
  - apply prediction_exists_save.
  - reflexivity.
Qed.

(** X3. [save_result] appends exactly one [results] row, whose two labels
    are [1] exactly for three or more goals in total and for a goal on each
    side; it keeps every [predictions] row in place, changing only the status
    of the rows of its fixture, so no answer of [prediction_exists] changes
    and the autoincrement counter of [predictions] stays. *)
Theorem X3_save_result_effect
    (now fixture hg ag : Z) (db : Database.t) (i : Z) :
  let db' := Database.save_result now fixture hg ag db in
  Database.results db'
  = Database.results db
    ++ [ {| Database.result_id := Database.results_seq db + 1;
            Database.result_fixture_id := fixture;
            Database.home_goals := hg;
            Database.away_goals := ag;
            Database.over25_actual := if 3 <=? hg + ag then 1 else 0;
            Database.btts_actual := if (1 <=? hg) && (1 <=? ag) then 1 else 0;
            Database.recorded_at := now |} ]
  /\ Database.rows_of i db'
     = (if i =? fixture then
          map (fun row =>
                 {| Database.id := Database.id row;
                    Database.predicted_at := Database.predicted_at row;
                    Database.columns := Database.columns row;
                    Database.status := "FINISHED" |})
              (Database.rows_of i db)
        else Database.rows_of i db)
  /\ Database.prediction_exists i db' = Database.prediction_exists i db
  /\ map Database.columns (Database.predictions db')
     = map Database.columns (Database.predictions db)
  /\ Database.predictions_seq db' = Database.predictions_seq db.
Proof.
  intros db'. subst db'.
  assert (Hrows : Database.rows_of i (Database.save_result now fixture hg ag db)
                  = (if i =? fixture then
                       map (fun row =>
                              {| Database.id := Database.id row;
                                 Database.predicted_at := Database.predicted_at row;
                                 Database.columns := Database.columns row;
                                 Database.status := "FINISHED" |})
                           (Database.rows_of i db)
                     else Database.rows_of i db)).
  { destruct (i =? fixture) eqn:E.
    - apply Z.eqb_eq in E. subst i. apply rows_of_save_result.
    - apply Z.eqb_neq in E. now apply rows_of_save_result_other. }
  split; [|split; [exact Hrows|split; [|split]]].
  - unfold Database.save_result; simpl. do 3 f_equal.
    + destruct (hg + ag >? 2) eqn:E1, (3 <=? hg + ag) eqn:E2; try reflexivity; lia.
    + destruct (hg >? 0) eqn:E1, (1 <=? hg) eqn:E2; try lia;
        destruct (ag >? 0) eqn:E3, (1 <=? ag) eqn:E4; try reflexivity; lia.
  - rewrite !prediction_exists_rows, Hrows.
    destruct (i =? fixture); [|reflexivity].
    destruct (Database.rows_of i db); reflexivity.
  - apply save_result_columns.
  - reflexivity.
Qed.

Lemma stats_total (in_window : Z -> bool) (db : Database.t) :
  Accuracy.total (Accuracy.get_accuracy_stats in_window db)
  = len (Accuracy.joined in_window db).
Proof.
  unfold Accuracy.get_accuracy_stats.
  destruct (len (Accuracy.joined in_window db) =? 0) eqn:E; simpl; [|reflexivity].
  apply Z.eqb_eq in E. now rewrite E.
Qed.

(** X4. In the accuracy report both accuracies lie between 0 and 1, [total]
    is the number of joined rows, and each accuracy times [total] is the
    number of joined rows that count as a hit. *)
Theorem X4_accuracy_stats_bounds (in_window : Z -> bool) (db : Database.t) :
  let stats := Accuracy.get_accuracy_stats in_window db in
  let rows := Accuracy.joined in_window db in
  (0 <= Accuracy.accuracy_over25 stats <= 1)%R
  /\ (0 <= Accuracy.accuracy_btts stats <= 1)%R
  /\ Accuracy.total stats = len rows
  /\ (Accuracy.accuracy_over25 stats * IZR (Accuracy.total stats)
      = IZR (len (filter Accuracy.over25_hit rows)))%R
  /\ (Accuracy.accuracy_btts stats * IZR (Accuracy.total stats)
      = IZR (len (filter Accuracy.btts_hit rows)))%R.
Proof.
  intros stats rows. subst stats. unfold Accuracy.get_accuracy_stats.
  fold rows.
  destruct (len rows =? 0) eqn:E; simpl.
  - apply Z.eqb_eq in E.
    assert (Hnil : rows = []) by (destruct rows; [reflexivity | discriminate]).
    rewrite Hnil. simpl. change (len (@nil (Database.PredictionRow * Database.ResultRow))) with 0.
    repeat split; try lra; try reflexivity.
  - apply Z.eqb_neq in E.
    assert (IZR (len rows) <> 0)%R by (apply not_0_IZR; exact E).
    repeat split;
      try (apply ratio_bounds; [apply len_filter_le | exact E]);
      field; assumption.
Qed.

Section ReportAfterResult.

Import Database Accuracy.

Variable in_window : Z -> bool.

Lemma joined_length_save_result (now fixture hg ag : Z) (db : Database.t) :
  len (joined in_window (save_result now fixture hg ag db))
  = len (joined in_window db)
    + len (filter (fun p => in_window (predicted_at p)) (rows_of fixture db)).
Proof.
  rewrite !joined_length. unfold rows_of, save_result; simpl.
  induction (predictions db) as [|p ps IH]; simpl; [reflexivity|].
  assert (Hw : in_window
                 (predicted_at
                    (if has_fixture fixture p
                     then {| id := id p; predicted_at := predicted_at p;
                             columns := columns p; status := "FINISHED" |}
                     else p))
               = in_window (predicted_at p))
    by (destruct (has_fixture fixture p); reflexivity).
  rewrite Hw. destruct (in_window (predicted_at p)) eqn:Ew; simpl.
  - rewrite IH.
    assert (Hc : fixture_id
                   (columns
                      (if has_fixture fixture p
                       then {| id := id p; predicted_at := predicted_at p;
                               columns := columns p; status := "FINISHED" |}
                       else p))
                 = fixture_id (columns p))
      by (destruct (has_fixture fixture p); reflexivity).
    rewrite Hc, filter_app. simpl. unfold len. rewrite length_app.
    unfold has_fixture.
    rewrite (Z.eqb_sym fixture (fixture_id (columns p))).
    destruct (fixture_id (columns p) =? fixture); simpl; rewrite ?Ew; simpl;
      unfold len; lia.
  - rewrite IH. destruct (has_fixture fixture p); simpl; rewrite ?Ew; reflexivity.
Qed.

End ReportAfterResult.

(** X5. Recording an outcome adds to the report's [total] one joined row for
    each prediction row of that fixture inside the window: nothing for a
    fixture without such a prediction, and again as much each time the same
    outcome is recorded once more. *)
Theorem X5_report_total_after_save_result
    (in_window : Z -> bool) (now fixture hg ag : Z) (db : Database.t) :
  let predicted :=
    len (filter (fun p => in_window (Database.predicted_at p))
                (Database.rows_of fixture db)) in
  let once := Database.save_result now fixture hg ag db in
  let twice := Database.save_result now fixture hg ag once in
  Accuracy.total (Accuracy.get_accuracy_stats in_window once)
  = Accuracy.total (Accuracy.get_accuracy_stats in_window db) + predicted
  /\ Accuracy.total (Accuracy.get_accuracy_stats in_window twice)
     = Accuracy.total (Accuracy.get_accuracy_stats in_window db) + 2 * predicted.
Proof.
  intros predicted once twice.
  rewrite !stats_total.
  subst twice once. rewrite !joined_length_save_result.
  rewrite rows_of_save_result.
  assert (Hsame :
            len (filter (fun p => in_window (Database.predicted_at p))
                   (map (fun row =>
                           {| Database.id := Database.id row;
                              Database.predicted_at := Database.predicted_at row;
                              Database.columns := Database.columns row;
                              Database.status := "FINISHED" |})
                        (Database.rows_of fixture db)))
            = predicted).
  { subst predicted. induction (Database.rows_of fixture db) as [|r rs IH];
      simpl; [reflexivity|].
    destruct (in_window (Database.predicted_at r)); simpl; unfold len in *;
      simpl; lia. }
  rewrite Hsame. subst predicted. lia.
Qed.

(** ** The scoring engine *)

Lemma Rleb_true_iff (x y : R) : Rleb x y = true <-> (x <= y)%R.
Proof.
  unfold Rleb. destruct (Rle_dec x y); split; intros;
    try assumption; try reflexivity; try discriminate; contradiction.
Qed.

Lemma Rleb_false_iff (x y : R) : Rleb x y = false <-> (y < x)%R.
Proof.
  unfold Rleb. destruct (Rle_dec x y); split; intros;
    try reflexivity; try discriminate; lra.
Qed.

(** X6. With a model loaded and its output in [0, 1], [predict_over25]
    returns that probability with an interval inside [0, 1] that contains it
    and is at most 0.16 wide, and the label is "High" from 0.75, "Medium"
    from 0.65 and "Low" below. *)
Theorem X6_predict_over25_interval_and_label
    (self : HybridPredictor.t) (model : HybridPredictor.Model) (features : list R) :
  HybridPredictor.over25_model self = Some model ->
  (0 <= model features <= 1)%R ->
  exists r,
    HybridPredictor.predict_over25 self features = Ok r
    /\ HybridPredictor.probability r = model features
    /\ (0 <= HybridPredictor.lower_bound r <= HybridPredictor.probability r)%R
    /\ (HybridPredictor.probability r <= HybridPredictor.upper_bound r <= 1)%R
    /\ (HybridPredictor.upper_bound r - HybridPredictor.lower_bound r <= 0.16)%R
    /\ (HybridPredictor.confidence r = "High" <-> (0.75 <= model features)%R)
    /\ (HybridPredictor.confidence r = "Medium"
        <-> (0.65 <= model features < 0.75)%R)
    /\ (HybridPredictor.confidence r = "Low" <-> (model features < 0.65)%R).
Proof.
  intros Hmodel Hp. unfold HybridPredictor.predict_over25. rewrite Hmodel.
  eexists. split; [reflexivity|]. simpl. set (p := model features) in *.
  split; [reflexivity|].
  split; [unfold Rmax; destruct (Rle_dec 0.0 (p - 0.08)); lra|].
  split; [unfold Rmin; destruct (Rle_dec 1.0 (p + 0.08)); lra|].
  split; [unfold Rmax, Rmin;
          destruct (Rle_dec 0.0 (p - 0.08)), (Rle_dec 1.0 (p + 0.08)); lra|].
  destruct (Rleb 0.75 p) eqn:E75; [apply Rleb_true_iff in E75 | apply Rleb_false_iff in E75];
    (destruct (Rleb 0.65 p) eqn:E65;
     [apply Rleb_true_iff in E65 | apply Rleb_false_iff in E65]);
    repeat split; intros; try discriminate; try reflexivity; try lra.
Qed.

Lemma X6_predict_over25_interval_and_label_witness :
  exists r,
    HybridPredictor.predict_over25
      {| HybridPredictor.over25_model := Some Scenario.keen;
         HybridPredictor.scaler := None |} [] = Ok r
    /\ HybridPredictor.probability r = Scenario.keen []
    /\ (0 <= HybridPredictor.lower_bound r <= HybridPredictor.probability r)%R
    /\ (HybridPredictor.probability r <= HybridPredictor.upper_bound r <= 1)%R
    /\ (HybridPredictor.upper_bound r - HybridPredictor.lower_bound r <= 0.16)%R
    /\ (HybridPredictor.confidence r = "High" <-> (0.75 <= Scenario.keen [])%R)
    /\ (HybridPredictor.confidence r = "Medium"
        <-> (0.65 <= Scenario.keen [] < 0.75)%R)
    /\ (HybridPredictor.confidence r = "Low" <-> (Scenario.keen [] < 0.65)%R).
Proof.
  apply (X6_predict_over25_interval_and_label
           {| HybridPredictor.over25_model := Some Scenario.keen;
              HybridPredictor.scaler := None |} Scenario.keen []).
  - reflexivity.
  - unfold Scenario.keen. lra.
Defined.

Lemma predict_btts_general (lambda_home lambda_away m : R) :
  HybridPredictor.predict_btts lambda_home lambda_away m
  = ((1 - exp (- (lambda_home * m))) * (1 - exp (- (lambda_away * m)))
     * (if Rltb lambda_home 1.0 || Rltb lambda_away 1.0 then 0.92 else 1))%R.
Proof.
  unfold HybridPredictor.predict_btts. rewrite !poisson_pmf_0.
  destruct (Rltb lambda_home 1.0 || Rltb lambda_away 1.0); lra.
Qed.

(** X7. [predict_btts] does not depend on which side is called home, is
    exactly 0 as soon as one rate is 0, and for non-negative rates and
    multiplier lies between 0 and 1, and is at most 0.92 when a rate is below
    1.0. *)
Theorem X7_predict_btts_symmetry_and_caps (lambda_home lambda_away m : R) :
  (0 <= lambda_home)%R -> (0 <= lambda_away)%R -> (0 <= m)%R ->
  HybridPredictor.predict_btts lambda_home lambda_away m
  = HybridPredictor.predict_btts lambda_away lambda_home m
  /\ HybridPredictor.predict_btts 0 lambda_away m = 0%R
  /\ (0 <= HybridPredictor.predict_btts lambda_home lambda_away m <= 1)%R
  /\ ((lambda_home < 1 \/ lambda_away < 1)%R ->
      (HybridPredictor.predict_btts lambda_home lambda_away m <= 0.92)%R).
Proof.
  intros Hh Ha Hm. rewrite !predict_btts_general.
  assert (Hhm : (0 <= lambda_home * m)%R) by nra.
  assert (Ham : (0 <= lambda_away * m)%R) by nra.
  pose proof (scores_bounds _ Hhm) as Bh. pose proof (scores_bounds _ Ham) as Ba.
  pose proof (exp_pos (- (lambda_home * m))) as Ph.
  pose proof (exp_pos (- (lambda_away * m))) as Pa.
  split; [|split; [|split]].
  - rewrite (orb_comm (Rltb lambda_away 1.0)). ring.
  - rewrite Rmult_0_l, Ropp_0, exp_0. ring.
  - set (x := (1 - exp (- (lambda_home * m)))%R) in *.
    set (y := (1 - exp (- (lambda_away * m)))%R) in *.
    assert (Hx : (x < 1)%R) by (subst x; lra).
    assert (0 <= x * y)%R by nra.
    assert (x * y <= x)%R by nra.
    destruct (Rltb lambda_home 1.0 || Rltb lambda_away 1.0); nra.
  - intros Hlow.
    assert (Hd : Rltb lambda_home 1.0 || Rltb lambda_away 1.0 = true).
    { apply orb_true_iff. destruct Hlow; [left | right]; apply Rltb_true; lra. }
    rewrite Hd.
    set (x := (1 - exp (- (lambda_home * m)))%R) in *.
    set (y := (1 - exp (- (lambda_away * m)))%R) in *.
    assert (0 <= x * y <= 1)%R by nra. nra.
Qed.

Lemma X7_predict_btts_symmetry_and_caps_witness :
  HybridPredictor.predict_btts 0.5 1.5 1.0 = HybridPredictor.predict_btts 1.5 0.5 1.0
  /\ HybridPredictor.predict_btts 0 1.5 1.0 = 0%R
  /\ (0 <= HybridPredictor.predict_btts 0.5 1.5 1.0 <= 1)%R
  /\ (HybridPredictor.predict_btts 0.5 1.5 1.0 <= 0.92)%R.
Proof.
  assert (H1 : (0 <= 0.5)%R) by lra.
  assert (H2 : (0 <= 1.5)%R) by lra.
  assert (H3 : (0 <= 1.0)%R) by lra.
  destruct (X7_predict_btts_symmetry_and_caps 0.5 1.5 1.0 H1 H2 H3)
    as (S & Z & B & C).
  split; [exact S|]. split; [exact Z|]. split; [exact B|]. apply C. left. lra.
Defined.

(** X8. [load] sets the model exactly when [over25_voting.pkl] is there.
    When that file is missing the predictor is left as it was, also if the
    scaler file exists; when only the scaler file is missing the same warning
    is printed although the model is loaded and scoring works. *)
Theorem X8_load_partial_artifacts
    (self : HybridPredictor.t) (path : HybridPredictor.Pretrained) :
  let warning := ["[WARN] Pre-trained models not found. Train first!"] in
  (HybridPredictor.over25_voting_pkl path = None ->
   HybridPredictor.load self path = (self, warning))
  /\ (forall model,
        HybridPredictor.over25_voting_pkl path = Some model ->
        HybridPredictor.over25_model (fst (HybridPredictor.load self path))
        = Some model
        /\ (forall features,
              exists r,
                HybridPredictor.predict_over25
                  (fst (HybridPredictor.load self path)) features = Ok r
                /\ HybridPredictor.probability r = model features)
        /\ (HybridPredictor.feature_scaler_pkl path = None ->
            snd (HybridPredictor.load self path) = warning
            /\ HybridPredictor.scaler (fst (HybridPredictor.load self path))
               = HybridPredictor.scaler self)).
Proof.
  intros warning. unfold HybridPredictor.load. split.
  - intros ->. reflexivity.
  - intros model ->.
    destruct (HybridPredictor.feature_scaler_pkl path) eqn:E; simpl.
    + split; [reflexivity|]. split; [|discriminate].
      intros features. unfold HybridPredictor.predict_over25. simpl.
      eexists. split; reflexivity.
    + split; [reflexivity|]. split; [|intros _; split; reflexivity].
      intros features. unfold HybridPredictor.predict_over25. simpl.
      eexists. split; reflexivity.
Qed.

Lemma X8_load_partial_artifacts_witness :
  let warning := ["[WARN] Pre-trained models not found. Train first!"] in
  let only_model :=
    {| HybridPredictor.over25_voting_pkl := Some Scenario.keen;
       HybridPredictor.feature_scaler_pkl := None |} in
  let only_scaler :=
    {| HybridPredictor.over25_voting_pkl := None;
       HybridPredictor.feature_scaler_pkl := Some Scenario.identity_scaler |} in
  HybridPredictor.load HybridPredictor.__init__ only_scaler
  = (HybridPredictor.__init__, warning)
  /\ HybridPredictor.over25_model
       (fst (HybridPredictor.load HybridPredictor.__init__ only_model))
     = Some Scenario.keen
  /\ snd (HybridPredictor.load HybridPredictor.__init__ only_model) = warning.
Proof.
  intros warning only_model only_scaler.
  destruct (X8_load_partial_artifacts HybridPredictor.__init__ only_scaler)
    as [Hmissing _].
  destruct (X8_load_partial_artifacts HybridPredictor.__init__ only_model)
    as [_ Hpresent].
  destruct (Hpresent Scenario.keen eq_refl) as (Hmodel & _ & Hscaler).
  split; [exact (Hmissing eq_refl)|]. split; [exact Hmodel|].
  exact (proj1 (Hscaler eq_refl)).
Defined.

(** ** The feature builder *)

Section FeatureErrors.

Import FeatureEngineer FeatureSchema.

Lemma for_each_raise {A S : Type} (body : S -> A -> result S)
    (xs : list A) (s : S) (e : exn) :
  (forall s x e, body s x = Raise e -> e = TypeError) ->
  for_each body xs s = Raise e -> e = TypeError.
Proof.
  intros Hbody. revert s. induction xs as [|x xs IH]; simpl; intros s H.
  - discriminate.
  - destruct (body s x) eqn:E; [now apply (IH a) | injection H as <-; eauto].
Qed.

Lemma for_each_ok {A S : Type} (body : S -> A -> result S) (xs : list A) (s : S) :
  (forall s x, In x xs -> exists s', body s x = Ok s') ->
  exists s', for_each body xs s = Ok s'.
Proof.
  revert s. induction xs as [|x xs IH]; simpl; intros s H; [eauto|].
  destruct (H s x (or_introl eq_refl)) as [s' ->]. apply IH. intros; apply H; auto.
Qed.

Lemma for_each_ok_inv {A S : Type} (body : S -> A -> result S)
    (xs : list A) (s s' : S) (x : A) :
  for_each body xs s = Ok s' -> In x xs -> exists s1 s2, body s1 x = Ok s2.
Proof.
  revert s. induction xs as [|y xs IH]; simpl; intros s H Hin; [contradiction|].
  destruct (body s y) eqn:E; [|discriminate].
  destruct Hin as [<-|Hin]; eauto.
Qed.

Lemma both_positive_raise (hg ag : option Z) (e : exn) :
  both_positive hg ag = Raise e -> e = TypeError.
Proof.
  unfold both_positive. destruct hg as [h|]; [|congruence].
  destruct (h >? 0); [|discriminate]. destruct ag; congruence.
Qed.

Lemma py_add_raise (hg ag : option Z) (e : exn) :
  py_add hg ag = Raise e -> e = TypeError.
Proof. unfold py_add. destruct hg, ag; congruence. Qed.

Lemma not_null_get (m : MatchRecord) :
  has_null m = false ->
  exists h a, get_default0 (fullTime_home m) = Some h
              /\ get_default0 (fullTime_away m) = Some a.
Proof.
  unfold has_null. intros H. apply orb_false_elim in H. destruct H as [Hh Ha].
  destruct (fullTime_home m), (fullTime_away m); try discriminate; simpl; eauto.
Qed.

Lemma h2h_btts_rate_raise (home away : string) (ms : list MatchRecord) (e : exn) :
  _h2h_btts_rate home away ms = Raise e -> e = TypeError.
Proof.
  unfold _h2h_btts_rate. intros H.
  destruct (for_each _ (h2h_matches home away ms) 0) eqn:E; [discriminate|].
  injection H as <-. revert E. apply for_each_raise.
  intros s x e'. destruct (both_positive _ _) eqn:Eb; [discriminate|].
  intros H. injection H as <-. exact (both_positive_raise _ _ _ Eb).
Qed.

Lemma over_rate_raise (ms : list MatchRecord) (threshold : Q) (e : exn) :
  _over_rate ms threshold = Raise e -> e = TypeError.
Proof.
  unfold _over_rate. intros H.
  destruct (for_each _ ms 0) eqn:E; [discriminate|].
  injection H as <-. revert E. apply for_each_raise.
  intros s x e'. destruct (py_add _ _) eqn:Eb; [discriminate|].
  intros H. injection H as <-. exact (py_add_raise _ _ _ Eb).
Qed.

Lemma btts_rate_raise (ms : list MatchRecord) (team : string) (e : exn) :
  _btts_rate ms team = Raise e -> e = TypeError.
Proof.
  unfold _btts_rate. intros H.
  destruct (for_each _ ms 0) eqn:E; [discriminate|].
  injection H as <-. revert E. apply for_each_raise.
  intros s x e'. destruct (both_positive _ _) eqn:Eb; [discriminate|].
  intros H. injection H as <-. exact (both_positive_raise _ _ _ Eb).
Qed.

Lemma h2h_btts_rate_ok (home away : string) (ms : list MatchRecord) :
  Forall (fun m => has_null m = false) ms ->
  exists r, _h2h_btts_rate home away ms = Ok r.
Proof.
  intros Hms. unfold _h2h_btts_rate.
  destruct (for_each_ok
              (fun btts_count m =>
                 b <- both_positive (get_default0 (fullTime_home m))
                                    (get_default0 (fullTime_away m)) ;;
                 Ok (if b then btts_count + 1 else btts_count))
              (h2h_matches home away ms) 0) as [c Hc].
  - intros s x Hin. apply filter_In in Hin. destruct Hin as [Hin _].
    rewrite Forall_forall in Hms.
    destruct (not_null_get x (Hms x Hin)) as (h & a & -> & ->). simpl.
    destruct (h >? 0); simpl; eauto.
  - rewrite Hc. simpl. eauto.
Qed.

Lemma over_rate_ok (ms : list MatchRecord) (threshold : Q) :
  Forall (fun m => has_null m = false) ms ->
  exists r, _over_rate ms threshold = Ok r.
Proof.
  intros Hms. unfold _over_rate.
  destruct (for_each_ok
              (fun count m =>
                 total <- py_add (get_default0 (fullTime_home m))
                                 (get_default0 (fullTime_away m)) ;;
                 Ok (if gt_threshold total threshold then count + 1 else count))
              ms 0) as [c Hc].
  - intros s x Hin. rewrite Forall_forall in Hms.
    destruct (not_null_get x (Hms x Hin)) as (h & a & -> & ->). simpl. eauto.
  - rewrite Hc. simpl. eauto.
Qed.

Lemma btts_rate_ok (ms : list MatchRecord) (team : string) :
  Forall (fun m => has_null m = false) ms ->
  exists r, _btts_rate ms team = Ok r.
Proof.
  intros Hms. unfold _btts_rate.
  destruct (for_each_ok
              (fun count m =>
                 b <- both_positive (get_default0 (fullTime_home m))
                                    (get_default0 (fullTime_away m)) ;;
                 Ok (if b then count + 1 else count))
              ms 0) as [c Hc].
  - intros s x Hin. rewrite Forall_forall in Hms.
    destruct (not_null_get x (Hms x Hin)) as (h & a & -> & ->). simpl.
    destruct (h >? 0); simpl; eauto.
  - rewrite Hc. simpl. eauto.
Qed.

Lemma over_rate_ok_inv (ms : list MatchRecord) (threshold : Q) (r : R) :
  _over_rate ms threshold = Ok r -> Forall (fun m => has_null m = false) ms.
Proof.
  unfold _over_rate. intros H.
  destruct (for_each _ ms 0) as [c|] eqn:E; [|discriminate].
  apply Forall_forall. intros x Hin.
  destruct (for_each_ok_inv _ _ _ _ x E Hin) as (s1 & s2 & Hb).
  unfold has_null.
  destruct (fullTime_home x), (fullTime_away x); simpl in *;
    try reflexivity; discriminate.
Qed.

Lemma Forall_firstn {A : Type} (P : A -> Prop) (n : nat) (l : list A) :
  Forall P l -> Forall P (firstn n l).
Proof.
  intros H. rewrite <- (firstn_skipn n l) in H.
  apply Forall_app in H. exact (proj1 H).
Qed.

(** The value of [extract_features] is a dictionary with the 36 keys or the
    exception of one of the five rate calls. *)
Lemma extract_features_shape (home_team away_team : string)
    (home_history away_history : list MatchRecord) (league : string) (kickoff : Z) :
  match extract_features home_team away_team home_history away_history
          league kickoff with
  | Ok fs => map fst fs = feature_names
  | Raise e => e = TypeError
  end.
Proof.
  unfold extract_features. cbv beta iota zeta delta [bind].
  repeat match goal with
         | |- context [_h2h_btts_rate ?a ?b ?c] =>
             destruct (_h2h_btts_rate a b c) eqn:?;
             [|solve [eapply h2h_btts_rate_raise; eassumption]]
         | |- context [_over_rate ?a ?b] =>
             destruct (_over_rate a b) eqn:?;
             [|solve [eapply over_rate_raise; eassumption]]
         | |- context [_btts_rate ?a ?b] =>
             destruct (_btts_rate a b) eqn:?;
             [|solve [eapply btts_rate_raise; eassumption]]
         end.
  reflexivity.
Qed.

End FeatureErrors.

Lemma extract_features_without_null
    (home_team away_team : string)
    (home_history away_history : list FeatureEngineer.MatchRecord)
    (league : string) (kickoff : Z) :
  Forall (fun m => FeatureSchema.has_null m = false) home_history ->
  Forall (fun m => FeatureSchema.has_null m = false) away_history ->
  exists fs,
    FeatureEngineer.extract_features home_team away_team
      home_history away_history league kickoff = Ok fs.
Proof.
  intros Hh Ha. unfold FeatureEngineer.extract_features.
  cbv beta zeta.
  destruct (h2h_btts_rate_ok home_team away_team (home_history ++ away_history))
    as [r1 ->]; [apply Forall_app; split; assumption|].
  destruct (over_rate_ok (firstn 10 home_history) 2.5%Q) as [r2 ->];
    [now apply Forall_firstn|].
  destruct (over_rate_ok (firstn 10 away_history) 2.5%Q) as [r3 ->];
    [now apply Forall_firstn|].
  destruct (btts_rate_ok (firstn 10 home_history) home_team) as [r4 ->];
    [now apply Forall_firstn|].
  destruct (btts_rate_ok (firstn 10 away_history) away_team) as [r5 ->];
    [now apply Forall_firstn|].
  simpl. eauto.
Qed.

(** X11. A record with a [null] score entry among the first ten of either
    history makes [extract_features] raise [TypeError]. *)
Theorem X11_null_score_raises_type_error
    (home_team away_team : string)
    (home_history away_history : list FeatureEngineer.MatchRecord)
    (league : string) (kickoff : Z) :
  Exists (fun m => FeatureSchema.has_null m = true) (firstn 10 home_history)
  \/ Exists (fun m => FeatureSchema.has_null m = true) (firstn 10 away_history) ->
  FeatureEngineer.extract_features home_team away_team
    home_history away_history league kickoff = Raise TypeError.
Proof.
  intros Hnull.
  pose proof (extract_features_shape home_team away_team home_history
                away_history league kickoff) as H.
  destruct (FeatureEngineer.extract_features _ _ _ _ _ _) as [fs|e] eqn:E;
    [|now subst e].
  exfalso. unfold FeatureEngineer.extract_features in E.
  cbv beta iota zeta delta [bind] in E.
  destruct (FeatureEngineer._h2h_btts_rate _ _ _); [|discriminate E].
  destruct (FeatureEngineer._over_rate (firstn 10 home_history) _) eqn:Eh;
    [|discriminate E].
  destruct (FeatureEngineer._over_rate (firstn 10 away_history) _) eqn:Ea;
    [|discriminate E].
  assert (Hcontra : forall ms r,
             FeatureEngineer._over_rate ms 2.5%Q = Ok r ->
             Exists (fun m => FeatureSchema.has_null m = true) ms -> False).
  { intros ms r Hr Hex. apply over_rate_ok_inv in Hr.
    apply Exists_exists in Hex. destruct Hex as (m & Hin & Hm).
    rewrite Forall_forall in Hr. specialize (Hr m Hin). congruence. }
  destruct Hnull as [Hn|Hn];
    [exact (Hcontra _ _ Eh Hn) | exact (Hcontra _ _ Ea Hn)].
Qed.

Lemma X11_null_score_raises_type_error_witness :
  FeatureEngineer.extract_features "A" "B"
    [Scenario.finished "A" "B" 2 1; Scenario.null_scored "C" "A"]
    [Scenario.finished "B" "D" 0 0] "La Liga" 0 = Raise TypeError.
Proof.
  apply X11_null_score_raises_type_error.
  left. apply Exists_cons_tl, Exists_cons_hd. reflexivity.
Defined.

Section FeatureRanges.

Import FeatureEngineer.

Lemma fold_left_counter {A : Type} (step : Z -> A -> Z) (k : Z) (l : list A) (c0 : Z) :
  (forall c m, c <= step c m <= c + k) ->
  c0 <= fold_left step l c0 <= c0 + k * len l.
Proof.
  intros Hstep. revert c0. induction l as [|m l IH]; intros c0.
  - unfold len. simpl. lia.
  - simpl fold_left. specialize (IH (step c0 m)). specialize (Hstep c0 m).
    unfold len in *. simpl List.length. rewrite Nat2Z.inj_succ. lia.
Qed.

Lemma for_each_counter {A : Type} (body : Z -> A -> result Z) (l : list A) (c0 c : Z) :
  (forall c m c', body c m = Ok c' -> c <= c' <= c + 1) ->
  for_each body l c0 = Ok c ->
  c0 <= c <= c0 + len l.
Proof.
  intros Hbody. revert c0. induction l as [|m l IH]; simpl; intros c0 H.
  - injection H as <-. unfold len. simpl. lia.
  - destruct (body c0 m) as [c1|] eqn:E; [|discriminate].
    specialize (IH c1 H). specialize (Hbody c0 m c1 E).
    unfold len in *. simpl List.length. rewrite Nat2Z.inj_succ. lia.
Qed.

Lemma rate_bounds {A : Type} (count : Z) (l : list A) :
  0 <= count <= len l ->
  (0 <= (if is_empty l then 0 else IZR count / IZR (len l)) <= 1)%R.
Proof.
  intros H. destruct l as [|a l]; simpl; [lra|].
  apply ratio_bounds; [exact H|]. unfold len. simpl. lia.
Qed.

Lemma win_rate_bounds (matches : list MatchRecord) (team : string) :
  (0 <= _win_rate matches team <= 1)%R.
Proof.
  unfold _win_rate. apply rate_bounds.
  match goal with
  | |- _ <= fold_left ?f _ _ <= _ =>
      pose proof (fold_left_counter f 1 matches 0) as H
  end.
  cbv beta in H. lapply H; [lia|].
  intros c m.
  destruct (get (fullTime_home m)), (get (fullTime_away m)); try lia.
  destruct (_ && _); [lia|]. destruct (_ && _); lia.
Qed.

Lemma clean_sheet_rate_bounds (matches : list MatchRecord) (team : string) :
  (0 <= _clean_sheet_rate matches team <= 1)%R.
Proof.
  unfold _clean_sheet_rate. apply rate_bounds.
  match goal with
  | |- _ <= fold_left ?f _ _ <= _ =>
      pose proof (fold_left_counter f 1 matches 0) as H
  end.
  cbv beta zeta in H. lapply H; [lia|].
  intros c m. destruct (_ && _); [lia|]. destruct (_ && _); lia.
Qed.

Lemma both_positive_counter (count : Z) (m : MatchRecord) (c' : Z) :
  (b <- both_positive (get_default0 (fullTime_home m))
                      (get_default0 (fullTime_away m)) ;;
   Ok (if b then count + 1 else count)) = Ok c' ->
  count <= c' <= count + 1.
Proof.
  destruct (both_positive _ _) as [[|]|]; simpl; intros H;
    try discriminate; injection H as <-; lia.
Qed.

Lemma over_rate_bounds (matches : list MatchRecord) (threshold : Q) (r : R) :
  _over_rate matches threshold = Ok r -> (0 <= r <= 1)%R.
Proof.
  unfold _over_rate. destruct (for_each _ matches 0) as [c|] eqn:E; [|discriminate].
  simpl. intros H. injection H as <-. apply rate_bounds.
  apply for_each_counter in E; [lia|].
  intros c0 m c'. destruct (py_add _ _); simpl; [|discriminate].
  intros H. injection H as <-. destruct (gt_threshold _ _); lia.
Qed.

Lemma btts_rate_bounds (matches : list MatchRecord) (team : string) (r : R) :
  _btts_rate matches team = Ok r -> (0 <= r <= 1)%R.
Proof.
  unfold _btts_rate. destruct (for_each _ matches 0) as [c|] eqn:E; [|discriminate].
  simpl. intros H. injection H as <-. apply rate_bounds.
  apply for_each_counter in E; [lia|].
  intros c0 m c'. apply both_positive_counter.
Qed.

Lemma h2h_btts_rate_bounds (home away : string) (matches : list MatchRecord) (r : R) :
  _h2h_btts_rate home away matches = Ok r -> (0 <= r <= 1)%R.
Proof.
  unfold _h2h_btts_rate.
  destruct (for_each _ (h2h_matches home away matches) 0) as [c|] eqn:E;
    [|discriminate].
  simpl. intros H. injection H as <-.
  destruct (h2h_matches home away matches) as [|m ms] eqn:Eh; simpl; [lra|].
  apply ratio_bounds; [|unfold len; simpl; lia].
  apply for_each_counter in E; [lia|].
  intros c0 x c'. apply both_positive_counter.
Qed.

Lemma points_form_bounds (matches : list MatchRecord) (team : string) :
  0 <= _points_form matches team <= 3 * len matches.
Proof.
  unfold _points_form.
  match goal with
  | |- _ <= fold_left ?f _ _ <= _ =>
      pose proof (fold_left_counter f 3 matches 0) as H
  end.
  cbv beta in H. lapply H; [lia|].
  intros c m.
  destruct (get (fullTime_home m)) as [hg|], (get (fullTime_away m)) as [ag|];
    try lia.
  destruct (name_eq (homeTeam_name m) team).
  - destruct (hg >? ag); [lia|]. destruct (hg =? ag); lia.
  - destruct (name_eq (awayTeam_name m) team); [|lia].
    destruct (ag >? hg); [lia|]. destruct (ag =? hg); lia.
Qed.

End FeatureRanges.

(** X12. Every rate statistic lies between 0 and 1 on every window: the win
    and clean-sheet rates always, the over, both-teams-score and head-to-head
    both-teams-score rates whenever they return. *)
Theorem X12_rates_between_0_and_1
    (matches : list FeatureEngineer.MatchRecord) (team other : string)
    (threshold : Q) :
  (0 <= FeatureEngineer._win_rate matches team <= 1)%R
  /\ (0 <= FeatureEngineer._clean_sheet_rate matches team <= 1)%R
  /\ match FeatureEngineer._over_rate matches threshold with
     | Ok r => (0 <= r <= 1)%R
     | Raise _ => True
     end
  /\ match FeatureEngineer._btts_rate matches team with
     | Ok r => (0 <= r <= 1)%R
     | Raise _ => True
     end
  /\ match FeatureEngineer._h2h_btts_rate team other matches with
     | Ok r => (0 <= r <= 1)%R
     | Raise _ => True
     end.
Proof.
  split; [apply win_rate_bounds|]. split; [apply clean_sheet_rate_bounds|].
  split; [|split].
  - destruct (FeatureEngineer._over_rate matches threshold) eqn:E; [|exact I].
    eapply over_rate_bounds, E.
  - destruct (FeatureEngineer._btts_rate matches team) eqn:E; [|exact I].
    eapply btts_rate_bounds, E.
  - destruct (FeatureEngineer._h2h_btts_rate team other matches) eqn:E; [|exact I].
    eapply h2h_btts_rate_bounds, E.
Qed.

(** X13. The points form of a window is between 0 and three points per
    match; over the first [n] matches of a history it is at most [3 n], so
    the 3-match form is at most 9 and the 5-match form at most 15. *)
Theorem X13_points_form_bounds
    (history : list FeatureEngineer.MatchRecord) (team : string) (n : nat) :
  0 <= FeatureEngineer._points_form history team <= 3 * len history
  /\ 0 <= FeatureEngineer._points_form (firstn n history) team <= 3 * Z.of_nat n.
Proof.
  split; [apply points_form_bounds|].
  pose proof (points_form_bounds (firstn n history) team) as H.
  pose proof (firstn_le_length n history) as Hn. unfold len in H. lia.
Qed.

Section PoissonBounds.

(** The exponential dominates the partial sums of its series. *)
Lemma exp_ge_quadratic (x : R) : (0 <= x -> 1 + x + x * x / 2 <= exp x)%R.
Proof.
  intros Hx.
  pose proof (sum_incr (fun i => (/ INR (fact i) * x ^ i)%R) 2 (exp x)) as H.
  assert (Hcv : Un_cv (fun n => sum_f_R0 (fun i => (/ INR (fact i) * x ^ i)%R) n)
                      (exp x)).
  { exact (proj2_sig (exist_exp x)). }
  assert (Hpos : forall n, (0 <= / INR (fact n) * x ^ n)%R).
  { intros n. apply Rmult_le_pos.
    - left. apply Rinv_0_lt_compat, INR_fact_lt_0.
    - now apply pow_le. }
  specialize (H Hcv Hpos). simpl in H. lra.
Qed.

Lemma poisson_under_3_bounds (lambda_home lambda_away : R) :
  (0 <= lambda_home)%R -> (0 <= lambda_away)%R ->
  let s := (lambda_home + lambda_away)%R in
  (0 <= (1 + s + s * s / 2) * exp (- s) <= 1)%R.
Proof.
  intros Hh Ha s. assert (Hs : (0 <= s)%R) by (subst s; lra).
  pose proof (exp_ge_quadratic s Hs) as Hq.
  pose proof (exp_pos (- s)) as Hp.
  assert (He : (exp s * exp (- s) = 1)%R).
  { rewrite <- exp_plus. replace (s + - s)%R with 0%R by ring. apply exp_0. }
  split.
  - apply Rmult_le_pos; nra.
  - rewrite <- He. apply Rmult_le_compat_r; lra.
Qed.

End PoissonBounds.

Lemma poisson_over_x_closed (lambda_home lambda_away : R) :
  let s := (lambda_home + lambda_away)%R in
  FeatureEngineer._poisson_over_x lambda_home lambda_away 2.5%Q
  = (1 - exp (- s) * (1 + s + s * s / 2))%R.
Proof.
  intros s. unfold FeatureEngineer._poisson_over_x. simpl.
  unfold poisson_pmf. simpl.
  subst s. replace (- (lambda_home + lambda_away))%R
    with (- lambda_home + - lambda_away)%R by ring.
  rewrite exp_plus. field.
Qed.

Lemma poisson_over_x_range (lambda_home lambda_away : R) :
  (0 <= lambda_home)%R -> (0 <= lambda_away)%R ->
  (0 <= FeatureEngineer._poisson_over_x lambda_home lambda_away 2.5%Q <= 1)%R.
Proof.
  intros Hh Ha. rewrite poisson_over_x_closed.
  pose proof (poisson_under_3_bounds lambda_home lambda_away Hh Ha) as B.
  cbv zeta in B. lra.
Qed.

Lemma predict_btts_range (lambda_home lambda_away : R) :
  (0 <= lambda_home)%R -> (0 <= lambda_away)%R ->
  (0 <= HybridPredictor.predict_btts lambda_home lambda_away 1.0 <= 1)%R.
Proof.
  intros Hh Ha. rewrite predict_btts_unfold.
  pose proof (scores_bounds lambda_home Hh) as Bh.
  pose proof (scores_bounds lambda_away Ha) as Ba.
  destruct (Rltb lambda_home 1.0 || Rltb lambda_away 1.0); nra.
Qed.

(** X14. For non-negative rates the Poisson over-2.5 probability is
    [1 - e^(-s) (1 + s + s^2/2)] with [s] the sum of the two rates, and it
    lies between 0 and 1. *)
Theorem X14_poisson_over25_is_a_probability (lambda_home lambda_away : R) :
  (0 <= lambda_home)%R -> (0 <= lambda_away)%R ->
  let s := (lambda_home + lambda_away)%R in
  FeatureEngineer._poisson_over_x lambda_home lambda_away 2.5%Q
  = (1 - exp (- s) * (1 + s + s * s / 2))%R
  /\ (0 <= FeatureEngineer._poisson_over_x lambda_home lambda_away 2.5%Q <= 1)%R.
Proof.
  intros Hh Ha s. split.
  - apply poisson_over_x_closed.
  - now apply poisson_over_x_range.
Qed.

Lemma X14_poisson_over25_is_a_probability_witness :
  FeatureEngineer._poisson_over_x 1.2 1.0 2.5%Q
  = (1 - exp (- (1.2 + 1.0)) * (1 + (1.2 + 1.0) + (1.2 + 1.0) * (1.2 + 1.0) / 2))%R
  /\ (0 <= FeatureEngineer._poisson_over_x 1.2 1.0 2.5%Q <= 1)%R.
Proof.
  apply (X14_poisson_over25_is_a_probability 1.2 1.0); lra.
Defined.

Section ShortHistory.

Import FeatureEngineer.

Lemma extract_features_items (home_team away_team : string)
    (home_history away_history : list MatchRecord) (league : string) (kickoff : Z)
    (fs : features) :
  extract_features home_team away_team home_history away_history league kickoff
  = Ok fs ->
  let league_avg := dict_get league_avg_goals league 2.75 in
  item fs "home_goals_avg_5" = Ok (_goals_avg (firstn 5 home_history) home_team)
  /\ item fs "away_goals_avg_5" = Ok (_goals_avg (firstn 5 away_history) away_team)
  /\ item fs "home_goals_avg_10" = Ok (_goals_avg (firstn 10 home_history) home_team)
  /\ item fs "away_goals_avg_10" = Ok (_goals_avg (firstn 10 away_history) away_team)
  /\ item fs "home_goals_trend"
     = Ok (_goals_avg (firstn 5 home_history) home_team
           - _goals_avg (firstn 5 (skipn 5 home_history)) home_team)%R
  /\ item fs "away_goals_trend"
     = Ok (_goals_avg (firstn 5 away_history) away_team
           - _goals_avg (firstn 5 (skipn 5 away_history)) away_team)%R
  /\ item fs "lambda_home"
     = Ok (_goals_avg (firstn 10 home_history) home_team / (league_avg / 2)
           * (_goals_conceded_avg (firstn 10 away_history) away_team
              / (league_avg / 2))
           * (league_avg / 2))%R
  /\ item fs "lambda_away"
     = Ok (_goals_avg (firstn 10 away_history) away_team / (league_avg / 2)
           * (_goals_conceded_avg (firstn 10 home_history) home_team
              / (league_avg / 2))
           * (league_avg / 2))%R
  /\ (exists lh la, item fs "lambda_home" = Ok lh /\ item fs "lambda_away" = Ok la
        /\ item fs "expected_total_goals" = Ok (lh + la)%R
        /\ item fs "poisson_over25" = Ok (_poisson_over_x lh la 2.5%Q)).
Proof.
  intros H league_avg. unfold extract_features in H.
  cbv beta iota zeta delta [bind] in H.
  destruct (_h2h_btts_rate _ _ _); [|discriminate H].
  destruct (_over_rate (firstn 10 home_history) _); [|discriminate H].
  destruct (_over_rate (firstn 10 away_history) _); [|discriminate H].
  destruct (_btts_rate (firstn 10 home_history) _); [|discriminate H].
  destruct (_btts_rate (firstn 10 away_history) _); [|discriminate H].
  injection H as <-.
  repeat split; try reflexivity.
  eexists _, _. repeat split; reflexivity.
Qed.


End ShortHistory.

(** X15. With five or fewer matches of history the window of the preceding
    five is empty and counts as 0.0: the goals trend of that side is then
    its goal average itself, and the 5- and 10-match averages coincide. *)
Theorem X15_short_history_trend_is_the_average
    (home_team away_team : string)
    (home_history away_history : list FeatureEngineer.MatchRecord)
    (league : string) (kickoff : Z) (fs : FeatureEngineer.features) :
  FeatureEngineer.extract_features home_team away_team home_history away_history
    league kickoff = Ok fs ->
  ((List.length home_history <= 5)%nat ->
   FeatureEngineer.item fs "home_goals_trend"
   = FeatureEngineer.item fs "home_goals_avg_5"
   /\ FeatureEngineer.item fs "home_goals_avg_10"
      = FeatureEngineer.item fs "home_goals_avg_5")
  /\ ((List.length away_history <= 5)%nat ->
      FeatureEngineer.item fs "away_goals_trend"
      = FeatureEngineer.item fs "away_goals_avg_5"
      /\ FeatureEngineer.item fs "away_goals_avg_10"
         = FeatureEngineer.item fs "away_goals_avg_5").
Proof.
  intros H.
  destruct (extract_features_items _ _ _ _ _ _ _ H)
    as (H5 & A5 & H10 & A10 & Ht & At & _).
  split; intros Hlen.
  - rewrite Ht, H5, H10.
    rewrite (skipn_all2 home_history) by exact Hlen.
    rewrite !(firstn_all2 home_history) by lia.
    simpl firstn. split; [|reflexivity]. f_equal.
    change (FeatureEngineer._goals_avg [] home_team) with 0%R. ring.
  - rewrite At, A5, A10.
    rewrite (skipn_all2 away_history) by exact Hlen.
    rewrite !(firstn_all2 away_history) by lia.
    simpl firstn. split; [|reflexivity]. f_equal.
    change (FeatureEngineer._goals_avg [] away_team) with 0%R. ring.
Qed.

Lemma X15_short_history_trend_is_the_average_witness :
  exists fs,
    FeatureEngineer.extract_features "A" "B"
      [Scenario.finished "A" "B" 2 1] [Scenario.finished "B" "D" 0 0] "La Liga" 0
    = Ok fs
    /\ FeatureEngineer.item fs "home_goals_trend"
       = FeatureEngineer.item fs "home_goals_avg_5"
    /\ FeatureEngineer.item fs "away_goals_trend"
       = FeatureEngineer.item fs "away_goals_avg_5".
Proof.
  destruct (extract_features_without_null "A" "B"
              [Scenario.finished "A" "B" 2 1] [Scenario.finished "B" "D" 0 0]
              "La Liga" 0) as [fs Hfs]; [repeat constructor | repeat constructor |].
  exists fs. split; [exact Hfs|].
  destruct (X15_short_history_trend_is_the_average _ _ _ _ _ _ _ Hfs) as [Hh Ha].
  split; [apply Hh | apply Ha]; simpl; lia.
Defined.

Section VenueAndSigns.

Import FeatureEngineer FeatureSchema.

Lemma fold_left_map_same {A S : Type} (step : S -> A -> S) (g : A -> A)
    (ms : list A) (P : A -> Prop) :
  (forall acc m, P m -> step acc (g m) = step acc m) ->
  Forall P ms ->
  forall acc, fold_left step (map g ms) acc = fold_left step ms acc.
Proof.
  intros Hstep HP. induction HP as [|m ms Hm _ IH]; intros acc; simpl;
    [reflexivity|].
  rewrite Hstep by exact Hm. apply IH.
Qed.

Lemma sum_nonneg (xs : list Z) :
  Forall (fun g => 0 <= g) xs -> 0 <= sum xs.
Proof.
  unfold sum. intros H.
  assert (G : forall acc, 0 <= acc -> 0 <= fold_left Z.add xs acc).
  { induction H as [|x xs Hx _ IH]; simpl; intros acc Hacc; [exact Hacc|].
    apply IH. lia. }
  apply G. lia.
Qed.

Lemma mean_or_zero_nonneg (xs : list Z) :
  Forall (fun g => 0 <= g) xs ->
  (0 <= (if is_empty xs then 0 else np_mean xs))%R.
Proof.
  intros H. destruct xs as [|x xs]; simpl; [lra|].
  unfold np_mean. apply Rmult_le_pos.
  - apply IZR_le. now apply sum_nonneg.
  - left. apply Rinv_0_lt_compat. apply IZR_lt. unfold len. simpl. lia.
Qed.

Lemma fold_left_Forall {A B : Type} (P : B -> Prop) (Q : A -> Prop)
    (step : list B -> A -> list B) (ms : list A) (acc : list B) :
  (forall acc m, Q m -> Forall P acc -> Forall P (step acc m)) ->
  Forall Q ms -> Forall P acc -> Forall P (fold_left step ms acc).
Proof.
  intros Hstep HQ. revert acc. induction HQ as [|m ms Hm _ IH]; intros acc Hacc;
    simpl; [exact Hacc|].
  apply IH, Hstep; assumption.
Qed.

Lemma goals_nonneg_get (m : MatchRecord) :
  goals_nonneg m = true ->
  (forall g, get (fullTime_home m) = Some g -> 0 <= g)
  /\ (forall g, get (fullTime_away m) = Some g -> 0 <= g).
Proof.
  unfold goals_nonneg. intros H. apply andb_prop in H. destruct H as [Hh Ha].
  split; intros g Hg.
  - destruct (fullTime_home m); try discriminate. injection Hg as <-.
    simpl in Hh. lia.
  - destruct (fullTime_away m); try discriminate. injection Hg as <-.
    simpl in Ha. lia.
Qed.

Lemma goals_avg_nonneg (matches : list MatchRecord) (team : string) :
  Forall (fun m => goals_nonneg m = true) matches ->
  (0 <= _goals_avg matches team)%R /\ (0 <= _goals_conceded_avg matches team)%R.
Proof.
  intros H. unfold _goals_avg, _goals_conceded_avg.
  split; apply mean_or_zero_nonneg;
    (eapply fold_left_Forall; [|exact H|constructor]);
    intros acc m Hm Hacc; cbv beta;
    destruct (goals_nonneg_get m Hm) as [Hh Ha];
    repeat match goal with
           | |- context [if ?b then _ else _] => destruct b
           | |- context [match get ?e with _ => _ end] =>
               let E := fresh "E" in destruct (get e) eqn:E
           end; try assumption;
    apply Forall_app; split; try assumption; repeat constructor; auto.
Qed.

End VenueAndSigns.

Section Venue.

Import FeatureEngineer FeatureSchema.

Lemma name_eq_both (m : MatchRecord) (team : string) :
  homeTeam_name m <> awayTeam_name m ->
  name_eq (homeTeam_name m) team = true ->
  name_eq (awayTeam_name m) team = true -> False.
Proof.
  intros Hne Hh Ha. apply Hne.
  destruct (homeTeam_name m) as [h|], (awayTeam_name m) as [a|];
    simpl in *; try discriminate.
  apply String.eqb_eq in Hh, Ha. congruence.
Qed.

Lemma mirror_aggregates (matches : list MatchRecord) (team : string) :
  Forall (fun m => homeTeam_name m <> awayTeam_name m) matches ->
  _goals_avg (map mirror matches) team = _goals_avg matches team
  /\ _goals_conceded_avg (map mirror matches) team
     = _goals_conceded_avg matches team
  /\ _points_form (map mirror matches) team = _points_form matches team
  /\ _goal_difference (map mirror matches) team = _goal_difference matches team.
Proof.
  intros H.
  unfold _goals_avg, _goals_conceded_avg, _points_form, _goal_difference.
  repeat split;
    (rewrite (fold_left_map_same _ mirror matches
                (fun m => homeTeam_name m <> awayTeam_name m));
     [reflexivity | | exact H]);
    intros acc m Hne; try (destruct acc as [scored conceded]);
    unfold mirror; simpl;
    destruct (name_eq (homeTeam_name m) team) eqn:Eh,
             (name_eq (awayTeam_name m) team) eqn:Ea;
    try (exfalso; exact (name_eq_both m team Hne Eh Ea));
    try reflexivity;
    destruct (get (fullTime_home m)) as [hg|], (get (fullTime_away m)) as [ag|];
    try reflexivity;
    rewrite (Z.eqb_sym ag hg); reflexivity.
Qed.

End Venue.

(** X16. The goal and points aggregates do not depend on the venue: seeing
    every match of a window from the other ground (sides and scores swapped)
    leaves the goals-for and goals-against averages, the points form and the
    goal difference of a team unchanged, as long as no record names one team
    on both sides. *)
Theorem X16_aggregates_independent_of_venue
    (matches : list FeatureEngineer.MatchRecord) (team : string) :
  Forall (fun m => FeatureEngineer.homeTeam_name m <> FeatureEngineer.awayTeam_name m)
         matches ->
  FeatureEngineer._goals_avg (map FeatureSchema.mirror matches) team
  = FeatureEngineer._goals_avg matches team
  /\ FeatureEngineer._goals_conceded_avg (map FeatureSchema.mirror matches) team
     = FeatureEngineer._goals_conceded_avg matches team
  /\ FeatureEngineer._points_form (map FeatureSchema.mirror matches) team
     = FeatureEngineer._points_form matches team
  /\ FeatureEngineer._goal_difference (map FeatureSchema.mirror matches) team
     = FeatureEngineer._goal_difference matches team.
Proof. apply mirror_aggregates. Qed.

Lemma X16_aggregates_independent_of_venue_witness :
  let window := [Scenario.finished "A" "B" 2 1; Scenario.finished "C" "A" 0 3] in
  FeatureEngineer._goals_avg (map FeatureSchema.mirror window) "A"
  = FeatureEngineer._goals_avg window "A"
  /\ FeatureEngineer._goals_conceded_avg (map FeatureSchema.mirror window) "A"
     = FeatureEngineer._goals_conceded_avg window "A"
  /\ FeatureEngineer._points_form (map FeatureSchema.mirror window) "A"
     = FeatureEngineer._points_form window "A"
  /\ FeatureEngineer._goal_difference (map FeatureSchema.mirror window) "A"
     = FeatureEngineer._goal_difference window "A".
Proof.
  intros window. apply X16_aggregates_independent_of_venue.
  repeat constructor; discriminate.
Defined.

(** X17. When no goal count of the two histories is negative, the two
    expected-goal rates of the dictionary are not negative, the expected total
    is their sum, the Poisson over-2.5 field is a probability, and the
    both-teams-score probability computed from the rates lies in [0, 1]. *)
Theorem X17_rates_and_probabilities_in_range
    (home_team away_team : string)
    (home_history away_history : list FeatureEngineer.MatchRecord)
    (league : string) (kickoff : Z) (fs : FeatureEngineer.features) :
  Forall (fun m => FeatureSchema.goals_nonneg m = true) home_history ->
  Forall (fun m => FeatureSchema.goals_nonneg m = true) away_history ->
  FeatureEngineer.extract_features home_team away_team home_history away_history
    league kickoff = Ok fs ->
  exists lambda_home lambda_away,
    FeatureEngineer.item fs "lambda_home" = Ok lambda_home
    /\ FeatureEngineer.item fs "lambda_away" = Ok lambda_away
    /\ (0 <= lambda_home)%R /\ (0 <= lambda_away)%R
    /\ FeatureEngineer.item fs "expected_total_goals"
       = Ok (lambda_home + lambda_away)%R
    /\ FeatureEngineer.item fs "poisson_over25"
       = Ok (FeatureEngineer._poisson_over_x lambda_home lambda_away 2.5%Q)
    /\ (0 <= FeatureEngineer._poisson_over_x lambda_home lambda_away 2.5%Q <= 1)%R
    /\ (0 <= HybridPredictor.predict_btts lambda_home lambda_away 1.0 <= 1)%R.
Proof.
  intros Hh Ha H.
  destruct (extract_features_items _ _ _ _ _ _ _ H)
    as (_ & _ & _ & _ & _ & _ & Hlh & Hla & (lh & la & Hlh' & Hla' & Hsum & Hp)).
  cbv zeta in Hlh, Hla.
  pose proof (league_avg_positive league) as Hpos.
  set (league_avg := FeatureEngineer.dict_get FeatureEngineer.league_avg_goals
                       league 2.75) in *.
  destruct (goals_avg_nonneg (firstn 10 home_history) home_team
              (Forall_firstn _ _ _ Hh)) as [Gh Ch].
  destruct (goals_avg_nonneg (firstn 10 away_history) away_team
              (Forall_firstn _ _ _ Ha)) as [Ga Ca].
  assert (Hinv : (0 < / (league_avg / 2))%R) by (apply Rinv_0_lt_compat; lra).
  assert (Lh : (0 <= lh)%R).
  { rewrite Hlh in Hlh'.
    apply (f_equal (fun r => match r with Ok x => x | Raise _ => 0%R end)) in Hlh'.
    cbv beta iota in Hlh'. rewrite <- Hlh'. unfold Rdiv at 1 3.
    repeat apply Rmult_le_pos; lra. }
  assert (La : (0 <= la)%R).
  { rewrite Hla in Hla'.
    apply (f_equal (fun r => match r with Ok x => x | Raise _ => 0%R end)) in Hla'.
    cbv beta iota in Hla'. rewrite <- Hla'. unfold Rdiv at 1 3.
    repeat apply Rmult_le_pos; lra. }
  exists lh, la. repeat split; try assumption.
  - apply (poisson_over_x_range lh la Lh La).
  - apply (poisson_over_x_range lh la Lh La).
  - apply (predict_btts_range lh la Lh La).
  - apply (predict_btts_range lh la Lh La).
Qed.

Lemma X17_rates_and_probabilities_in_range_witness :
  exists fs lambda_home lambda_away,
    FeatureEngineer.extract_features "A" "B"
      [Scenario.finished "A" "B" 2 1] [Scenario.finished "B" "D" 0 0] "La Liga" 0
    = Ok fs
    /\ FeatureEngineer.item fs "lambda_home" = Ok lambda_home
    /\ FeatureEngineer.item fs "lambda_away" = Ok lambda_away
    /\ (0 <= lambda_home)%R /\ (0 <= lambda_away)%R
    /\ (0 <= FeatureEngineer._poisson_over_x lambda_home lambda_away 2.5%Q <= 1)%R
    /\ (0 <= HybridPredictor.predict_btts lambda_home lambda_away 1.0 <= 1)%R.
Proof.
  destruct (extract_features_without_null "A" "B"
              [Scenario.finished "A" "B" 2 1] [Scenario.finished "B" "D" 0 0]
              "La Liga" 0) as [fs Hfs]; [repeat constructor | repeat constructor |].
  destruct (X17_rates_and_probabilities_in_range "A" "B"
              [Scenario.finished "A" "B" 2 1] [Scenario.finished "B" "D" 0 0]
              "La Liga" 0 fs) as (lh & la & H1 & H2 & H3 & H4 & _ & _ & H5 & H6);
    [repeat constructor | repeat constructor | exact Hfs |].
  exists fs, lh, la.
  exact (conj Hfs (conj H1 (conj H2 (conj H3 (conj H4 (conj H5 H6)))))).
Defined.

(** ** The scan loop *)

Section Accepted.

Import RealTimeMonitor.

(** What an accepted prediction carries. *)
Lemma accepted_facts (self : t) (session : Session) (mtch : Fixture)
    (league_name : string) (p : Prediction) :
  _predict_match self session mtch league_name = Ok (Accepted p) ->
  match_id mtch = Some (fixture_id p)
  /\ league p = league_name
  /\ (exists home away date,
        match_homeTeam mtch = Some home /\ team_name home = Some (home_team p)
        /\ match_awayTeam mtch = Some away /\ team_name away = Some (away_team p)
        /\ match_utcDate mtch = Some date /\ kickoff_utc p = iso_text date)
  /\ (over25_min_probability (thresholds (config self)) <= over25_prob p)%R
  /\ over25_confidence p
     = (if Rleb 0.75 (over25_prob p) then "High"
        else if Rleb 0.65 (over25_prob p) then "Medium" else "Low").
Proof.
  intros H. unfold _predict_match in H. by_statement H.
  injection H as <-. simpl.
  repeat match goal with
         | Hs : subscript _ _ = Ok _ |- _ => apply subscript_Some in Hs
         end.
  match goal with
  | Hp : HybridPredictor.predict_over25 _ _ = Ok ?r |- _ =>
      unfold HybridPredictor.predict_over25 in Hp;
      destruct (HybridPredictor.over25_model (predictor self));
      [injection Hp as <- | discriminate Hp]
  end.
  simpl in *.
  split; [assumption|]. split; [reflexivity|].
  split; [eexists _, _, _; repeat split; eassumption|].
  split; [|reflexivity].
  match goal with
  | Hlt : Rltb ?x ?y = false |- _ =>
      unfold Rltb in Hlt; destruct (Rlt_dec x y); [discriminate | lra]
  end.
Qed.

End Accepted.

Section Runs.

Import RealTimeMonitor.

Variable self : t.

(** Every iteration either leaves the ledger alone or saves one accepted
    prediction of a fixture the ledger did not hold. *)
Lemma step_cases (now : Z) (comp_name : string) (db : Database.t)
    (item : Fixture * Session) :
  let db' := fst (process_match self now comp_name db item) in
  let o := snd (process_match self now comp_name db item) in
  (was_saved o = false /\ db' = db)
  \/ (exists p, o = Returned (Accepted p)
                /\ db' = Database.save_prediction (wall_clock (snd item)) p db
                /\ match_id (fst item) = Some (fixture_id p)
                /\ Database.prediction_exists (fixture_id p) db = false
                /\ _predict_match self (snd item) (fst item) comp_name
                   = Ok (Accepted p)).
Proof.
  destruct item as [mtch session]. intros db' o. subst db' o.
  destruct (process_match self now comp_name db (mtch, session)) as [db' o] eqn:E.
  simpl fst; simpl snd.
  destruct (process_match_ledger _ _ _ _ _ _ _ _ E)
    as [Hleft | (p & -> & -> & Hid & Hex)]; [left; exact Hleft|].
  right. exists p. repeat split; try assumption.
  unfold process_match in E.
  destruct (negb (is_scheduled (match_status mtch))); [discriminate|].
  destruct (try_match self now comp_name db mtch session) as [[d o]|e] eqn:Et;
    [|discriminate].
  injection E as -> ->. unfold try_match in Et. by_statement Et;
    injection Et as _ Ho; try discriminate Ho.
  subst. reflexivity.
Qed.

Lemma run_rows (db0 : Database.t) (cycles : list Cycle) :
  let db := fst (monitor_loop self cycles db0) in
  (forall row,
     In row (Database.predictions db) ->
     In row (Database.predictions db0)
     \/ (Database.status row = "PENDING"
         /\ (over25_min_probability (thresholds (config self))
             <= over25_prob (Database.columns row))%R
         /\ over25_confidence (Database.columns row)
            = (if Rleb 0.75 (over25_prob (Database.columns row)) then "High"
               else if Rleb 0.65 (over25_prob (Database.columns row))
                    then "Medium" else "Low")))
  /\ Database.results db = Database.results db0
  /\ (LedgerHistory.consistent db0 -> LedgerHistory.consistent db).
Proof.
  apply (monitor_loop_keeps self
           (fun st =>
              (forall row,
                 In row (Database.predictions (fst st)) ->
                 In row (Database.predictions db0)
                 \/ (Database.status row = "PENDING"
                     /\ (over25_min_probability (thresholds (config self))
                         <= over25_prob (Database.columns row))%R
                     /\ over25_confidence (Database.columns row)
                        = (if Rleb 0.75 (over25_prob (Database.columns row))
                           then "High"
                           else if Rleb 0.65 (over25_prob (Database.columns row))
                                then "Medium" else "Low")))
              /\ Database.results (fst st) = Database.results db0
              /\ (LedgerHistory.consistent db0 -> LedgerHistory.consistent (fst st)))).
  - intros now comp_name db log item (Hrows & Hres & Hcons). simpl fst in *.
    destruct (step_cases now comp_name db item)
      as [[_ ->] | (p & _ & -> & _ & _ & Hp)].
    + exact (conj Hrows (conj Hres Hcons)).
    + destruct (accepted_facts _ _ _ _ _ Hp) as (_ & _ & _ & Hmin & Hlabel).
      split; [|split].
      * intros row Hin. unfold Database.save_prediction in Hin. simpl in Hin.
        apply in_app_or in Hin. destruct Hin as [Hin | [<- | []]].
        -- apply filter_In in Hin. apply Hrows, Hin.
        -- right. simpl. repeat split; assumption.
      * exact Hres.
      * intros H0. apply save_prediction_consistent, Hcons, H0.
  - simpl. split; [auto|]. split; [reflexivity | auto].
Qed.

Lemma run_known_fixture (db0 : Database.t) (cycles : list Cycle) (i : Z) :
  Database.prediction_exists i db0 = true ->
  Database.rows_of i (fst (monitor_loop self cycles db0)) = Database.rows_of i db0.
Proof.
  intros H0.
  apply (monitor_loop_keeps self
           (fun st => Database.rows_of i (fst st) = Database.rows_of i db0)).
  - intros now comp_name db log item Hrows. simpl fst in *.
    destruct (step_cases now comp_name db item)
      as [[_ ->] | (p & _ & -> & _ & Hex & _)]; [exact Hrows|].
    destruct (Z.eq_dec i (fixture_id p)) as [->|Hne].
    + rewrite prediction_exists_rows, Hrows, <- prediction_exists_rows in Hex.
      congruence.
    + rewrite rows_of_save_other by exact Hne. exact Hrows.
  - reflexivity.
Qed.

Lemma run_exists (db0 : Database.t) (cycles : list Cycle) (i : Z) :
  Database.prediction_exists i (fst (monitor_loop self cycles db0))
  = Database.prediction_exists i db0
    || (0 <? times_saved i (snd (monitor_loop self cycles db0)))%nat.
Proof.
  apply (monitor_loop_keeps self
           (fun st => Database.prediction_exists i (fst st)
                      = Database.prediction_exists i db0
                        || (0 <? times_saved i (snd st))%nat)).
  - intros now comp_name db log item Hinv. simpl fst in *; simpl snd in *.
    rewrite times_saved_snoc.
    destruct (step_cases now comp_name db item)
      as [[Hns ->] | (p & -> & -> & Hid & _ & _)].
    + rewrite Hns, andb_false_r, Nat.add_0_r. exact Hinv.
    + rewrite prediction_exists_save, (is_fixture_id _ _ _ Hid). simpl was_saved.
      rewrite andb_true_r, Z.eqb_sym.
      destruct (fixture_id p =? i); simpl.
      * rewrite orb_true_r || idtac.
        replace (0 <? times_saved i log + 1)%nat with true
          by (symmetry; apply Nat.ltb_lt; lia).
        now rewrite orb_true_r.
      * rewrite Nat.add_0_r. exact Hinv.
  - unfold times_saved. simpl. now rewrite orb_false_r.
Qed.

Lemma scan_silent (c : Cycle) (state : Database.t * journal) :
  CycleFeed.feed_silent c -> scan_upcoming_matches self c state = (state, None).
Proof.
  intros Hsilent. unfold CycleFeed.feed_silent in Hsilent.
  unfold scan_upcoming_matches.
  generalize (leagues (config self)). intros ls.
  induction ls as [|[code info] rest IH]; simpl; [reflexivity|].
  assert (F : forall a b d, _fetch_matches c a b d = [])
    by (intros; apply Hsilent).
  rewrite (F (league_id info)). simpl. exact IH.
Qed.

End Runs.

(** X18. After any run every [predictions] row is either a row the ledger
    held before the run or a row with status PENDING whose over-2.5
    probability is not below the configured minimum and whose confidence label
    is the band of that probability; table [results] is not written. *)
Theorem X18_run_adds_only_accepted_rows
    (self : RealTimeMonitor.t) (cycles : list RealTimeMonitor.Cycle)
    (db0 : Database.t) :
  let db := fst (RealTimeMonitor.monitor_loop self cycles db0) in
  let min_over25 :=
    RealTimeMonitor.over25_min_probability
      (RealTimeMonitor.thresholds (RealTimeMonitor.config self)) in
  Forall (fun row =>
            In row (Database.predictions db0)
            \/ (Database.status row = "PENDING"
                /\ (min_over25 <= over25_prob (Database.columns row))%R
                /\ over25_confidence (Database.columns row)
                   = (if Rleb 0.75 (over25_prob (Database.columns row)) then "High"
                      else if Rleb 0.65 (over25_prob (Database.columns row))
                           then "Medium" else "Low")))
         (Database.predictions db)
  /\ Database.results db = Database.results db0.
Proof.
  intros db min_over25. subst db min_over25.
  destruct (run_rows self db0 cycles) as (Hrows & Hres & _).
  split; [|exact Hres]. apply Forall_forall. exact Hrows.
Qed.

(** X19. A run keeps the ledger consistent: started on a ledger without
    duplicate fixture identifiers or row ids, it ends on one. *)
Theorem X19_run_keeps_ledger_consistent
    (self : RealTimeMonitor.t) (cycles : list RealTimeMonitor.Cycle)
    (db0 : Database.t) :
  LedgerHistory.consistent db0 ->
  LedgerHistory.consistent (fst (RealTimeMonitor.monitor_loop self cycles db0)).
Proof.
  intros H0. destruct (run_rows self db0 cycles) as (_ & _ & Hcons). auto.
Qed.

Lemma X19_run_keeps_ledger_consistent_witness :
  LedgerHistory.consistent
    (fst (RealTimeMonitor.monitor_loop (Scenario.monitor (Some Scenario.keen))
            [Scenario.cycle 0 [(Scenario.fixture 7, Scenario.session 0)]]
            Scenario.empty_db)).
Proof.
  apply X19_run_keeps_ledger_consistent.
  unfold LedgerHistory.consistent. simpl. split; [|split]; constructor.
Defined.

(** X20. A prediction is not touched once it is in the ledger: through any
    run the rows of a fixture the ledger held at the start stay exactly as
    they were (values, timestamp, status and row id). *)
Theorem X20_run_leaves_known_fixture_alone
    (self : RealTimeMonitor.t) (cycles : list RealTimeMonitor.Cycle)
    (db0 : Database.t) (i : Z) :
  Database.prediction_exists i db0 = true ->
  Database.rows_of i (fst (RealTimeMonitor.monitor_loop self cycles db0))
  = Database.rows_of i db0.
Proof. apply run_known_fixture. Qed.

Lemma X20_run_leaves_known_fixture_alone_witness :
  let db0 := Database.save_prediction 0 (Scenario.prediction 7) Scenario.empty_db in
  Database.rows_of 7
    (fst (RealTimeMonitor.monitor_loop (Scenario.monitor (Some Scenario.keen))
            [Scenario.cycle 0 [(Scenario.fixture 7, Scenario.session 0)]] db0))
  = Database.rows_of 7 db0.
Proof.
  intros db0. apply X20_run_leaves_known_fixture_alone. reflexivity.
Defined.

(** X21. After a run the ledger holds a prediction for a fixture exactly when
    it held one before or the journal of the run records a save for that
    fixture. *)
Theorem X21_ledger_agrees_with_journal
    (self : RealTimeMonitor.t) (cycles : list RealTimeMonitor.Cycle)
    (db0 : Database.t) (i : Z) :
  Database.prediction_exists i (fst (RealTimeMonitor.monitor_loop self cycles db0))
  = Database.prediction_exists i db0
    || (0 <? RealTimeMonitor.times_saved i
               (snd (RealTimeMonitor.monitor_loop self cycles db0)))%nat.
Proof. apply run_exists. Qed.

(** X23. When the feed returns nothing for any competition (exception,
    status other than 200, or a body without matches) the scan changes
    neither the ledger nor the journal, and ends without an exception. *)
Theorem X23_silent_feed_changes_nothing
    (self : RealTimeMonitor.t) (c : RealTimeMonitor.Cycle)
    (state : Database.t * RealTimeMonitor.journal) :
  CycleFeed.feed_silent c ->
  RealTimeMonitor.scan_upcoming_matches self c state = (state, None).
Proof. apply scan_silent. Qed.

Lemma X23_silent_feed_changes_nothing_witness :
  let down :=
    {| RealTimeMonitor.now_utc := 0;
       RealTimeMonitor.competition_matches :=
         fun _ _ _ => @RealTimeMonitor.Exception
                        (RealTimeMonitor.feed_entry * RealTimeMonitor.Session) |} in
  RealTimeMonitor.scan_upcoming_matches (Scenario.monitor (Some Scenario.keen))
    down (Scenario.empty_db, [])
  = ((Scenario.empty_db, []), None).
Proof.
  intros down. apply X23_silent_feed_changes_nothing.
  intros comp_id date_from date_to. reflexivity.
Defined.

(** X24. A prediction returned by [_predict_match] is that of its fixture: it
    carries the fixture's identifier, team names and kickoff string and the
    competition name it was called with; its over-2.5 probability is not below
    the configured minimum, so with a minimum of 0.65 or more its confidence
    label is never "Low". *)
Theorem X24_accepted_prediction_describes_its_fixture
    (self : RealTimeMonitor.t) (session : RealTimeMonitor.Session)
    (mtch : RealTimeMonitor.Fixture) (league_name : string) (p : Prediction) :
  RealTimeMonitor._predict_match self session mtch league_name
  = Ok (RealTimeMonitor.Accepted p) ->
  let min_over25 :=
    RealTimeMonitor.over25_min_probability
      (RealTimeMonitor.thresholds (RealTimeMonitor.config self)) in
  RealTimeMonitor.match_id mtch = Some (fixture_id p)
  /\ league p = league_name
  /\ (exists home away date,
        RealTimeMonitor.match_homeTeam mtch = Some home
        /\ RealTimeMonitor.team_name home = Some (home_team p)
        /\ RealTimeMonitor.match_awayTeam mtch = Some away
        /\ RealTimeMonitor.team_name away = Some (away_team p)
        /\ RealTimeMonitor.match_utcDate mtch = Some date
        /\ kickoff_utc p = RealTimeMonitor.iso_text date)
  /\ (min_over25 <= over25_prob p)%R
  /\ ((0.65 <= min_over25)%R ->
      over25_confidence p = "High" \/ over25_confidence p = "Medium").
Proof.
  intros H min_over25.
  destruct (accepted_facts _ _ _ _ _ H) as (Hid & Hl & Hfix & Hmin & Hlabel).
  fold min_over25 in Hmin.
  split; [exact Hid|]. split; [exact Hl|]. split; [exact Hfix|].
  split; [exact Hmin|]. intros H65. rewrite Hlabel.
  destruct (Rleb 0.75 (over25_prob p)); [left; reflexivity|].
  destruct (Rleb 0.65 (over25_prob p)) eqn:E; [right; reflexivity|].
  apply Rleb_false_iff in E. lra.
Qed.

Lemma X24_accepted_prediction_describes_its_fixture_witness :
  exists p,
    RealTimeMonitor._predict_match (Scenario.monitor (Some Scenario.keen))
      (Scenario.session 0) (Scenario.fixture 7) "Premier League"
    = Ok (RealTimeMonitor.Accepted p)
    /\ fixture_id p = 7
    /\ league p = "Premier League"
    /\ (0.65 <= over25_prob p)%R
    /\ (over25_confidence p = "High" \/ over25_confidence p = "Medium").
Proof.
  destruct (keen_accepted 0 7) as (p & Hp & _).
  destruct (X24_accepted_prediction_describes_its_fixture _ _ _ _ _ Hp)
    as (Hid & Hl & _ & Hmin & Hlabel).
  exists p. split; [exact Hp|].
  split; [simpl in Hid; congruence|]. split; [exact Hl|].
  split; [exact Hmin|]. apply Hlabel. simpl. lra.
Defined.

Section HeadToHead.

Import FeatureEngineer.

Lemma h2h_matches_sym (home away : string) (ms : list MatchRecord) :
  h2h_matches home away ms = h2h_matches away home ms.
Proof.
  unfold h2h_matches. apply filter_ext. intros m. apply orb_comm.
Qed.

Lemma sum_app (xs ys : list Z) : sum (xs ++ ys) = sum xs + sum ys.
Proof.
  unfold sum. rewrite fold_left_app.
  assert (G : forall l a b, fold_left Z.add l (a + b) = a + fold_left Z.add l b).
  { induction l as [|x l IH]; intros a b; simpl; [reflexivity|].
    rewrite <- Z.add_assoc. apply IH. }
  rewrite <- (Z.add_0_r (fold_left Z.add xs 0)) at 1. apply G.
Qed.

Lemma h2h_goals_collect (ms : list MatchRecord) (acc : list Z) :
  fold_left (fun goals m =>
               match get (fullTime_home m), get (fullTime_away m) with
               | Some hg, Some ag => goals ++ [hg + ag]
               | _, _ => goals
               end) ms acc
  = acc ++ fold_left (fun goals m =>
                        match get (fullTime_home m), get (fullTime_away m) with
                        | Some hg, Some ag => goals ++ [hg + ag]
                        | _, _ => goals
                        end) ms [].
Proof.
  revert acc. induction ms as [|m ms IH]; intros acc; simpl.
  - now rewrite app_nil_r.
  - rewrite IH. symmetry. rewrite IH.
    destruct (get (fullTime_home m)), (get (fullTime_away m));
      try reflexivity. now rewrite app_assoc.
Qed.

Lemma mean_twice (xs : list Z) :
  (if is_empty (xs ++ xs) then 2.75%R else np_mean (xs ++ xs))
  = (if is_empty xs then 2.75%R else np_mean xs).
Proof.
  destruct xs as [|x xs]; [reflexivity|].
  set (l := x :: xs).
  assert (E1 : is_empty l = false) by reflexivity.
  assert (E2 : is_empty (l ++ l) = false) by reflexivity.
  rewrite E1, E2.
  unfold np_mean. rewrite sum_app. unfold len. rewrite length_app.
  rewrite Nat2Z.inj_add, !plus_IZR.
  assert (0 < IZR (Z.of_nat (List.length l)))%R.
  { apply IZR_lt. subst l. simpl List.length. lia. }
  field. split; lra.
Qed.

Lemma h2h_goals_avg_facts (home away : string) (ms : list MatchRecord) :
  _h2h_goals_avg home away ms = _h2h_goals_avg away home ms
  /\ _h2h_btts_rate home away ms = _h2h_btts_rate away home ms
  /\ _h2h_goals_avg home away (ms ++ ms) = _h2h_goals_avg home away ms.
Proof.
  split; [|split].
  - unfold _h2h_goals_avg. now rewrite (h2h_matches_sym home away ms).
  - unfold _h2h_btts_rate. now rewrite (h2h_matches_sym home away ms).
  - unfold _h2h_goals_avg, h2h_matches.
    rewrite filter_app, fold_left_app, h2h_goals_collect.
    apply mean_twice.
Qed.

End HeadToHead.

(** X25. The head-to-head statistics do not depend on which of the two teams
    is named first, and the head-to-head goal average is the same when every
    match is listed twice, as it is when a meeting appears in the history of
    both teams. *)
Theorem X25_head_to_head_order_and_duplicates
    (home_team away_team : string) (matches : list FeatureEngineer.MatchRecord) :
  FeatureEngineer._h2h_goals_avg home_team away_team matches
  = FeatureEngineer._h2h_goals_avg away_team home_team matches
  /\ FeatureEngineer._h2h_btts_rate home_team away_team matches
     = FeatureEngineer._h2h_btts_rate away_team home_team matches
  /\ FeatureEngineer._h2h_goals_avg home_team away_team (matches ++ matches)
     = FeatureEngineer._h2h_goals_avg home_team away_team matches.
Proof. apply h2h_goals_avg_facts. Qed.

(** ** A failure inside the try block *)

Section Skipped.

Import RealTimeMonitor.

(** An iteration that ends in a caught exception, or of which a history
    request fails, saves nothing. *)
Lemma failed_iteration_saves_nothing (self : t) (now : Z) (comp_name : string)
    (db : Database.t) (mtch : Fixture) (session : Session) :
  (exists e, snd (process_match self now comp_name db (mtch, session)) = Caught e)
  \/ history_fetch_fails mtch session ->
  exists o,
    process_match self now comp_name db (mtch, session) = (db, o)
    /\ was_saved o = false.
Proof.
  intros Hfail.
  destruct (process_match self now comp_name db (mtch, session)) as [db' o] eqn:E.
  assert (Hns : was_saved o = false).
  { destruct Hfail as [[e He] | Hfetch].
    - simpl in He. now subst o.
    - destruct o as [| | |[| |p]|]; try reflexivity. exfalso.
      unfold process_match in E.
      destruct (negb _); [discriminate|].
      destruct (try_match self now comp_name db mtch session)
        as [[d o]|e] eqn:Et; [|discriminate].
      injection E as -> ->.
      unfold try_match in Et. by_statement Et;
        injection Et as <- Ho; try discriminate Ho.
      match goal with
      | Hp : _predict_match _ _ _ _ = Ok (Accepted _)
        |- _ => exact (fetch_failure_not_accepted _ _ _ _ _ Hfetch Hp)
      end. }
  assert (Hdb : db' = db).
  { destruct (process_match_ledger _ _ _ _ _ _ _ _ E)
      as [[_ H] | (p & -> & _)]; [exact H | discriminate]. }
  subst db'. exists o. split; [reflexivity | exact Hns].
Qed.

(** What the ledger holds it holds to the end of a fixture loop. *)
Lemma scan_matches_ledger_grows (self : t) (now : Z) (comp_name : string)
    (matches : list (feed_entry * Session)) (state : Database.t * journal) (i : Z) :
  Database.prediction_exists i (fst state) = true ->
  Database.prediction_exists i
    (fst (fst (scan_matches self now comp_name matches state))) = true.
Proof.
  apply (scan_matches_keeps self
           (fun st => Database.prediction_exists i (fst st) = true)).
  intros now' comp db log [m session] Hex. cbn [fst] in *.
  destruct (process_match self now' comp db (m, session)) as [db' o] eqn:E.
  destruct (process_match_ledger _ _ _ _ _ _ _ _ E)
    as [[_ ->] | (p & _ & -> & _ & _)]; cbn [fst]; [exact Hex|].
  rewrite prediction_exists_save, Hex. apply orb_true_r.
Qed.

Lemma failure_is_skipped (self : t) (now : Z) (comp_name : string)
    (pre post : list (feed_entry * Session))
    (mtch next : Fixture) (session session' : Session)
    (db db1 : Database.t) (log log1 : journal)
    (date : IsoDate) (kickoff : Z) (p : Prediction) :
  scan_matches self now comp_name pre (db, log) = ((db1, log1), None) ->
  (exists e, snd (process_match self now comp_name db1 (mtch, session)) = Caught e)
  \/ history_fetch_fails mtch session ->
  is_scheduled (match_status next) = true ->
  match_utcDate next = Some date ->
  iso_instant date = Some kickoff ->
  now < kickoff ->
  Database.prediction_exists (fixture_id p) db1 = false ->
  _predict_match self session' next comp_name = Ok (Accepted p) ->
  exists o,
    process_match self now comp_name db1 (mtch, session) = (db1, o)
    /\ was_saved o = false
    /\ scan_matches self now comp_name
         (pre ++ (Object mtch, session) :: (Object next, session') :: post)
         (db, log)
       = scan_matches self now comp_name post
           (Database.save_prediction (wall_clock session') p db1,
            log1 ++ [(mtch, o); (next, Returned (Accepted p))])
    /\ Database.prediction_exists (fixture_id p)
         (fst (fst (scan_matches self now comp_name
                      (pre ++ (Object mtch, session) :: (Object next, session') :: post)
                      (db, log)))) = true.
Proof.
  intros Hpre Hfail Hst Hd Hk Hnow Hex Hp.
  destruct (failed_iteration_saves_nothing self now comp_name db1 mtch session Hfail)
    as (o & Ho & Hns).
  exists o. split; [exact Ho|]. split; [exact Hns|].
  assert (Hscan :
            scan_matches self now comp_name
              (pre ++ (Object mtch, session) :: (Object next, session') :: post)
              (db, log)
            = scan_matches self now comp_name post
                (Database.save_prediction (wall_clock session') p db1,
                 log1 ++ [(mtch, o); (next, Returned (Accepted p))])).
  { rewrite (scan_matches_app self now comp_name pre _ (db, log) (db1, log1) Hpre).
    rewrite scan_matches_object, Ho. cbn [fst snd].
    rewrite scan_matches_object.
    rewrite (process_match_accepts self now comp_name db1 next session' date kickoff p
               Hst Hd Hk Hnow Hex Hp).
    cbn [fst snd]. rewrite <- app_assoc. reflexivity. }
  split; [exact Hscan|].
  rewrite Hscan. apply scan_matches_ledger_grows. cbn [fst].
  rewrite prediction_exists_save, Z.eqb_refl. reflexivity.
Qed.

End Skipped.

(** X26. A failure inside the [try] block does not stop the fixture loop.
    When the iteration of a fixture ends in a caught exception, or one of its
    history requests fails, the ledger is left as that iteration found it, and
    the fixture after it, if it is scheduled, still to be played, not in the
    ledger and accepted by the model, is scored and saved; its prediction is in
    the ledger when the loop ends. *)
Theorem X26_failure_inside_try_is_skipped
    (self : RealTimeMonitor.t) (now : Z) (comp_name : string)
    (pre post : list (RealTimeMonitor.feed_entry * RealTimeMonitor.Session))
    (mtch next : RealTimeMonitor.Fixture)
    (session session' : RealTimeMonitor.Session)
    (db db1 : Database.t) (log log1 : RealTimeMonitor.journal)
    (date : RealTimeMonitor.IsoDate) (kickoff : Z) (p : Prediction) :
  RealTimeMonitor.scan_matches self now comp_name pre (db, log)
  = ((db1, log1), None) ->
  (exists e,
     snd (RealTimeMonitor.process_match self now comp_name db1 (mtch, session))
     = RealTimeMonitor.Caught e)
  \/ RealTimeMonitor.history_fetch_fails mtch session ->
  RealTimeMonitor.is_scheduled (RealTimeMonitor.match_status next) = true ->
  RealTimeMonitor.match_utcDate next = Some date ->
  RealTimeMonitor.iso_instant date = Some kickoff ->
  now < kickoff ->
  Database.prediction_exists (fixture_id p) db1 = false ->
  RealTimeMonitor._predict_match self session' next comp_name
  = Ok (RealTimeMonitor.Accepted p) ->
  exists o,
    RealTimeMonitor.process_match self now comp_name db1 (mtch, session) = (db1, o)
    /\ RealTimeMonitor.was_saved o = false
    /\ RealTimeMonitor.scan_matches self now comp_name
         (pre ++ (RealTimeMonitor.Object mtch, session)
              :: (RealTimeMonitor.Object next, session') :: post)
         (db, log)
       = RealTimeMonitor.scan_matches self now comp_name post
           (Database.save_prediction (RealTimeMonitor.wall_clock session') p db1,
            log1 ++ [(mtch, o);
                     (next, RealTimeMonitor.Returned (RealTimeMonitor.Accepted p))])
    /\ Database.prediction_exists (fixture_id p)
         (fst (fst (RealTimeMonitor.scan_matches self now comp_name
                      (pre ++ (RealTimeMonitor.Object mtch, session)
                           :: (RealTimeMonitor.Object next, session') :: post)
                      (db, log)))) = true.
Proof. apply failure_is_skipped. Qed.

Lemma X26_failure_inside_try_is_skipped_witness :
  let self := Scenario.monitor (Some Scenario.keen) in
  exists p o,
    RealTimeMonitor._predict_match self (Scenario.session 0) (Scenario.fixture 7)
      "Premier League" = Ok (RealTimeMonitor.Accepted p)
    /\ RealTimeMonitor.process_match self 0 "Premier League" Scenario.empty_db
         (Scenario.fixture 8, Scenario.offline 0) = (Scenario.empty_db, o)
    /\ RealTimeMonitor.was_saved o = false
    /\ RealTimeMonitor.scan_matches self 0 "Premier League"
         ([] ++ (RealTimeMonitor.Object (Scenario.fixture 8), Scenario.offline 0)
             :: (RealTimeMonitor.Object (Scenario.fixture 7), Scenario.session 0)
             :: [])
         (Scenario.empty_db, [])
       = RealTimeMonitor.scan_matches self 0 "Premier League" []
           (Database.save_prediction 0 p Scenario.empty_db,
            [] ++ [(Scenario.fixture 8, o);
                   (Scenario.fixture 7,
                    RealTimeMonitor.Returned (RealTimeMonitor.Accepted p))])
    /\ Database.prediction_exists 7
         (fst (fst (RealTimeMonitor.scan_matches self 0 "Premier League"
                      ([] ++ (RealTimeMonitor.Object (Scenario.fixture 8),
                              Scenario.offline 0)
                          :: (RealTimeMonitor.Object (Scenario.fixture 7),
                              Scenario.session 0) :: [])
                      (Scenario.empty_db, [])))) = true.
Proof.
  intros self.
  destruct (keen_accepted 0 7) as (p & Hp & Hid & _).
  assert (Hfail : RealTimeMonitor.history_fetch_fails (Scenario.fixture 8)
                    (Scenario.offline 0)).
  { exists {| RealTimeMonitor.team_name := Some "Arsenal";
              RealTimeMonitor.team_id := Some 57 |}, 57.
    split; [left; reflexivity|]. split; reflexivity. }
  assert (Hex : Database.prediction_exists (fixture_id p) Scenario.empty_db = false)
    by reflexivity.
  destruct (X26_failure_inside_try_is_skipped self 0 "Premier League" [] []
              (Scenario.fixture 8) (Scenario.fixture 7)
              (Scenario.offline 0) (Scenario.session 0)
              Scenario.empty_db Scenario.empty_db [] []
              {| RealTimeMonitor.iso_text := "2025-01-04T15:00:00Z";
                 RealTimeMonitor.iso_instant := Some 1736002800 |}
              1736002800 p eq_refl (or_intror Hfail) eq_refl eq_refl eq_refl
              eq_refl Hex Hp) as (o & Ho & Hns & Hscan & Hin).
  rewrite Hid in Hin.
  exists p, o.
  exact (conj Hp (conj Ho (conj Hns (conj Hscan Hin)))).
Defined.

(** ** The probability floor *)

Section Floor.

Import FeatureEngineer RealTimeMonitor.



End Floor.


